(** * The identity switch and the command dispatcher of the TSI

    A shallow embedding of [lib/BecomeUser.py] and of the configuration
    loader and the dispatching part of [lib/TSI.py], the properties of the
    specification that concern them, and further properties of the code.

    Conventions of the embedding:
    - a Python [dict] with string keys is a [gmap string _]; a missing key
      read with [d[k]] raises [KeyError], [d.get(k, dflt)] gives [dflt];
    - Python objects stored in the configuration are values of the type
      [value]; conditions use Python's truth value ([truthy]);
    - a function that can raise returns a [result]; a function that acts on
      the process (credentials, environment, connector) is a state
      transformer [M];
    - the system calls that set ids follow the rules of Linux: they raise
      when the kernel refuses them or when an argument is no id;
    - the logger is not modelled: [LOG.info], [LOG.debug], [LOG.warning] and
      [LOG.error] have no effect on any value the program reads. *)

From Stdlib Require Import ZArith Lia String Ascii List Bool.
From stdpp Require Import base gmap strings list.
Import ListNotations.

Local Open Scope Z_scope.

(** ** Exceptions and results *)

(** The exceptions the modelled code raises.  Each [RuntimeError] of the
    source is a constructor of its own, named after its message. *)
Inductive exn : Type :=
| KeyError (key : string)                (* d[k], k absent *)
| IndexError                             (* requested_groups[0] on [] *)
| AttributeError                         (* method call on a non-cache *)
| TypeError                              (* a non-integer given to os.set*id *)
| OverflowError                          (* an integer that is no uid_t or gid_t *)
| ValueError                             (* os.setgroups: "too many groups" *)
| PermissionError                        (* OSError, errno EPERM *)
| InvalidArgument                        (* OSError, errno EINVAL *)
| UnboundLocalError (name : string)      (* pam_session read before bound *)
| RootNotSwitching                       (* "Running as root and not setting uids ..." *)
| UnknownUser (user : string)            (* "Attempted to run a task for an unknown user" *)
| CommandAsRoot (user : string)          (* "Attempted to run a command as root" *)
| UnknownPrimaryGroup (group : string)   (* "... unknown primary group" *)
| UnknownSupplementaryGroup (group : string) (* "... unknown supplementary group" *)
| NotAMember (user group : string)       (* "The user %s is not a member of the group %s" *)
| CouldNotSetUid (user : string) (uid : Z)
| CouldNotSetGid (user : string) (gid : Z)
| CouldNotSetGroups (user : string) (gids : list Z)
| NoUserGroupInfo                        (* "No user/group info given" *)
| SwitchStatus                           (* RuntimeError(user_switch_status) *)
| External (what : string).              (* raised by a collaborator *)

Inductive result (A : Type) : Type :=
| Ok (a : A)
| Raise (e : exn).
Arguments Ok {A} a.
Arguments Raise {A} e.

Definition bind_result {A B} (r : result A) (k : A -> result B) : result B :=
  match r with
  | Ok a => k a
  | Raise e => Raise e
  end.

Notation "'let!' x ':=' e 'in' k" := (bind_result e (fun x => k))
  (at level 10, x name, e at level 100, k at level 200).

(** ** The user cache

    [UserCache.py] is not part of the sources at hand.  Its six look-ups
    are taken as they are used: a name goes in, a number, a list or a
    string comes out, [-1] standing for "unknown".  One request sees one
    snapshot of the user database. *)
Record UserCache : Type := {
  get_uid_4user : string -> Z;
  get_gid_4user : string -> Z;
  get_gids_4user : string -> list Z;
  get_gid_4group : string -> Z;
  get_members_4group : string -> list string;
  get_home_4user : string -> string
}.

(** ** Configuration values *)

Inductive value : Type :=
| VNone
| VBool (b : bool)
| VInt (n : Z)
| VStr (s : string)
| VCache (uc : UserCache).

(** Python's truth value of an object. *)
Definition truthy (v : value) : bool :=
  match v with
  | VNone => false
  | VBool b => b
  | VInt n => negb (n =? 0)
  | VStr s => negb (String.eqb s EmptyString)
  | VCache _ => true
  end.

(** [v == n] for an integer literal [n]; [bool] is a subclass of [int]. *)
Definition eq_int (v : value) (n : Z) : bool :=
  match v with
  | VInt m => m =? n
  | VBool b => (if b then 1 else 0) =? n
  | _ => false
  end.

(** The integer handed to a system call that wants a uid or a gid. *)
Definition as_int (v : value) : result Z :=
  match v with
  | VInt m => Ok m
  | VBool b => Ok (if b then 1 else 0)
  | _ => Raise TypeError
  end.

(** A method of the user cache called on a configuration value. *)
Definition as_cache (v : value) : result UserCache :=
  match v with
  | VCache uc => Ok uc
  | _ => Raise AttributeError
  end.

Abbreviation config := (gmap string value).

(** [config[key]] *)
Definition getitem (cfg : config) (key : string) : result value :=
  match cfg !! key with
  | Some v => Ok v
  | None => Raise (KeyError key)
  end.

(** [config.get(key, dflt)] *)
Definition get_default (cfg : config) (key : string) (dflt : value) : value :=
  match cfg !! key with
  | Some v => v
  | None => dflt
  end.

(** [x in l] for a list of strings. *)
Definition str_in (x : string) (l : list string) : bool :=
  existsb (String.eqb x) l.

(** ** Group resolution ([BecomeUser.py]) *)

Definition check_membership (group : string) (group_gid : Z) (user : string)
    (cfg : config) : result bool :=
  let! enforce_os_gids := getitem cfg "tsi.enforce_os_gids" in
  let! user_cache := getitem cfg "tsi.user_cache" in
  if truthy enforce_os_gids then
    let! uc := as_cache user_cache in
    if negb (group_gid =? get_gid_4user uc user) then
      let mem_list := get_members_4group uc group in
      if negb (str_in user mem_list) then Ok false else Ok true
    else Ok true
  else Ok true.

Definition get_primary_group (primary user : string) (user_cache : UserCache)
    (fail_on_invalid_gids : value) (cfg : config) : result Z :=
  if String.eqb primary "DEFAULT_GID" then
    Ok (get_gid_4user user_cache user)
  else
    let new_gid := get_gid_4group user_cache primary in
    let! new_gid :=
      (if new_gid =? -1 then
         if truthy fail_on_invalid_gids then Raise (UnknownPrimaryGroup primary)
         else Ok (get_gid_4user user_cache user)
       else Ok new_gid) in
    let! member := check_membership primary new_gid user cfg in
    if negb member then
      if truthy fail_on_invalid_gids then Raise (NotAMember user primary)
      else Ok (get_gid_4user user_cache user)
    else Ok new_gid.

(** The dict [sup_gids]: integer keys in insertion order, each with its
    flag. *)
Abbreviation pydict := (list (Z * bool)).

(** [d[k] = v] *)
Fixpoint dict_set (k : Z) (v : bool) (d : pydict) : pydict :=
  match d with
  | [] => [(k, v)]
  | (k', v') :: rest =>
      if k =? k' then (k', v) :: rest else (k', v') :: dict_set k v rest
  end.

(** [for d in default_gids: sup_gids[d] = True] *)
Definition add_all (ks : list Z) (d : pydict) : pydict :=
  fold_left (fun acc k => dict_set k true acc) ks d.

(** The body of [for g in requested_groups], with the two variables the
    loop updates. *)
Fixpoint sup_loop (user_cache fail_on_invalid_gids : value) (user : string)
    (cfg : config) (requested_groups : list string) (sup_gids : pydict)
    (added_default : bool) : result pydict :=
  match requested_groups with
  | [] => Ok sup_gids
  | g :: rest =>
      if String.eqb g "DEFAULT_GID" then
        if negb added_default then
          let! uc := as_cache user_cache in
          let default_gids := get_gids_4user uc user in
          sup_loop user_cache fail_on_invalid_gids user cfg rest
                   (add_all default_gids sup_gids) true
        else
          sup_loop user_cache fail_on_invalid_gids user cfg rest
                   sup_gids added_default
      else
        let! uc := as_cache user_cache in
        let tmp := get_gid_4group uc g in
        if tmp =? -1 then
          if truthy fail_on_invalid_gids then Raise (UnknownSupplementaryGroup g)
          else (* continue *)
            sup_loop user_cache fail_on_invalid_gids user cfg rest
                     sup_gids added_default
        else
          let! member := check_membership g tmp user cfg in
          let! _ :=
            (if negb member then
               if truthy fail_on_invalid_gids then Raise (NotAMember user g)
               else Ok tt (* LOG.warning only: no continue here *)
             else Ok tt) in
          (* sup_gids[tmp] = True *)
          sup_loop user_cache fail_on_invalid_gids user cfg rest
                   (dict_set tmp true sup_gids) added_default
  end.

Definition get_supplementary_groups (requested_groups : list string)
    (primary : Z) (user : string) (cfg : config) : result (list Z) :=
  let! user_cache := getitem cfg "tsi.user_cache" in
  let! fail_on_invalid_gids := getitem cfg "tsi.fail_on_invalid_gids" in
  let sup_gids := dict_set primary true [] in
  let! sup_gids :=
    sup_loop user_cache fail_on_invalid_gids user cfg requested_groups
             sup_gids false in
  Ok (map fst (List.filter (fun kv : Z * bool => snd kv) sup_gids)).

(** ** The process: credentials, environment, connector *)

(** What the connector has been asked to send. *)
Inductive sent : Type :=
| Message (text : string)       (* connector.write_message(text) *)
| MessageUid (uid : value)      (* write_message(" running as UID [%s]" % uid) *)
| ReplyOk (output : string)     (* connector.ok(output) *)
| ReplyFailed (output : string) (* connector.failed(output) *)
| Failed (e : exn)              (* connector.failed(str(e)), e a caught exception *)
| FailedUnknown (command : option string). (* connector.failed("Unknown command %s" % command) *)

Record process : Type := {
  ruid : Z; euid : Z; suid : Z;
  rgid : Z; egid : Z; sgid : Z;
  groups : list Z;
  environ : gmap string string;
  connector : list sent
}.

(** A computation that acts on the process and may raise. *)
Definition M (A : Type) : Type := process -> result A * process.

Definition ret {A} (a : A) : M A := fun st => (Ok a, st).
Definition raise {A} (e : exn) : M A := fun st => (Raise e, st).
Definition bind {A B} (m : M A) (k : A -> M B) : M B :=
  fun st =>
    match m st with
    | (Ok a, st') => k a st'
    | (Raise e, st') => (Raise e, st')
    end.
(** A pure computation that may raise, run inside [M]. *)
Definition lift {A} (r : result A) : M A := fun st => (r, st).

Notation "'do!' x '<-' m ';' k" := (bind m (fun x => k))
  (at level 10, x name, m at level 100, k at level 200).

(** ** The system calls

    The calls that change the ids are taken with the rules of Linux for a
    process that has no capabilities of its own: it holds [CAP_SETUID] and
    [CAP_SETGID] exactly while its effective uid is 0.  A call the kernel
    refuses raises [PermissionError] and changes nothing.  The file-system
    ids, which follow the effective ids, are not part of the record. *)

(** [(uid_t)-1] and [(gid_t)-1]: "leave this id as it is" for
    [setresuid], no id at all for the other calls. *)
Definition no_id : Z := 4294967295.

(** The id Python hands to the C function for an integer argument: [-1]
    is taken as [(uid_t)-1], any other integer outside the type raises
    [OverflowError]. *)
Definition to_id (v : Z) : result Z :=
  if v =? -1 then Ok no_id
  else if (0 <=? v) && (v <=? no_id) then Ok v
  else Raise OverflowError.

Fixpoint to_ids (vs : list Z) : result (list Z) :=
  match vs with
  | [] => Ok []
  | v :: rest =>
      let! id := to_id v in
      let! ids := to_ids rest in
      Ok (id :: ids)
  end.

(** The kernel keeps the supplementary groups sorted. *)
Fixpoint insert_id (x : Z) (l : list Z) : list Z :=
  match l with
  | [] => [x]
  | y :: l' => if x <=? y then x :: l else y :: insert_id x l'
  end.

Definition sort_ids (l : list Z) : list Z := fold_right insert_id [] l.

(** The process holds the capabilities to set its ids. *)
Definition privileged (st : process) : bool := euid st =? 0.

Module Os.

(** [os.setresuid(ruid, euid, suid)]: without the capability each new id
    must be one of the three the process has. *)
Definition setresuid (r e s : Z) : M unit :=
  do! r' <- lift (to_id r);
  do! e' <- lift (to_id e);
  do! s' <- lift (to_id s);
  fun st =>
    let allowed (id : Z) : bool :=
      (id =? no_id) || privileged st
      || (id =? ruid st) || (id =? euid st) || (id =? suid st) in
    if allowed r' && allowed e' && allowed s' then
      (Ok tt, {| ruid := if r' =? no_id then ruid st else r';
                 euid := if e' =? no_id then euid st else e';
                 suid := if s' =? no_id then suid st else s';
                 rgid := rgid st; egid := egid st; sgid := sgid st;
                 groups := groups st; environ := environ st;
                 connector := connector st |})
    else (Raise PermissionError, st).

(** [os.setgid(gid)]: with the capability the three gids are set, without
    it the effective gid only, to the real or the saved gid. *)
Definition setgid (g : Z) : M unit :=
  do! g' <- lift (to_id g);
  fun st =>
    if g' =? no_id then (Raise InvalidArgument, st)
    else if privileged st then
      (Ok tt, {| ruid := ruid st; euid := euid st; suid := suid st;
                 rgid := g'; egid := g'; sgid := g';
                 groups := groups st; environ := environ st;
                 connector := connector st |})
    else if (g' =? rgid st) || (g' =? sgid st) then
      (Ok tt, {| ruid := ruid st; euid := euid st; suid := suid st;
                 rgid := rgid st; egid := g'; sgid := sgid st;
                 groups := groups st; environ := environ st;
                 connector := connector st |})
    else (Raise PermissionError, st).

(** [os.setegid(egid)] *)
Definition setegid (g : Z) : M unit :=
  do! g' <- lift (to_id g);
  fun st =>
    if g' =? no_id then (Raise InvalidArgument, st)
    else if privileged st
            || (g' =? rgid st) || (g' =? egid st) || (g' =? sgid st) then
      (Ok tt, {| ruid := ruid st; euid := euid st; suid := suid st;
                 rgid := rgid st; egid := g'; sgid := sgid st;
                 groups := groups st; environ := environ st;
                 connector := connector st |})
    else (Raise PermissionError, st).

(** [os.setgroups(groups)]: at most 65536 groups, and only with the
    capability. *)
Definition setgroups (gs : list Z) : M unit :=
  if 65536 <? Z.of_nat (length gs) then raise ValueError
  else
    do! gs' <- lift (to_ids gs);
    fun st =>
      if negb (privileged st) then (Raise PermissionError, st)
      else if existsb (Z.eqb no_id) gs' then (Raise InvalidArgument, st)
      else
        (Ok tt, {| ruid := ruid st; euid := euid st; suid := suid st;
                   rgid := rgid st; egid := egid st; sgid := sgid st;
                   groups := sort_ids gs'; environ := environ st;
                   connector := connector st |}).

(** [os.environ[name] = val] *)
Definition putenv (name val : string) : M unit := fun st =>
  (Ok tt, {| ruid := ruid st; euid := euid st; suid := suid st;
             rgid := rgid st; egid := egid st; sgid := sgid st;
             groups := groups st; environ := <[name := val]> (environ st);
             connector := connector st |}).

Definition getuid : M Z := fun st => (Ok (ruid st), st).
Definition geteuid : M Z := fun st => (Ok (euid st), st).
Definition getgid : M Z := fun st => (Ok (rgid st), st).
Definition getegid : M Z := fun st => (Ok (egid st), st).
Definition getgroups : M (list Z) := fun st => (Ok (groups st), st).

End Os.

(** [connector.write_message], [connector.failed] *)
Definition send (x : sent) : M unit := fun st =>
  (Ok tt, {| ruid := ruid st; euid := euid st; suid := suid st;
             rgid := rgid st; egid := egid st; sgid := sgid st;
             groups := groups st; environ := environ st;
             connector := connector st ++ [x] |}).

(** [set(a) == set(b)] for two lists of integers. *)
Definition z_in (x : Z) (l : list Z) : bool := existsb (Z.eqb x) l.
Definition same_set (a b : list Z) : bool :=
  forallb (fun x => z_in x b) a && forallb (fun x => z_in x a) b.

(** ** The identity switch ([BecomeUser.py]) *)

Definition become_user (user : string) (requested_groups : list string)
    (cfg : config) : M bool :=
  do! euid <- lift (getitem cfg "tsi.effective_uid");
  do! setting_uids <- lift (getitem cfg "tsi.switch_uid");
  do! user_cache <- lift (getitem cfg "tsi.user_cache");
  do! fail_on_invalid_gids <- lift (getitem cfg "tsi.fail_on_invalid_gids");
  do! primary <- lift (match requested_groups with
                       | [] => Raise IndexError
                       | p :: _ => Ok p
                       end);
  if negb (truthy setting_uids) then
    if eq_int euid 0 then raise RootNotSwitching else ret true
  else
    do! uc <- lift (as_cache user_cache);
    let new_uid := get_uid_4user uc user in
    if new_uid =? -1 then raise (UnknownUser user)
    else if new_uid =? 0 then raise (CommandAsRoot user)
    else
      do! new_ids <- lift
        (if String.eqb primary "NONE" then
           Ok (get_gid_4user uc user, get_gids_4user uc user)
         else
           let! new_gid :=
             get_primary_group primary user uc fail_on_invalid_gids cfg in
           let! new_gids :=
             get_supplementary_groups requested_groups new_gid user cfg in
           Ok (new_gid, new_gids));
      let new_gid := fst new_ids in
      let new_gids := snd new_ids in
      do! _ <- Os.setgid new_gid;
      do! _ <- Os.setgroups new_gids;
      do! _ <- Os.setegid new_gid;
      do! saved <- lift (as_int euid);
      do! _ <- Os.setresuid new_uid new_uid saved;
      do! uid <- Os.getuid;
      do! uid' <- Os.geteuid;
      if negb ((uid =? new_uid) && (uid' =? new_uid)) then
        raise (CouldNotSetUid user new_uid)
      else
        do! gid <- Os.getgid;
        do! gid' <- Os.getegid;
        if negb ((gid =? new_gid) && (gid' =? new_gid)) then
          raise (CouldNotSetGid user new_gid)
        else
          do! set_groups <- Os.getgroups;
          if negb (same_set set_groups new_gids) then
            raise (CouldNotSetGroups user new_gids)
          else
            do! _ <- Os.putenv "HOME" (get_home_4user uc user);
            do! _ <- Os.putenv "USER" user;
            do! _ <- Os.putenv "LOGNAME" user;
            ret true.

(** The part of [become_user] from [os.setgid] on, on its own: the
    system calls, the three checks and the environment. *)
Definition switch_calls (user : string) (uc : UserCache) (euid : value)
    (new_uid new_gid : Z) (new_gids : list Z) : M bool :=
  do! _ <- Os.setgid new_gid;
  do! _ <- Os.setgroups new_gids;
  do! _ <- Os.setegid new_gid;
  do! saved <- lift (as_int euid);
  do! _ <- Os.setresuid new_uid new_uid saved;
  do! uid <- Os.getuid;
  do! uid' <- Os.geteuid;
  if negb ((uid =? new_uid) && (uid' =? new_uid)) then
    raise (CouldNotSetUid user new_uid)
  else
    do! gid <- Os.getgid;
    do! gid' <- Os.getegid;
    if negb ((gid =? new_gid) && (gid' =? new_gid)) then
      raise (CouldNotSetGid user new_gid)
    else
      do! set_groups <- Os.getgroups;
      if negb (same_set set_groups new_gids) then
        raise (CouldNotSetGroups user new_gids)
      else
        do! _ <- Os.putenv "HOME" (get_home_4user uc user);
        do! _ <- Os.putenv "USER" user;
        do! _ <- Os.putenv "LOGNAME" user;
        ret true.

(** The exceptions of that part: those of the system calls and of the
    checks that follow them. *)
Definition switch_error (e : exn) : Prop :=
  match e with
  | TypeError | OverflowError | ValueError | PermissionError
  | InvalidArgument
  | CouldNotSetUid _ _ | CouldNotSetGid _ _ | CouldNotSetGroups _ _ => True
  | _ => False
  end.

Definition restore_id (cfg : config) : M unit :=
  do! euid <- lift (getitem cfg "tsi.effective_uid");
  do! egid <- lift (getitem cfg "tsi.effective_gid");
  do! setting_uids <- lift (getitem cfg "tsi.switch_uid");
  if truthy setting_uids then
    do! e <- lift (as_int euid);
    do! _ <- Os.setresuid e e e;
    do! g <- lift (as_int egid);
    do! _ <- Os.setgid g;
    do! _ <- Os.setgroups [g];
    do! _ <- Os.setegid g;
    do! _ <- Os.putenv "HOME" "/tmp";
    do! _ <- Os.putenv "USER" "nobody";
    do! _ <- Os.putenv "LOGNAME" "nobody";
    ret tt
  else ret tt.

(** [initialize]: [st] is the process at start-up, [UserCache_new] the
    constructor of the cache (its arguments: ttl and the [use_id] flag). *)
Definition initialize (UserCache_new : value -> value -> UserCache)
    (cfg : config) (st : process) : result config :=
  let euid := euid st in
  let egid := egid st in
  let cfg := <["tsi.effective_uid" := VInt euid]> cfg in
  let cfg := <["tsi.effective_gid" := VInt egid]> cfg in
  let switch_uid := get_default cfg "tsi.switch_uid" (VBool true) in
  let cfg :=
    if truthy switch_uid || (euid =? 0)
    then <["tsi.switch_uid" := VBool true]> cfg
    else <["tsi.switch_uid" := VBool false]> cfg in
  let! _ := getitem cfg "tsi.enforce_os_gids" in
  let cache_ttl := get_default cfg "tsi.userCacheTtl" (VInt 600) in
  let! use_id := getitem cfg "tsi.use_id_to_resolve_gids" in
  let user_cache := UserCache_new cache_ttl use_id in
  Ok (<["tsi.user_cache" := VCache user_cache]> cfg).

(** The flag [initialize] stores: [switch_uid or euid==0]. *)
Definition stored_switch_uid (cfg : config) (st : process) : bool :=
  truthy (get_default cfg "tsi.switch_uid" (VBool true)) || (euid st =? 0).

(** ** The dispatcher ([TSI.py]) *)

Definition MY_VERSION : string := "__VERSION__".

Definition nl : ascii := "010"%char.

(** [s.startswith(p)] *)
Fixpoint starts_with (p s : string) : bool :=
  match p, s with
  | EmptyString, _ => true
  | String a p', String b s' => Ascii.eqb a b && starts_with p' s'
  | String _ _, EmptyString => false
  end.

(** [p in s] for two strings. *)
Fixpoint str_contains (p s : string) : bool :=
  starts_with p s ||
  match s with
  | EmptyString => false
  | String _ s' => str_contains p s'
  end.

(** The pattern [.*lit] tried at the head of [s]: [.] takes any character
    but a newline, [lit] is literal text. *)
Fixpoint match_dotstar (lit s : string) : bool :=
  match s with
  | EmptyString => starts_with lit s
  | String c s' =>
      (if Ascii.eqb c nl then false else match_dotstar lit s')
      || starts_with lit s
  end.

(** [re.search] of [.*lit]: the pattern is tried at every position. *)
Fixpoint re_search (lit s : string) : bool :=
  match_dotstar lit s ||
  match s with
  | EmptyString => false
  | String _ s' => re_search lit s'
  end.

(** The text [#cmd\n] the pattern [r".*#%s\n" % cmd] ends with. *)
Definition tag (cmd : string) : string :=
  String "#"%char (cmd +:+ String nl EmptyString).

(** [re.search(r".*#%s\n" % cmd, message, re.M)], for a command name made
    of letters and underscores ([re.M] changes [^] and [$] only). *)
Definition have_cmd (cmd message : string) : bool := re_search (tag cmd) message.

(** [s.split(":")] *)
Fixpoint split_colon (s : string) : list string :=
  match s with
  | EmptyString => [EmptyString]
  | String c s' =>
      if Ascii.eqb c ":"%char then EmptyString :: split_colon s'
      else match split_colon s' with
           | h :: t => String c h :: t
           | [] => [String c EmptyString]
           end
  end.

(** The methods of the batch system that are registered as commands. *)
Inductive bss_method : Type :=
| submit | get_status_listing | get_process_listing | get_job_details
| abort_job | hold_job | resume_job | get_budget.

(** The functions the table of commands refers to. *)
Inductive handler (BSS : Type) : Type :=
| ping | ping_uid | execute_script
| IO_get_file_chunk | IO_put_file_chunk | IO_ls | IO_df
| UFTP_uftp
| bss_method_of (bss : BSS) (m : bss_method)
| Reservation_make_reservation | Reservation_query_reservation
| Reservation_cancel_reservation
| ACL_process_acl.
Arguments ping {BSS}.
Arguments ping_uid {BSS}.
Arguments execute_script {BSS}.
Arguments IO_get_file_chunk {BSS}.
Arguments IO_put_file_chunk {BSS}.
Arguments IO_ls {BSS}.
Arguments IO_df {BSS}.
Arguments UFTP_uftp {BSS}.
Arguments bss_method_of {BSS} bss m.
Arguments Reservation_make_reservation {BSS}.
Arguments Reservation_query_reservation {BSS}.
Arguments Reservation_cancel_reservation {BSS}.
Arguments ACL_process_acl {BSS}.

(** The table of commands: a dict literal, in the order it is written. *)
Definition init_functions {BSS} (bss : BSS) : list (string * handler BSS) :=
  [ ("TSI_PING", ping);
    ("TSI_PING_UID", ping_uid);
    ("TSI_EXECUTESCRIPT", execute_script);
    ("TSI_GETFILECHUNK", IO_get_file_chunk);
    ("TSI_PUTFILECHUNK", IO_put_file_chunk);
    ("TSI_LS", IO_ls);
    ("TSI_DF", IO_df);
    ("TSI_UFTP", UFTP_uftp);
    ("TSI_SUBMIT", bss_method_of bss submit);
    ("TSI_GETSTATUSLISTING", bss_method_of bss get_status_listing);
    ("TSI_GETPROCESSLISTING", bss_method_of bss get_process_listing);
    ("TSI_GETJOBDETAILS", bss_method_of bss get_job_details);
    ("TSI_ABORTJOB", bss_method_of bss abort_job);
    ("TSI_HOLDJOB", bss_method_of bss hold_job);
    ("TSI_RESUMEJOB", bss_method_of bss resume_job);
    ("TSI_GET_COMPUTE_BUDGET", bss_method_of bss get_budget);
    ("TSI_MAKE_RESERVATION", Reservation_make_reservation);
    ("TSI_QUERY_RESERVATION", Reservation_query_reservation);
    ("TSI_CANCEL_RESERVATION", Reservation_cancel_reservation);
    ("TSI_FILE_ACL", ACL_process_acl) ].

(** [functions.get(cmd)] *)
Fixpoint functions_get {H} (functions : list (string * H)) (cmd : string)
    : option H :=
  match functions with
  | [] => None
  | (c, f) :: rest => if String.eqb c cmd then Some f else functions_get rest cmd
  end.

(** The scan of [process]: [for cmd in functions: ... break].  [todo] is
    what is left of the iteration over [functions]. *)
Fixpoint scan {H} (functions todo : list (string * H)) (message : string)
    : option string * option H :=
  match todo with
  | [] => (None, None)
  | (cmd, _) :: rest =>
      if have_cmd cmd message then (Some cmd, functions_get functions cmd)
      else scan functions rest message
  end.

Definition select_command {H} (functions : list (string * H))
    (message : string) : option string * option H :=
  scan functions functions message.

(** How a call of [handle_function] ends for the process that made it. *)
Inductive ending : Type :=
| Returned            (* the function returns to the loop *)
| Exited (code : Z).  (* os._exit(code): the forked child is gone *)

Section Dispatcher.

Context {BSS : Type}.

(** The collaborators that are not part of the sources at hand; each may
    act on the process and may raise. *)

(** Groups 1 and 2 of
    [re.search(r".*#TSI_IDENTITY (\S+) (\S+)\n.*", message, re.M)],
    [None] when there is no match. *)
Variable search_identity : string -> option (string * string).
(** [PAM.PAM(LOG)], [pam_session.open_session(user)],
    [pam_session.close_session()] *)
Variable PAM_new : M unit.
Variable open_session : string -> M unit.
Variable close_session : M unit.
(** [os.fork()] (the pid this process sees) and [os.waitpid(pid, 0)] *)
Variable fork : M Z.
Variable waitpid : Z -> M unit.
(** [Utils.run_command(message, discard, children)] *)
Variable run_command : string -> bool -> value -> M (bool * string).
(** The handlers of the other modules, called with
    [(message, connector, config, LOG)]. *)
Variable external : handler BSS -> string -> config -> M unit.

(** [function(message, connector, config, LOG)] *)
Definition invoke (function : handler BSS) (message : string)
    (cfg : config) : M unit :=
  match function with
  | ping => send (Message MY_VERSION)
  | ping_uid =>
      do! _ <- send (Message MY_VERSION);
      send (MessageUid (get_default cfg "tsi.effective_uid" (VStr "n/a")))
  | execute_script =>
      let discard :=
        str_contains ("#TSI_DISCARD_OUTPUT true" +:+ String nl EmptyString)
                     message in
      let children := get_default cfg "tsi.NOBATCH.children" VNone in
      do! res <- run_command message discard children;
      if fst res then send (ReplyOk (snd res))
      else send (ReplyFailed (snd res))
  | other => external other message cfg
  end.

(** The body of the [try] of [handle_function].  Next to its outcome it
    tells whether the local variable [pam_session] has been bound. *)
Definition guarded (function : handler BSS) (message : string)
    (cfg : config) (st : process) : result unit * bool * process :=
  let switch_uid := get_default cfg "tsi.switch_uid" (VBool true) in
  let open_user_session :=
    get_default cfg "tsi.open_user_sessions" (VBool false) in
  if truthy switch_uid then
    match search_identity message with
    | None => (Raise NoUserGroupInfo, false, st)
    | Some (user, colon_list) =>
        let groups := split_colon colon_list in
        let '(opened, bound, st1) :=
          if truthy open_user_session then
            match PAM_new st with
            | (Raise e, st') => (Raise e, false, st')
            | (Ok _, st') =>
                let (r, st'') := open_session user st' in (r, true, st'')
            end
          else (Ok tt, false, st) in
        match opened with
        | Raise e => (Raise e, bound, st1)
        | Ok _ =>
            match become_user user groups cfg st1 with
            | (Raise e, st2) => (Raise e, bound, st2)
            | (Ok user_switch_status, st2) =>
                if negb user_switch_status then (Raise SwitchStatus, bound, st2)
                else
                  let (r, st3) := invoke function message cfg st2 in
                  (r, bound, st3)
            end
        end
    end
  else
    let (r, st1) := invoke function message cfg st in (r, false, st1).

(** [try: ... except: connector.failed(str(sys.exc_info()[1]))]: the
    bare [except] takes every exception. *)
Definition try_except (function : handler BSS) (message : string)
    (cfg : config) (st : process) : bool * process :=
  match guarded function message cfg st with
  | (Ok _, bound, st1) => (bound, st1)
  | (Raise e, bound, st1) => (bound, snd (send (Failed e) st1))
  end.

(** What follows the [try] statement: [# reset user ID]. *)
Definition reset_user_id (do_fork pam_bound : bool) (cfg : config) : M ending :=
  let switch_uid := get_default cfg "tsi.switch_uid" (VBool true) in
  let open_user_session :=
    get_default cfg "tsi.open_user_sessions" (VBool false) in
  do! _ <-
    (if truthy switch_uid then
       do! _ <- restore_id cfg;
       if truthy open_user_session then
         if pam_bound then close_session
         else raise (UnboundLocalError "pam_session")
       else ret tt
     else ret tt);
  if do_fork then ret (Exited 0) else ret Returned.

(** [command in ["TSI_EXECUTESCRIPT", "TSI_SUBMIT", "TSI_UFTP"]] and
    [open_user_session] *)
Definition do_fork (command : string) (cfg : config) : bool :=
  truthy (get_default cfg "tsi.open_user_sessions" (VBool false))
  && str_in command ["TSI_EXECUTESCRIPT"; "TSI_SUBMIT"; "TSI_UFTP"]%string.

Definition handle_function (function : handler BSS) (command message : string)
    (cfg : config) : M ending :=
  do! in_parent <-
    (if do_fork command cfg then
       do! pid <- fork;
       if negb (pid =? 0) then do! _ <- waitpid pid; ret true
       else ret false
     else ret false);
  if (in_parent : bool) then ret Returned
  else
    fun st =>
      let (pam_bound, st1) := try_except function message cfg st in
      reset_user_id (do_fork command cfg) pam_bound cfg st1.

(** One turn of the loop of [process], from the message read to the end
    of the transaction ([os.chdir] is not modelled). *)
Definition process_message (bss : BSS) (message : string) (cfg : config)
    : M ending :=
  let functions := init_functions bss in
  match select_command functions message with
  | (Some command, Some function) =>
      if String.eqb "TSI_PING" command then
        do! _ <- send (Message MY_VERSION);
        do! _ <- send (Message "ENDOFMESSAGE");
        ret Returned
      else
        do! e <- handle_function function command message cfg;
        match e with
        | Returned => do! _ <- send (Message "ENDOFMESSAGE"); ret Returned
        | Exited c => ret (Exited c)
        end
  | (command, _) =>
      do! _ <- send (FailedUnknown command);
      do! _ <- send (Message "ENDOFMESSAGE");
      ret Returned
  end.

End Dispatcher.


(** ** The specification's reading of the command tag

    Section 3 of the specification: "the first line containing a marker
    of the form [#TSI_<CMD>] determines the command".  The three
    definitions below follow these words, not the code; they are compared
    with [select_command] further down. *)

(** The lines of a message, each without its newline; what follows the
    last newline ends in no newline and can hold no tag. *)
Fixpoint spec_lines (s : string) : list string :=
  match s with
  | EmptyString => []
  | String c s' =>
      if Ascii.eqb c nl then EmptyString :: spec_lines s'
      else match spec_lines s' with
           | h :: t => String c h :: t
           | [] => []
           end
  end.

(** [s.endswith(p)] *)
Fixpoint ends_with (p s : string) : bool :=
  String.eqb p s ||
  match s with
  | EmptyString => false
  | String _ s' => ends_with p s'
  end.

(** The recognized command whose marker ends the line, if there is one. *)
Definition spec_tag_on_line (names : list string) (line : string)
    : option string :=
  List.find (fun cmd => ends_with (String "#"%char cmd) line) names.

(** The command of the first line that holds a recognized marker. *)
Fixpoint spec_first_tag (names : list string) (lines : list string)
    : option string :=
  match lines with
  | [] => None
  | l :: rest =>
      match spec_tag_on_line names l with
      | Some cmd => Some cmd
      | None => spec_first_tag names rest
      end
  end.

(** The lines of a message that hold a recognized marker. *)
Definition spec_tag_lines (names : list string) (message : string)
    : list string :=
  List.filter (fun l => match spec_tag_on_line names l with
                        | Some _ => true
                        | None => false
                        end)
              (spec_lines message).

(** [lit] occurs in [s]. *)
Definition occurs (lit s : string) : Prop :=
  exists pre post, s = pre +:+ lit +:+ post.

(** ** A small installation, for the examples

    One user, [alice] (uid 1001, primary group [users] = 100, also in
    [staff] = 200), a group [devs] = 500 she is not in, and [root]. *)
Module Example.

Definition cache : UserCache := {|
  get_uid_4user := fun u =>
    if String.eqb u "alice" then 1001
    else if String.eqb u "root" then 0 else -1;
  get_gid_4user := fun u =>
    if String.eqb u "alice" then 100
    else if String.eqb u "root" then 0 else -1;
  get_gids_4user := fun u =>
    if String.eqb u "alice" then [100; 200]
    else if String.eqb u "root" then [0] else [];
  get_gid_4group := fun g =>
    if String.eqb g "users" then 100
    else if String.eqb g "staff" then 200
    else if String.eqb g "devs" then 500 else -1;
  get_members_4group := fun g =>
    if String.eqb g "staff" then ["alice"%string]
    else if String.eqb g "devs" then ["bob"%string] else [];
  get_home_4user := fun u =>
    if String.eqb u "alice" then "/home/alice"%string else "/"%string
|}.

(** The configuration as [setup_defaults] and [initialize] leave it, for a
    process with effective uid and gid [uid], [gid]. *)
Definition cfg (uid gid : Z) (switch_uid fail_on_invalid_gids : bool)
    : gmap string value :=
  <["tsi.effective_uid" := VInt uid]>
  (<["tsi.effective_gid" := VInt gid]>
  (<["tsi.switch_uid" := VBool switch_uid]>
  (<["tsi.user_cache" := VCache cache]>
  (<["tsi.enforce_os_gids" := VBool true]>
  (<["tsi.fail_on_invalid_gids" := VBool fail_on_invalid_gids]>
  (<["tsi.use_id_to_resolve_gids" := VBool false]>
  (<["tsi.open_user_sessions" := VBool false]> ∅))))))).

(** The configuration file's part, before [initialize]. *)
Definition cfg_file (switch_uid : bool) : gmap string value :=
  <["tsi.switch_uid" := VBool switch_uid]>
  (<["tsi.enforce_os_gids" := VBool true]>
  (<["tsi.fail_on_invalid_gids" := VBool false]>
  (<["tsi.use_id_to_resolve_gids" := VBool false]>
  (<["tsi.open_user_sessions" := VBool false]> ∅)))).

Definition proc (uid gid : Z) : process := {|
  ruid := uid; euid := uid; suid := uid;
  rgid := gid; egid := gid; sgid := gid;
  groups := [gid];
  environ := <["HOME" := "/tmp"%string]> ∅;
  connector := []
|}.

(** The two-line message [#TSI_DF\n#TSI_LS\n]. *)
Definition df_then_ls : string :=
  "#TSI_DF" +:+ String nl ("#TSI_LS" +:+ String nl EmptyString).

(** A request for alice with a handler of another module that raises. *)
Definition identity_of (message : string) : option (string * string) :=
  Some ("alice"%string, "users:staff"%string).
Definition failing_handler (f : handler unit) (message : string)
    (cfg : gmap string value) : M unit :=
  raise (External "handler failed").
Definition no_output (message : string) (discard : bool) (children : value)
    : M (bool * string) :=
  ret (true, EmptyString).

End Example.


(** A name made of capital letters and underscores: put into a pattern,
    it stands for itself. *)
Fixpoint plain_name (s : string) : bool :=
  match s with
  | EmptyString => true
  | String c s' =>
      let n := nat_of_ascii c in
      (((65 <=? n)%nat && (n <=? 90)%nat) || (n =? 95)%nat) && plain_name s'
  end.

(** ** Reading a list of requested groups *)

Definition is_default (g : string) : bool := String.eqb g "DEFAULT_GID".

(** How many entries of the list are [DEFAULT_GID]. *)
Definition count_default (l : list string) : nat :=
  length (List.filter is_default l).

(** The entries that are not [DEFAULT_GID], in their order. *)
Definition non_default (l : list string) : list string :=
  List.filter (fun g => negb (is_default g)) l.

(** What the loop of [get_supplementary_groups] does with one entry that
    is not [DEFAULT_GID]: it raises, it skips the entry ([None]), or it
    adds a gid. *)
Definition resolve_entry (uc : UserCache) (fail_on_invalid_gids : value)
    (user : string) (cfg : config) (g : string) : result (option Z) :=
  let tmp := get_gid_4group uc g in
  if tmp =? -1 then
    if truthy fail_on_invalid_gids then Raise (UnknownSupplementaryGroup g)
    else Ok None
  else
    let! member := check_membership g tmp user cfg in
    if negb member && truthy fail_on_invalid_gids then Raise (NotAMember user g)
    else Ok (Some tmp).

(** The gids the entries of [gs] add, or the first exception. *)
Fixpoint resolve_entries (uc : UserCache) (fail_on_invalid_gids : value)
    (user : string) (cfg : config) (gs : list string) : result (list Z) :=
  match gs with
  | [] => Ok []
  | g :: rest =>
      let! o := resolve_entry uc fail_on_invalid_gids user cfg g in
      let! l := resolve_entries uc fail_on_invalid_gids user cfg rest in
      Ok (match o with Some z => z :: l | None => l end)
  end.

(** Two outcomes of [get_supplementary_groups] that are the same set of
    gids, or the same exception. *)
Definition same_outcome (r1 r2 : result (list Z)) : Prop :=
  match r1, r2 with
  | Ok a, Ok b => forall k, In k a <-> In k b
  | Raise e1, Raise e2 => e1 = e2
  | _, _ => False
  end.

(** ** The restored process *)

(** The process after the calls of [restore_id], for stored ids [e], [g]. *)
Definition restored (e g : Z) (st : process) : process := {|
  ruid := e; euid := e; suid := e;
  rgid := g; egid := g; sgid := g;
  groups := [g];
  environ :=
    <["LOGNAME" := "nobody"%string]>
      (<["USER" := "nobody"%string]>
         (<["HOME" := "/tmp"%string]> (environ st)));
  connector := connector st
|}.

(** Uid 0 is among the real, effective and saved uid: the process is
    root or can become root again. *)
Definition has_root (st : process) : bool :=
  (ruid st =? 0) || (euid st =? 0) || (suid st =? 0).

(** A computation that does not take that away. *)
Definition keeps_root {A} (m : M A) : Prop :=
  forall st, has_root st = true -> has_root (snd (m st)) = true.

(** ** The switched process *)

(** The process after the calls of a [become_user] that switches: [uid]
    the user's uid, [saved] the stored effective uid (as the saved uid,
    unless it is the value that leaves the saved uid as it is), [gid] and
    [gids] the new primary and supplementary groups. *)
Definition switched (uid saved gid : Z) (gids : list Z) (home user : string)
    (st : process) : process := {|
  ruid := uid; euid := uid;
  suid := if (saved =? -1) || (saved =? no_id) then suid st else saved;
  rgid := gid; egid := gid; sgid := gid;
  groups := sort_ids gids;
  environ :=
    <["LOGNAME" := user]>
      (<["USER" := user]> (<["HOME" := home]> (environ st)));
  connector := connector st
|}.

(** ** The configuration file ([TSI.py])

    A character is a code point below 256.  The file is taken as the text
    Python's text mode delivers, its line ends translated to [\n]; opening
    the file is not modelled. *)

(** [c.isspace()]; the class [\s] of [re] is the same set. *)
Definition is_space (c : ascii) : bool :=
  let n := nat_of_ascii c in
  ((9 <=? n)%nat && (n <=? 13)%nat) || ((28 <=? n)%nat && (n <=? 32)%nat)
  || (n =? 133)%nat || (n =? 160)%nat.

(** The class [[a-zA-Z0-9.\-_/]] *)
Definition is_key_char (c : ascii) : bool :=
  let n := nat_of_ascii c in
  ((97 <=? n)%nat && (n <=? 122)%nat) || ((65 <=? n)%nat && (n <=? 90)%nat)
  || ((48 <=? n)%nat && (n <=? 57)%nat)
  || (n =? 46)%nat || (n =? 45)%nat || (n =? 95)%nat || (n =? 47)%nat.

(** The class [.]: any character but a newline. *)
Definition is_dot (c : ascii) : bool := negb (Ascii.eqb c nl).

(** Every character of [s] is in the class [cls]. *)
Fixpoint all_chars (cls : ascii -> bool) (s : string) : bool :=
  match s with
  | EmptyString => true
  | String c s' => cls c && all_chars cls s'
  end.

(** The pattern [cls*] followed by the rest of the pattern, [k]: the
    star takes as many characters as it can and gives them back one by one
    while the rest fails. *)
Fixpoint re_star {A} (cls : ascii -> bool) (s : string)
    (k : string -> option A) : option A :=
  match s with
  | String c s' =>
      if cls c then
        match re_star cls s' k with
        | Some r => Some r
        | None => k s
        end
      else k s
  | EmptyString => k s
  end.

(** The group [(cls+)] followed by the rest of the pattern, which gets
    the text of the group. *)
Fixpoint re_group_plus {A} (cls : ascii -> bool) (s : string)
    (k : string -> string -> option A) : option A :=
  match s with
  | String c s' =>
      if cls c then
        match re_group_plus cls s' (fun g rest => k (String c g) rest) with
        | Some r => Some r
        | None => k (String c EmptyString) s'
        end
      else None
  | EmptyString => None
  end.

(** [$] without [re.M]: the end of the text, or the newline that ends it. *)
Definition at_end (s : string) : bool :=
  match s with
  | EmptyString => true
  | String c EmptyString => Ascii.eqb c nl
  | _ => false
  end.

(** [re.match(r"\s*([a-zA-Z0-9.\-_/]+)\s*=\s*(.+)$", line)]: the groups 1
    and 2, [None] when the line does not match. *)
Definition config_line (line : string) : option (string * string) :=
  re_star is_space line (fun s1 =>
  re_group_plus is_key_char s1 (fun key s2 =>
  re_star is_space s2 (fun s3 =>
  match s3 with
  | String c s4 =>
      if Ascii.eqb c "="%char then
        re_star is_space s4 (fun s5 =>
        re_group_plus is_dot s5 (fun group2 s6 =>
        if at_end s6 then Some (key, group2) else None))
      else None
  | EmptyString => None
  end))).

(** [s.lstrip()], [s.rstrip()], [s.strip()] *)
Fixpoint lstrip (s : string) : string :=
  match s with
  | String c s' => if is_space c then lstrip s' else s
  | EmptyString => EmptyString
  end.

Fixpoint rstrip (s : string) : string :=
  match s with
  | String c s' =>
      match rstrip s' with
      | EmptyString => if is_space c then EmptyString else String c EmptyString
      | r => String c r
      end
  | EmptyString => EmptyString
  end.

Definition strip (s : string) : string := rstrip (lstrip s).

(** [key = match.group(1)] and [value = match.group(2).strip()] *)
Definition key_value (line : string) : option (string * string) :=
  match config_line line with
  | Some (key, group2) => Some (key, strip group2)
  | None => None
  end.

(** [s.lower()] *)
Definition lower_char (c : ascii) : ascii :=
  let n := nat_of_ascii c in
  if ((65 <=? n)%nat && (n <=? 90)%nat)
     || ((192 <=? n)%nat && (n <=? 222)%nat && negb (n =? 215)%nat)
  then ascii_of_nat (n + 32) else c.

Fixpoint lower (s : string) : string :=
  match s with
  | EmptyString => EmptyString
  | String c s' => String (lower_char c) (lower s')
  end.

(** [s[n:]] *)
Fixpoint str_from (n : nat) (s : string) : string :=
  match n, s with
  | O, _ => s
  | S n', String _ s' => str_from n' s'
  | S _, EmptyString => EmptyString
  end.

(** [s.split(sep)] for a separator of one character. *)
Fixpoint split_char (sep : ascii) (s : string) : list string :=
  match s with
  | EmptyString => [EmptyString]
  | String c s' =>
      if Ascii.eqb c sep then EmptyString :: split_char sep s'
      else match split_char sep s' with
           | h :: t => String c h :: t
           | [] => [String c EmptyString]
           end
  end.

(** [f.readlines()]: the lines of the text, each with its newline. *)
Fixpoint readlines (text : string) : list string :=
  match text with
  | EmptyString => []
  | String c rest =>
      if Ascii.eqb c nl then String nl EmptyString :: readlines rest
      else match readlines rest with
           | l :: ls => String c l :: ls
           | [] => [String c EmptyString]
           end
  end.

(** What the loader keeps in a list: the addresses of the allowed
    machines, and the names [SSL.convert_dn] returns, of a type [DN] of
    their own. *)
Inductive item (DN : Type) : Type :=
| Str (s : string)
| Dn (d : DN).
Arguments Str {DN} s.
Arguments Dn {DN} d.

(** What the loader stores under a key: a string, flag or number; the
    dict of [tsi.acl]; a list. *)
Inductive entry (DN : Type) : Type :=
| Plain (v : value)
| Dict (d : gmap string string)
| Items (l : list (item DN)).
Arguments Plain {DN} v.
Arguments Dict {DN} d.
Arguments Items {DN} l.

Definition setup_defaults {DN} (config : gmap string (entry DN))
    : gmap string (entry DN) :=
  let config := <["tsi.default_job_name" := Plain (VStr "UnicoreJob")]> config in
  let config := <["tsi.nodes_filter" := Plain (VStr EmptyString)]> config in
  let config := <["tsi.userCacheTtl" := Plain (VInt 600)]> config in
  let config := <["tsi.enforce_os_gids" := Plain (VBool true)]> config in
  let config := <["tsi.fail_on_invalid_gids" := Plain (VBool false)]> config in
  let config := <["tsi.use_id_to_resolve_gids" := Plain (VBool false)]> config in
  let config := <["tsi.open_user_sessions" := Plain (VBool false)]> config in
  let config := <["tsi.debug" := Plain (VInt 0)]> config in
  let config := <["tsi.use_syslog" := Plain (VBool false)]> config in
  let config := <["tsi.worker.id" := Plain (VInt 1)]> config in
  let config := <["tsi.njs_machine" := Plain (VStr "localhost")]> config in
  <["tsi.safe_dir" := Plain (VStr "/tmp")]> config.

Definition boolean_keys : list string :=
  [ "tsi.open_user_sessions"; "tsi.enforce_os_gids";
    "tsi.fail_on_invalid_gids"; "tsi.use_id_to_resolve_gids";
    "tsi.use_syslog"; "tsi.debug" ]%string.

(** The text of the [KeyError] for a value of [tsi.acl...] that is none
    of the three. *)
Definition invalid_acl (value key : string) : string :=
  "Invalid value '" +:+ value +:+ "' for parameter '" +:+ key
  +:+ "', must be 'NONE', 'POSIX' or 'NFS'".

Section Loader.

Context {DN : Type}.
(** [SSL.convert_dn(value)] *)
Variable convert_dn : string -> result DN.
(** [socket.gethostbyname(machine)], [None] when it raises. *)
Variable gethostbyname : string -> option string.

Definition process_config_value (key value : string)
    (config : gmap string (entry DN)) : result (gmap string (entry DN)) :=
  if str_in key boolean_keys then
    Ok (<[key := Plain (VBool (str_in (lower value) ["1"; "true"]%string))]>
          config)
  else if starts_with "tsi.acl" key then
    if String.eqb "NONE" value || String.eqb "POSIX" value
       || String.eqb "NFS" value then
      let path := str_from 8 key in
      let! acl := match config !! "tsi.acl" with
                  | None => Ok ∅
                  | Some (Dict d) => Ok d
                  | Some _ => Raise TypeError (* acl[path] = value, acl no dict *)
                  end in
      Ok (<["tsi.acl" := Dict (<[path := value]> acl)]> config)
    else Raise (KeyError (invalid_acl value key))
  else if starts_with "tsi.allowed_dn." key then
    let allowed_dns := match config !! "tsi.allowed_dns" with
                       | None => Items []
                       | Some e => e
                       end in
    let! dn := convert_dn value in
    match allowed_dns with
    | Items l => Ok (<["tsi.allowed_dns" := Items (l ++ [Dn dn])]> config)
    | _ => Raise AttributeError (* allowed_dns.append, allowed_dns no list *)
    end
  else Ok (<[key := Plain (VStr value)]> config).

(** [config.get(key) is not None] *)
Definition is_not_None (config : gmap string (entry DN)) (key : string) : bool :=
  match config !! key with
  | None => false
  | Some (Plain VNone) => false
  | Some _ => true
  end.

Definition setup_acl (config : gmap string (entry DN))
    : gmap string (entry DN) :=
  let config :=
    if is_not_None config "tsi.getfacl_cmd"
       && is_not_None config "tsi.setfacl_cmd"
    then <["tsi.posixacl_enabled" := Plain (VBool true)]> config
    else <["tsi.posixacl_enabled" := Plain (VBool false)]> config in
  if is_not_None config "tsi.nfs_getfacl_cmd"
     && is_not_None config "tsi.nfs_setfacl_cmd"
  then <["tsi.nfsacl_enabled" := Plain (VBool true)]> config
  else <["tsi.nfsacl_enabled" := Plain (VBool false)]> config.

(** [for machine in machines: try: ips.append(gethostbyname(machine))
    except: ...] *)
Fixpoint resolve_machines (machines : list string) : list string :=
  match machines with
  | [] => []
  | machine :: rest =>
      match gethostbyname machine with
      | Some ip => ip :: resolve_machines rest
      | None => resolve_machines rest
      end
  end.

Definition setup_allowed_ips (config : gmap string (entry DN))
    : result (gmap string (entry DN)) :=
  let njs_machine := match config !! "tsi.njs_machine" with
                     | None => Plain (VStr "localhost")
                     | Some e => e
                     end in
  let! machines := match njs_machine with
                   | Plain (VStr s) => Ok (split_char ","%char s)
                   | _ => Raise AttributeError (* .split on no string *)
                   end in
  let ips := resolve_machines machines in
  Ok (<["tsi.allowed_ips" := Items (map Str ips)]> config).

(** [for line in lines: ...] *)
Fixpoint read_lines (lines : list string) (config : gmap string (entry DN))
    : result (gmap string (entry DN)) :=
  match lines with
  | [] => Ok config
  | line :: rest =>
      match key_value line with
      | Some (key, value) =>
          let! config := process_config_value key value config in
          read_lines rest config
      | None => read_lines rest config
      end
  end.

(** [read_config_file], from the text of the file. *)
Definition read_config_file (text : string) : result (gmap string (entry DN)) :=
  let lines := readlines text in
  let config := setup_defaults ∅ in
  let! config := read_lines lines config in
  let config := setup_acl config in
  setup_allowed_ips config.

End Loader.

(** The part of a loaded configuration [BecomeUser.py] reads: the
    strings, flags and numbers. *)
Definition plain_part {DN} (config : gmap string (entry DN))
    : gmap string value :=
  omap (fun e => match e with Plain v => Some v | _ => None end) config.

(** Whether a line of the file assigns to [key]. *)
Definition names (key : string) (lines : list string) : bool :=
  existsb (fun line => match key_value line with
                       | Some (k, _) => String.eqb k key
                       | None => false
                       end) lines.

(** A configuration file, a resolver that knows [localhost] only, and
    names that are kept as they are written. *)
Module ExampleFile.

Definition convert_dn (value : string) : result string := Ok value.

Definition gethostbyname (machine : string) : option string :=
  if String.eqb machine "localhost" then Some "127.0.0.1"%string else None.

Definition text : string :=
  "# the TSI" +:+ String nl
  ("tsi.switch_uid = false" +:+ String nl
  ("tsi.fail_on_invalid_gids=TRUE" +:+ String nl
  ("tsi.njs_machine = localhost,nowhere" +:+ String nl
  ("tsi.getfacl_cmd = /usr/bin/getfacl" +:+ String nl
  ("tsi.acl./scratch = POSIX" +:+ String nl
  ("tsi.safe_dir = /var/tmp" +:+ String nl
  ("tsi.safe_dir = /tmp/safe" +:+ String nl EmptyString))))))).

(** The configuration loaded from that file. *)
Definition loaded : gmap string (entry string) :=
  match read_config_file convert_dn gethostbyname text with
  | Ok config => config
  | Raise _ => ∅
  end.

(** A file with a value for [tsi.acl] that is none of the three. *)
Definition bad_text : string :=
  "tsi.acl./scratch = posix" +:+ String nl EmptyString.

End ExampleFile.

(** * Properties *)

(** ** Reading the configuration *)

Lemma getitem_Some (cfg : gmap string value) key v :
  cfg !! key = Some v -> getitem cfg key = Ok v.
Proof. intros H. unfold getitem. now rewrite H. Qed.

Lemma getitem_None (cfg : gmap string value) key :
  cfg !! key = None -> getitem cfg key = Raise (KeyError key).
Proof. intros H. unfold getitem. now rewrite H. Qed.

Lemma get_default_Some (cfg : gmap string value) key v d :
  cfg !! key = Some v -> get_default cfg key d = v.
Proof. intros H. unfold get_default. now rewrite H. Qed.

(** Running a pure step inside [M] leaves the process alone. *)
Lemma bind_lift_Ok {A B} (a : A) (k : A -> M B) st :
  bind (lift (Ok a)) k st = k a st.
Proof. reflexivity. Qed.

Lemma bind_lift_Raise {A B} e (k : A -> M B) st :
  bind (lift (Raise e)) k st = (Raise e, st).
Proof. reflexivity. Qed.

(** The four values [become_user] reads first, each present or not. *)
Ltac read_config cfg :=
  unfold become_user;
  repeat match goal with
  | H : cfg !! ?k = Some ?v |- context [getitem cfg ?k] =>
      rewrite (getitem_Some cfg k v H), bind_lift_Ok
  | |- context [getitem cfg ?k] =>
      let E := fresh "E" in
      destruct (cfg !! k) as [?|] eqn:E;
      [ rewrite (getitem_Some cfg k _ E), bind_lift_Ok
      | rewrite (getitem_None cfg k E), bind_lift_Raise; eauto ]
  end.

(** ** The system calls *)

Lemma to_id_Ok v id :
  to_id v = Ok id -> (v = -1 /\ id = no_id) \/ (0 <= v <= no_id /\ id = v).
Proof.
  unfold to_id. destruct (Z.eqb_spec v (-1)) as [->|_]; [intros [= <-]; auto|].
  destruct (Z.leb_spec 0 v); cbn [andb]; [|discriminate].
  destruct (Z.leb_spec v no_id); [|discriminate].
  intros [= <-]. auto.
Qed.

Lemma to_id_Raise v x : to_id v = Raise x -> x = OverflowError.
Proof.
  unfold to_id. destruct (v =? -1); [discriminate|].
  destruct (_ && _); [discriminate|]. now intros [= <-].
Qed.

Lemma to_id_valid v : 0 <= v < no_id -> to_id v = Ok v.
Proof.
  intros H. unfold to_id.
  destruct (Z.eqb_spec v (-1)); [lia|].
  destruct (Z.leb_spec 0 v); [|lia].
  destruct (Z.leb_spec v no_id); [reflexivity|lia].
Qed.

(** An id the kernel takes for an id is the integer it was given. *)
Lemma to_id_id v id :
  to_id v = Ok id -> (id =? no_id) = false -> id = v /\ 0 <= v < no_id.
Proof.
  intros H Hne. apply Z.eqb_neq in Hne.
  destruct (to_id_Ok v id H) as [[_ ->]|[Hv ->]]; [congruence|lia].
Qed.

Lemma to_ids_Raise vs x : to_ids vs = Raise x -> x = OverflowError.
Proof.
  induction vs as [|v vs IH]; cbn [to_ids]; [discriminate|].
  destruct (to_id v) eqn:E; cbn [bind_result].
  - destruct (to_ids vs); cbn [bind_result]; [discriminate|].
    intros [= <-]. now apply IH.
  - intros [= <-]. now apply to_id_Raise in E.
Qed.

Lemma to_ids_ids vs : forall ids,
  to_ids vs = Ok ids -> existsb (Z.eqb no_id) ids = false -> ids = vs.
Proof.
  induction vs as [|v vs IH]; cbn [to_ids]; intros ids.
  - now intros [= <-].
  - destruct (to_id v) as [id|] eqn:E; cbn [bind_result]; [|discriminate].
    destruct (to_ids vs) as [ids'|]; cbn [bind_result]; [|discriminate].
    intros [= <-]. cbn [existsb]. intros H.
    apply orb_false_iff in H as [H1 H2]. rewrite Z.eqb_sym in H1.
    destruct (to_id_id v id E H1) as [-> _]. now rewrite (IH ids' eq_refl H2).
Qed.

Lemma setgid_spec g st :
  match Os.setgid g st with
  | (Ok _, st') =>
      0 <= g < no_id /\
      (privileged st = true \/ g = rgid st \/ g = sgid st) /\
      st' = {| ruid := ruid st; euid := euid st; suid := suid st;
               rgid := if privileged st then g else rgid st;
               egid := g;
               sgid := if privileged st then g else sgid st;
               groups := groups st; environ := environ st;
               connector := connector st |}
  | (Raise x, st') =>
      st' = st /\
      (x = OverflowError \/ x = InvalidArgument \/ x = PermissionError)
  end.
Proof.
  unfold Os.setgid, bind, lift.
  destruct (to_id g) as [g'|x] eqn:E; [|apply to_id_Raise in E; auto].
  destruct (g' =? no_id) eqn:Hg; [auto|].
  destruct (to_id_id g g' E Hg) as [-> Hv].
  destruct (privileged st); [auto|].
  destruct (Z.eqb_spec g (rgid st)) as [Hr|Hr]; cbn [orb]; [auto 6|].
  destruct (Z.eqb_spec g (sgid st)) as [Hs|Hs]; auto 6.
Qed.

Lemma setegid_spec g st :
  match Os.setegid g st with
  | (Ok _, st') =>
      0 <= g < no_id /\
      st' = {| ruid := ruid st; euid := euid st; suid := suid st;
               rgid := rgid st; egid := g; sgid := sgid st;
               groups := groups st; environ := environ st;
               connector := connector st |}
  | (Raise x, st') =>
      st' = st /\
      (x = OverflowError \/ x = InvalidArgument \/ x = PermissionError)
  end.
Proof.
  unfold Os.setegid, bind, lift.
  destruct (to_id g) as [g'|x] eqn:E; [|apply to_id_Raise in E; auto].
  destruct (g' =? no_id) eqn:Hg; [auto|].
  destruct (to_id_id g g' E Hg) as [-> Hv].
  destruct (_ || _); auto.
Qed.

Lemma setgroups_spec gs st :
  match Os.setgroups gs st with
  | (Ok _, st') =>
      privileged st = true /\
      st' = {| ruid := ruid st; euid := euid st; suid := suid st;
               rgid := rgid st; egid := egid st; sgid := sgid st;
               groups := sort_ids gs; environ := environ st;
               connector := connector st |}
  | (Raise x, st') =>
      st' = st /\
      (x = ValueError \/ x = OverflowError \/ x = PermissionError \/
       x = InvalidArgument)
  end.
Proof.
  unfold Os.setgroups, bind, lift, raise.
  destruct (65536 <? _); [auto|].
  destruct (to_ids gs) as [gs'|x] eqn:E; [|apply to_ids_Raise in E; auto].
  destruct (privileged st); cbn [negb]; [|auto 6].
  destruct (existsb (Z.eqb no_id) gs') eqn:Hv; [auto 6|].
  now rewrite (to_ids_ids gs gs' E Hv).
Qed.

Lemma setresuid_spec r e s st :
  match Os.setresuid r e s st with
  | (Ok _, st') =>
      exists r' e' s',
        to_id r = Ok r' /\ to_id e = Ok e' /\ to_id s = Ok s' /\
        (privileged st = true \/
         ((r' = no_id \/ r' = ruid st \/ r' = euid st \/ r' = suid st) /\
          (e' = no_id \/ e' = ruid st \/ e' = euid st \/ e' = suid st) /\
          (s' = no_id \/ s' = ruid st \/ s' = euid st \/ s' = suid st))) /\
        st' = {| ruid := if r' =? no_id then ruid st else r';
                 euid := if e' =? no_id then euid st else e';
                 suid := if s' =? no_id then suid st else s';
                 rgid := rgid st; egid := egid st; sgid := sgid st;
                 groups := groups st; environ := environ st;
                 connector := connector st |}
  | (Raise x, st') =>
      st' = st /\ (x = OverflowError \/ x = PermissionError)
  end.
Proof.
  unfold Os.setresuid, bind, lift.
  destruct (to_id r) as [r'|x] eqn:Er; [|apply to_id_Raise in Er; auto].
  destruct (to_id e) as [e'|x] eqn:Ee; [|apply to_id_Raise in Ee; auto].
  destruct (to_id s) as [s'|x] eqn:Es; [|apply to_id_Raise in Es; auto].
  destruct (_ && _) eqn:H; [|auto].
  exists r', e', s'. repeat split; auto.
  destruct (privileged st); [now left|right].
  rewrite !orb_false_r in H.
  rewrite !andb_true_iff, !orb_true_iff, !Z.eqb_eq in H.
  intuition.
Qed.

(** The calls themselves grant what a privileged process asks for. *)
Lemma setresuid_root st :
  has_root st = true ->
  Os.setresuid 0 0 0 st
  = (Ok tt, {| ruid := 0; euid := 0; suid := 0;
               rgid := rgid st; egid := egid st; sgid := sgid st;
               groups := groups st; environ := environ st;
               connector := connector st |}).
Proof.
  intros H. unfold Os.setresuid, bind, lift.
  rewrite (to_id_valid 0) by (unfold no_id; lia).
  change (0 =? no_id) with false. cbn [orb].
  assert (H' : privileged st || (0 =? ruid st) || (0 =? euid st)
               || (0 =? suid st) = true).
  { unfold has_root in H. unfold privileged. rewrite !(Z.eqb_sym 0).
    destruct (ruid st =? 0), (euid st =? 0), (suid st =? 0);
      cbn in *; congruence. }
  now rewrite H'.
Qed.

(** The sorted list holds the same ids. *)
Lemma insert_id_In x l y : In y (insert_id x l) <-> y = x \/ In y l.
Proof.
  induction l as [|z l IH]; cbn; [intuition|].
  destruct (x <=? z); cbn; [intuition|]. rewrite IH. intuition.
Qed.

Lemma sort_ids_In l y : In y (sort_ids l) <-> In y l.
Proof.
  induction l as [|x l IH]; cbn; [reflexivity|].
  rewrite insert_id_In, IH. intuition.
Qed.

(** What the system calls of [become_user] lead to: [True] and the
    switched process, for which the process must have been privileged; or
    one of their exceptions, with environment and connector as they
    were. *)
Lemma switch_calls_spec user uc ev new_uid new_gid new_gids st :
  match switch_calls user uc ev new_uid new_gid new_gids st with
  | (Ok b, st') =>
      b = true /\ privileged st = true /\
      exists saved,
        as_int ev = Ok saved /\
        st' = switched new_uid saved new_gid new_gids
                       (get_home_4user uc user) user st
  | (Raise x, st') =>
      switch_error x /\
      environ st' = environ st /\ connector st' = connector st /\
      (ev = VInt 0 -> has_root st = true -> has_root st' = true)
  end.
Proof.
  unfold switch_calls. unfold bind at 1.
  pose proof (setgid_spec new_gid st) as H1.
  destruct (Os.setgid new_gid st) as [[[]|x1] s1].
  2:{ destruct H1 as [-> Hx]. repeat split; auto.
      destruct Hx as [->|[->| ->]]; exact I. }
  destruct H1 as (Hg & _ & Hs1).
  unfold bind at 1.
  pose proof (setgroups_spec new_gids s1) as H2.
  destruct (Os.setgroups new_gids s1) as [[[]|x2] s2].
  2:{ destruct H2 as [-> Hx]. subst s1. repeat split; auto.
      destruct Hx as [->|[->|[->| ->]]]; exact I. }
  destruct H2 as (Hp & Hs2).
  assert (Hpriv : privileged st = true) by (now subst s1).
  rewrite Hpriv in Hs1.
  unfold bind at 1.
  pose proof (setegid_spec new_gid s2) as H3.
  destruct (Os.setegid new_gid s2) as [[[]|x3] s3].
  2:{ destruct H3 as [-> Hx]. subst s2 s1. repeat split; auto.
      destruct Hx as [->|[->| ->]]; exact I. }
  destruct H3 as (_ & Hs3).
  unfold bind at 1, lift at 1.
  destruct (as_int ev) as [saved|x4] eqn:Ei.
  2:{ assert (x4 = TypeError) as -> by (destruct ev; cbn in Ei; congruence).
      subst s3 s2 s1. repeat split; auto. }
  unfold bind at 1.
  pose proof (setresuid_spec new_uid new_uid saved s3) as H5.
  destruct (Os.setresuid new_uid new_uid saved s3) as [[[]|x5] s5].
  2:{ destruct H5 as [-> Hx]. subst s3 s2 s1. repeat split; auto.
      destruct Hx as [->| ->]; exact I. }
  destruct H5 as (r' & e' & s' & Er & Ee & Es & _ & Hs5).
  rewrite Er in Ee. injection Ee as <-.
  assert (Hsuid : ev = VInt 0 -> suid s5 = 0).
  { intros ->. cbn in Ei. injection Ei as <-.
    change (to_id 0) with (Ok (A:=Z) 0) in Es. injection Es as <-.
    now subst s5. }
  assert (Hroot : ev = VInt 0 -> has_root s5 = true).
  { intros Hev. unfold has_root. rewrite (Hsuid Hev). apply orb_true_r. }
  assert (Henv : environ s5 = environ st /\ connector s5 = connector st)
    by (subst s5 s3 s2 s1; auto).
  destruct Henv as [Henv Hcon].
  unfold bind, Os.getuid, Os.geteuid, Os.getgid, Os.getegid, Os.getgroups,
    Os.putenv, raise, ret.
  destruct ((ruid s5 =? new_uid) && (euid s5 =? new_uid)) eqn:Hu; cbn [negb].
  2:{ repeat split; auto. }
  destruct ((rgid s5 =? new_gid) && (egid s5 =? new_gid)) eqn:Hgid;
    cbn [negb].
  2:{ repeat split; auto. }
  destruct (same_set (groups s5) new_gids) eqn:Hgs; cbn [negb].
  2:{ repeat split; auto. }
  split; [reflexivity|]. split; [assumption|].
  exists saved. split; [reflexivity|].
  apply andb_true_iff in Hu as [Hu1 Hu2].
  apply Z.eqb_eq in Hu1, Hu2.
  cbn [ruid euid suid rgid egid sgid groups environ connector].
  unfold switched. rewrite Hu1, Hu2, Henv, Hcon.
  assert (Hs' : suid s5
                = if (saved =? -1) || (saved =? no_id) then suid st
                  else saved).
  { subst s5 s3 s2 s1. cbn [suid].
    destruct (to_id_Ok saved s' Es) as [[-> ->]|[Hv ->]]; [reflexivity|].
    destruct (Z.eqb_spec saved (-1)); [lia|]. reflexivity. }
  rewrite Hs'.
  subst s5 s3 s2 s1. reflexivity.
Qed.

(** ** The paths through [become_user] *)

(** With switching on, a cache and a first group: the two tests on the
    uid, the resolution of the groups, and the system calls. *)
Lemma become_user_run (user primary : string) (rest : list string)
    (cfg : gmap string value) (st : process) (ev vs vf : value)
    (uc : UserCache) :
  cfg !! "tsi.effective_uid" = Some ev ->
  cfg !! "tsi.switch_uid" = Some vs ->
  truthy vs = true ->
  cfg !! "tsi.user_cache" = Some (VCache uc) ->
  cfg !! "tsi.fail_on_invalid_gids" = Some vf ->
  become_user user (primary :: rest) cfg st =
  let uid := get_uid_4user uc user in
  if uid =? -1 then (Raise (UnknownUser user), st)
  else if uid =? 0 then (Raise (CommandAsRoot user), st)
  else
    match (if String.eqb primary "NONE" then
             Ok (get_gid_4user uc user, get_gids_4user uc user)
           else
             let! new_gid := get_primary_group primary user uc vf cfg in
             let! new_gids :=
               get_supplementary_groups (primary :: rest) new_gid user cfg in
             Ok (new_gid, new_gids)) with
    | Raise e => (Raise e, st)
    | Ok ids => switch_calls user uc ev uid (fst ids) (snd ids) st
    end.
Proof.
  intros He Hs Ht Hc Hf.
  read_config cfg.
  rewrite bind_lift_Ok, Ht. cbn [negb as_cache]. rewrite bind_lift_Ok.
  cbv zeta.
  destruct (_ =? -1); [reflexivity|].
  destruct (_ =? 0); [reflexivity|].
  match goal with
  | |- bind (lift ?x) _ _ = _ => destruct x as [[gid gids]|e]
  end; [rewrite bind_lift_Ok|now rewrite bind_lift_Raise].
  reflexivity.
Qed.

(** The ways through [become_user]: it stops before it looks at the
    user, with the process as it was; or it goes on as above. *)
Lemma become_user_cases user gs (cfg : gmap string value) st :
  (exists x,
     become_user user gs cfg st = (Raise x, st) /\
     ((exists k, x = KeyError k) \/ (x = IndexError /\ gs = []) \/
      x = AttributeError \/
      (x = RootNotSwitching /\
       exists e v,
         cfg !! "tsi.effective_uid" = Some e /\ eq_int e 0 = true /\
         cfg !! "tsi.switch_uid" = Some v /\ truthy v = false))) \/
  (become_user user gs cfg st = (Ok true, st) /\
   exists v, cfg !! "tsi.switch_uid" = Some v /\ truthy v = false) \/
  (exists primary rest ev vs vf uc,
     gs = primary :: rest /\
     cfg !! "tsi.effective_uid" = Some ev /\
     cfg !! "tsi.switch_uid" = Some vs /\ truthy vs = true /\
     cfg !! "tsi.user_cache" = Some (VCache uc) /\
     cfg !! "tsi.fail_on_invalid_gids" = Some vf).
Proof.
  unfold become_user.
  destruct (cfg !! "tsi.effective_uid") as [e|] eqn:He.
  2:{ rewrite (getitem_None _ _ He), bind_lift_Raise. left. eauto 6. }
  rewrite (getitem_Some _ _ _ He), bind_lift_Ok.
  destruct (cfg !! "tsi.switch_uid") as [v|] eqn:Hs.
  2:{ rewrite (getitem_None _ _ Hs), bind_lift_Raise. left. eauto 6. }
  rewrite (getitem_Some _ _ _ Hs), bind_lift_Ok.
  destruct (cfg !! "tsi.user_cache") as [c|] eqn:Hc.
  2:{ rewrite (getitem_None _ _ Hc), bind_lift_Raise. left. eauto 6. }
  rewrite (getitem_Some _ _ _ Hc), bind_lift_Ok.
  destruct (cfg !! "tsi.fail_on_invalid_gids") as [f|] eqn:Hf.
  2:{ rewrite (getitem_None _ _ Hf), bind_lift_Raise. left. eauto 6. }
  rewrite (getitem_Some _ _ _ Hf), bind_lift_Ok.
  destruct gs as [|primary rest].
  { rewrite bind_lift_Raise. left. eauto 6. }
  rewrite bind_lift_Ok.
  destruct (truthy v) eqn:Hv; cbn [negb].
  2:{ destruct (eq_int e 0) eqn:He0.
      - left. exists RootNotSwitching. split; [reflexivity|].
        right. right. right. eauto 8.
      - right. left. split; [reflexivity|]. eauto. }
  destruct c; cbn [as_cache];
    try (rewrite bind_lift_Raise; left; eauto 6).
  right. right. eauto 12.
Qed.

(** ** C5: never root, never an unknown user *)

(** C5.  With [switch_uid] true, [become_user] for a user name that the
    cache resolves to uid 0 or to -1 ends in an exception, and the process
    is as it was before the call: no identity-changing call was made. *)
Theorem become_user_never_root_or_unknown
    (user : string) (requested_groups : list string)
    (cfg : gmap string value) (st : process) (v : value) (uc : UserCache) :
  cfg !! "tsi.switch_uid" = Some v ->
  truthy v = true ->
  cfg !! "tsi.user_cache" = Some (VCache uc) ->
  get_uid_4user uc user = 0 \/ get_uid_4user uc user = -1 ->
  exists e, become_user user requested_groups cfg st = (Raise e, st).
Proof.
  intros Hsw Ht Huc Huid.
  read_config cfg.
  destruct requested_groups as [|primary rest];
    [ rewrite bind_lift_Raise; eauto | rewrite bind_lift_Ok ].
  rewrite Ht. cbn [negb as_cache]. rewrite bind_lift_Ok.
  destruct Huid as [-> | ->]; cbn; eauto.
Qed.

Lemma become_user_never_root_or_unknown_witness :
  exists e,
    become_user "root" ["users"%string] (Example.cfg 0 0 true false)
                (Example.proc 0 0)
    = (Raise e, Example.proc 0 0).
Proof.
  apply (become_user_never_root_or_unknown
           "root" ["users"%string] (Example.cfg 0 0 true false)
           (Example.proc 0 0) (VBool true) Example.cache).
  - vm_compute. reflexivity.
  - reflexivity.
  - vm_compute. reflexivity.
  - left. reflexivity.
Defined.

(** ** C6: the unprivileged no-op *)

(** C6.  With [switch_uid] false and a stored effective uid other than 0,
    [become_user] returns [True] and the process (uids, gids,
    supplementary groups, environment) is unchanged.  The configuration
    is one [initialize] has filled, and the list of groups has its first
    element, the primary selector. *)
Theorem become_user_unprivileged_noop
    (user primary : string) (rest : list string)
    (cfg : gmap string value) (st : process) (e v c f : value) :
  cfg !! "tsi.effective_uid" = Some e ->
  eq_int e 0 = false ->
  cfg !! "tsi.switch_uid" = Some v ->
  truthy v = false ->
  cfg !! "tsi.user_cache" = Some c ->
  cfg !! "tsi.fail_on_invalid_gids" = Some f ->
  become_user user (primary :: rest) cfg st = (Ok true, st).
Proof.
  intros He Hne Hsw Hf Hc Hfl.
  read_config cfg.
  rewrite bind_lift_Ok, Hf, Hne. reflexivity.
Qed.

Lemma become_user_unprivileged_noop_witness :
  become_user "alice" ["users"; "devs"]%string
              (Example.cfg 1000 1000 false false) (Example.proc 1000 1000)
  = (Ok true, Example.proc 1000 1000).
Proof.
  apply (become_user_unprivileged_noop
           "alice" "users" ["devs"%string]
           (Example.cfg 1000 1000 false false) (Example.proc 1000 1000)
           (VInt 1000) (VBool false) (VCache Example.cache) (VBool false)).
  - vm_compute. reflexivity.
  - reflexivity.
  - vm_compute. reflexivity.
  - reflexivity.
  - vm_compute. reflexivity.
  - vm_compute. reflexivity.
Defined.

(** ** C8: an unknown primary group falls back to the user's own *)

(** The membership test lets the user's own primary gid through. *)
Lemma check_membership_own_gid (cfg : gmap string value) group user ve uc :
  cfg !! "tsi.enforce_os_gids" = Some ve ->
  cfg !! "tsi.user_cache" = Some (VCache uc) ->
  check_membership group (get_gid_4user uc user) user cfg = Ok true.
Proof.
  intros He Hc. unfold check_membership.
  rewrite (getitem_Some _ _ _ He), (getitem_Some _ _ _ Hc). cbn.
  rewrite Z.eqb_refl. cbn. now destruct (truthy ve).
Qed.

(** C8.  With [enforce_os_gids] true and [fail_on_invalid_gids] false, a
    requested primary group the OS does not know (its gid resolves to -1)
    makes the primary-group resolution of [become_user] succeed with the
    user's OS default primary gid. *)
Theorem get_primary_group_unknown_falls_back
    (primary user : string) (uc : UserCache) (cfg : gmap string value)
    (ve vf : value) :
  cfg !! "tsi.enforce_os_gids" = Some ve ->
  truthy ve = true ->
  cfg !! "tsi.fail_on_invalid_gids" = Some vf ->
  truthy vf = false ->
  cfg !! "tsi.user_cache" = Some (VCache uc) ->
  get_gid_4group uc primary = -1 ->
  get_primary_group primary user uc vf cfg = Ok (get_gid_4user uc user).
Proof.
  intros He _ _ Hf Hc Hg. unfold get_primary_group.
  destruct (String.eqb primary "DEFAULT_GID"); [reflexivity|].
  rewrite Hg, Hf. cbn.
  now rewrite (check_membership_own_gid cfg primary user ve uc He Hc).
Qed.

Lemma get_primary_group_unknown_falls_back_witness :
  get_primary_group "nosuchgroup" "alice" Example.cache (VBool false)
                    (Example.cfg 0 0 true false)
  = Ok 100.
Proof.
  apply (get_primary_group_unknown_falls_back
           "nosuchgroup" "alice" Example.cache (Example.cfg 0 0 true false)
           (VBool true) (VBool false)).
  - vm_compute. reflexivity.
  - reflexivity.
  - vm_compute. reflexivity.
  - reflexivity.
  - vm_compute. reflexivity.
  - reflexivity.
Defined.

(** ** C1 and C10: what [initialize] does with [switch_uid] *)

(** The configuration [initialize] returns, when it returns. *)
Lemma initialize_Ok mk (cfg cfg' : gmap string value) st :
  initialize mk cfg st = Ok cfg' ->
  cfg' !! "tsi.switch_uid" = Some (VBool (stored_switch_uid cfg st)) /\
  cfg' !! "tsi.effective_uid" = Some (VInt (euid st)) /\
  cfg' !! "tsi.effective_gid" = Some (VInt (egid st)).
Proof.
  unfold initialize, stored_switch_uid, get_default, getitem.
  rewrite !lookup_insert_ne by discriminate.
  destruct (truthy _ || _);
    rewrite !lookup_insert_ne by discriminate;
    destruct (cfg !! "tsi.enforce_os_gids"); cbn; try discriminate;
    destruct (cfg !! "tsi.use_id_to_resolve_gids"); cbn; try discriminate;
    intros [= <-];
    rewrite !lookup_insert_ne by discriminate;
    rewrite lookup_insert_eq;
    rewrite ?lookup_insert_ne by discriminate;
    rewrite ?lookup_insert_eq;
    rewrite ?lookup_insert_ne by discriminate;
    rewrite ?lookup_insert_eq; auto.
Qed.

(** None of the group functions raises the "running as root and not
    setting uids" error. *)
Lemma check_membership_not_root_error group gid user (cfg : gmap string value) :
  check_membership group gid user cfg <> Raise RootNotSwitching.
Proof.
  unfold check_membership, getitem, as_cache.
  repeat match goal with
         | |- context [match ?x with _ => _ end] => destruct x; cbn
         end; discriminate.
Qed.

Lemma get_primary_group_not_root_error primary user uc vf
    (cfg : gmap string value) :
  get_primary_group primary user uc vf cfg <> Raise RootNotSwitching.
Proof.
  unfold get_primary_group.
  destruct (String.eqb primary "DEFAULT_GID"); [discriminate|].
  destruct (_ =? -1); [destruct (truthy vf)|]; cbn; try discriminate;
    (destruct (check_membership _ _ _ _) as [[]|e] eqn:E; cbn;
     [ discriminate
     | destruct (truthy vf); discriminate
     | intros [= ->]; now apply check_membership_not_root_error in E ]).
Qed.

Lemma sup_loop_not_root_error ucv vf user (cfg : gmap string value) gs :
  forall d added, sup_loop ucv vf user cfg gs d added <> Raise RootNotSwitching.
Proof.
  induction gs as [|g gs IH]; intros d added; cbn [sup_loop]; [discriminate|].
  destruct (String.eqb g "DEFAULT_GID").
  - destruct (negb added); [|apply IH].
    destruct ucv; cbn; try discriminate. apply IH.
  - destruct ucv; cbn; try discriminate.
    destruct (_ =? -1).
    + destruct (truthy vf); [discriminate|apply IH].
    + destruct (check_membership _ _ _ _) as [[]|e] eqn:E; cbn.
      * apply IH.
      * destruct (truthy vf); cbn; [discriminate|apply IH].
      * intros [= ->]. now apply check_membership_not_root_error in E.
Qed.

Lemma get_supplementary_groups_not_root_error gs primary user
    (cfg : gmap string value) :
  get_supplementary_groups gs primary user cfg <> Raise RootNotSwitching.
Proof.
  unfold get_supplementary_groups, getitem.
  destruct (cfg !! "tsi.user_cache"); cbn; [|discriminate].
  destruct (cfg !! "tsi.fail_on_invalid_gids"); cbn; [|discriminate].
  destruct (sup_loop _ _ _ _ _ _ _) eqn:E; cbn; [discriminate|].
  intros [= ->]. now apply sup_loop_not_root_error in E.
Qed.

(** The only way into that error: no switching, and a stored uid of 0. *)
Lemma become_user_root_error_inv user gs (cfg : gmap string value) st st' :
  become_user user gs cfg st = (Raise RootNotSwitching, st') ->
  exists e v,
    cfg !! "tsi.effective_uid" = Some e /\ eq_int e 0 = true /\
    cfg !! "tsi.switch_uid" = Some v /\ truthy v = false.
Proof.
  intros H.
  destruct (become_user_cases user gs cfg st)
    as [(x & Hx & Hcase)|[[Hok _]|Hrun]].
  - rewrite Hx in H. injection H as -> _.
    destruct Hcase as [[k [=]]|[[[=] _]|[[=]|[_ Hroot]]]]. exact Hroot.
  - rewrite Hok in H. discriminate.
  - destruct Hrun as (primary & rest & ev & vs & vf & uc & -> & He & Hs & Ht
                      & Hc & Hf).
    rewrite (become_user_run user primary rest cfg st ev vs vf uc He Hs Ht
               Hc Hf) in H.
    cbv zeta in H.
    destruct (_ =? -1); [discriminate|].
    destruct (_ =? 0); [discriminate|].
    destruct (String.eqb primary "NONE").
    + pose proof (switch_calls_spec user uc ev (get_uid_4user uc user)
                    (get_gid_4user uc user) (get_gids_4user uc user) st) as Hsp.
      cbn [fst snd] in H. rewrite H in Hsp. now destruct Hsp as [[] _].
    + destruct (get_primary_group _ _ _ _ _) as [new_gid|x] eqn:E1;
        cbn [bind_result] in H.
      2:{ injection H as -> _.
          now apply get_primary_group_not_root_error in E1. }
      destruct (get_supplementary_groups _ _ _ _) as [new_gids|x] eqn:E2;
        cbn [bind_result] in H.
      2:{ injection H as -> _.
          now apply get_supplementary_groups_not_root_error in E2. }
      pose proof (switch_calls_spec user uc ev (get_uid_4user uc user)
                    new_gid new_gids st) as Hsp.
      cbn [fst snd] in H. rewrite H in Hsp. now destruct Hsp as [[] _].
Qed.

(** C10.  When [initialize] returns, the configuration it leaves has
    [switch_uid] true if the effective uid of the process was 0, whatever
    the caller had configured; and with a configuration that comes from
    [initialize], no call of [become_user] ends in the "running as root
    and not setting uids" error. *)
Theorem initialize_makes_root_error_unreachable
    (UserCache_new : value -> value -> UserCache)
    (cfg cfg' : gmap string value) (st : process) :
  initialize UserCache_new cfg st = Ok cfg' ->
  (euid st = 0 -> cfg' !! "tsi.switch_uid" = Some (VBool true)) /\
  forall user requested_groups st0 st1,
    become_user user requested_groups cfg' st0 <> (Raise RootNotSwitching, st1).
Proof.
  intros Hinit.
  destruct (initialize_Ok _ _ _ _ Hinit) as (Hsw & Huid & _).
  split.
  - intros H0. rewrite Hsw. unfold stored_switch_uid.
    now rewrite H0, orb_true_r.
  - intros user gs st0 st1 H.
    apply become_user_root_error_inv in H as (e & v & He & He0 & Hv & Hvf).
    rewrite Huid in He. injection He as <-.
    rewrite Hsw in Hv. injection Hv as <-.
    cbn in He0, Hvf. unfold stored_switch_uid in Hvf.
    rewrite He0, orb_true_r in Hvf. discriminate.
Qed.

Lemma initialize_makes_root_error_unreachable_witness :
  (euid (Example.proc 0 0) = 0 ->
   Example.cfg 0 0 true false !! "tsi.switch_uid" = Some (VBool true)) /\
  forall user requested_groups st0 st1,
    become_user user requested_groups (Example.cfg 0 0 true false) st0
    <> (Raise RootNotSwitching, st1).
Proof.
  apply (initialize_makes_root_error_unreachable
           (fun _ _ => Example.cache) (Example.cfg_file false)
           (Example.cfg 0 0 true false) (Example.proc 0 0)).
  vm_compute. reflexivity.
Defined.

(** C1, as the code has it.  A configuration that sets [switch_uid] to
    false for a process whose effective uid is 0 is not rejected:
    [initialize] can only fail on one of the two keys it reads with
    [config[...]], and when both are there it returns, with [switch_uid]
    stored as true and 0 as the uid to restore. *)
Theorem initialize_overrides_switch_uid
    (UserCache_new : value -> value -> UserCache)
    (cfg : gmap string value) (st : process) (v : value) :
  cfg !! "tsi.switch_uid" = Some v ->
  truthy v = false ->
  euid st = 0 ->
  (forall e, initialize UserCache_new cfg st = Raise e ->
     e = KeyError "tsi.enforce_os_gids" \/
     e = KeyError "tsi.use_id_to_resolve_gids") /\
  (is_Some (cfg !! "tsi.enforce_os_gids") ->
   is_Some (cfg !! "tsi.use_id_to_resolve_gids") ->
   exists cfg',
     initialize UserCache_new cfg st = Ok cfg' /\
     cfg' !! "tsi.switch_uid" = Some (VBool true) /\
     cfg' !! "tsi.effective_uid" = Some (VInt 0)).
Proof.
  intros Hv Hf H0. split.
  - intros e. unfold initialize, getitem.
    destruct (truthy _ || _);
      rewrite !lookup_insert_ne by discriminate;
      destruct (cfg !! "tsi.enforce_os_gids"); cbn;
      try (intros [= <-]; now left);
      destruct (cfg !! "tsi.use_id_to_resolve_gids"); cbn;
      try discriminate; intros [= <-]; now right.
  - intros [ve He] [vu Hu].
    destruct (initialize UserCache_new cfg st) as [cfg'|e] eqn:E.
    + exists cfg'. split; [reflexivity|].
      destruct (initialize_Ok _ _ _ _ E) as (Hsw & Huid & _).
      rewrite Hsw, Huid, H0. unfold stored_switch_uid.
      rewrite H0. cbn. now rewrite orb_true_r.
    + exfalso. revert E. unfold initialize, getitem.
      destruct (truthy _ || _);
        rewrite !lookup_insert_ne by discriminate;
        rewrite He, Hu; discriminate.
Qed.

Lemma initialize_overrides_switch_uid_witness :
  exists cfg',
    initialize (fun _ _ => Example.cache) (Example.cfg_file false)
               (Example.proc 0 0) = Ok cfg' /\
    cfg' !! "tsi.switch_uid" = Some (VBool true) /\
    cfg' !! "tsi.effective_uid" = Some (VInt 0).
Proof.
  apply (initialize_overrides_switch_uid
           (fun _ _ => Example.cache) (Example.cfg_file false)
           (Example.proc 0 0) (VBool false)).
  - vm_compute. reflexivity.
  - reflexivity.
  - reflexivity.
  - vm_compute. eauto.
  - vm_compute. eauto.
Defined.

(** C1 as it is written fails: with [switch_uid] set to false and an
    effective uid of 0, [initialize] returns a configuration. *)
Lemma initialize_does_not_reject_root_without_switch :
  Example.cfg_file false !! "tsi.switch_uid" = Some (VBool false) /\
  euid (Example.proc 0 0) = 0 /\
  initialize (fun _ _ => Example.cache) (Example.cfg_file false)
             (Example.proc 0 0)
  = Ok (Example.cfg 0 0 true false).
Proof. vm_compute. auto. Qed.

(** ** C2: a group the user is not in is not skipped *)

(** C2, on the code.  [enforce_os_gids] is true, [fail_on_invalid_gids]
    false; [devs] resolves to gid 500, which is not alice's primary gid
    100, and alice is not among its members.  The loop warns ("skipping
    it") and goes on to [sup_gids[tmp] = True]: 500 is in the list that
    [get_supplementary_groups] returns and that [become_user] installs. *)
Theorem non_member_group_is_not_skipped :
  let cfg := Example.cfg 0 0 true false in
  let uc := Example.cache in
  (cfg !! "tsi.enforce_os_gids" = Some (VBool true) /\
   cfg !! "tsi.fail_on_invalid_gids" = Some (VBool false)) /\
  (get_gid_4group uc "devs" = 500 /\
   get_gid_4user uc "alice" = 100 /\
   str_in "alice" (get_members_4group uc "devs") = false) /\
  get_supplementary_groups ["users"; "devs"]%string 100 "alice" cfg
  = Ok [100; 500] /\
  fst (become_user "alice" ["users"; "devs"]%string cfg (Example.proc 0 0))
  = Ok true /\
  groups (snd (become_user "alice" ["users"; "devs"]%string cfg
                           (Example.proc 0 0)))
  = [100; 500].
Proof. vm_compute. repeat split. Qed.

(** ** C7: a group the user is not in, with [fail_on_invalid_gids] *)

(** A requested group the user is not in, and that is not the user's
    primary group, fails the membership test under [enforce_os_gids]. *)
Lemma check_membership_non_member (cfg : gmap string value) g user ve uc :
  cfg !! "tsi.enforce_os_gids" = Some ve ->
  truthy ve = true ->
  cfg !! "tsi.user_cache" = Some (VCache uc) ->
  str_in user (get_members_4group uc g) = false ->
  get_gid_4group uc g <> get_gid_4user uc user ->
  check_membership g (get_gid_4group uc g) user cfg = Ok false.
Proof.
  intros He Ht Hc Hm Hne. unfold check_membership.
  rewrite (getitem_Some _ _ _ He), (getitem_Some _ _ _ Hc). cbn.
  rewrite Ht. cbn.
  apply Z.eqb_neq in Hne. now rewrite Hne, Hm.
Qed.

(** With [fail_on_invalid_gids], the loop over the requested groups raises
    as soon as the list holds such a group. *)
Lemma sup_loop_rejects_non_member (cfg : gmap string value) g user ve vf uc gs :
  cfg !! "tsi.enforce_os_gids" = Some ve ->
  truthy ve = true ->
  truthy vf = true ->
  cfg !! "tsi.user_cache" = Some (VCache uc) ->
  In g gs ->
  g <> "DEFAULT_GID"%string ->
  str_in user (get_members_4group uc g) = false ->
  get_gid_4group uc g <> get_gid_4user uc user ->
  forall d added, exists e, sup_loop (VCache uc) vf user cfg gs d added = Raise e.
Proof.
  intros He Ht Hf Hc Hin Hnd Hm Hne.
  induction gs as [|h gs IH]; [destruct Hin|].
  intros d added. cbn [sup_loop].
  destruct (String.eqb_spec h g) as [->|Hhg].
  - apply String.eqb_neq in Hnd. rewrite Hnd. cbn [as_cache bind_result].
    destruct (_ =? -1); [rewrite Hf; eauto|].
    rewrite (check_membership_non_member cfg g user ve uc) by assumption.
    cbn. rewrite Hf. cbn. eauto.
  - assert (Hin' : In g gs) by (destruct Hin; [congruence|assumption]).
    specialize (IH Hin').
    destruct (String.eqb h "DEFAULT_GID").
    + destruct (negb added); cbn; apply IH.
    + cbn [as_cache bind_result].
      destruct (_ =? -1); [destruct (truthy vf); [eauto|apply IH]|].
      destruct (check_membership _ _ _ _) as [[]|e]; cbn; eauto.
      destruct (truthy vf); cbn; eauto.
Qed.

(** C7, as the code has it.  With [switch_uid], [enforce_os_gids] and
    [fail_on_invalid_gids] true and a primary selector other than [NONE],
    a requested group that the user is not a member of, and that is not
    the user's OS primary group, makes [become_user] raise; the process is
    as it was before the call, so none of [setgid], [setgroups],
    [setresuid] has run. *)
Theorem become_user_rejects_non_member
    (user primary g : string) (rest : list string)
    (cfg : gmap string value) (st : process) (vs ve vf : value)
    (uc : UserCache) :
  cfg !! "tsi.switch_uid" = Some vs ->
  truthy vs = true ->
  cfg !! "tsi.enforce_os_gids" = Some ve ->
  truthy ve = true ->
  cfg !! "tsi.fail_on_invalid_gids" = Some vf ->
  truthy vf = true ->
  cfg !! "tsi.user_cache" = Some (VCache uc) ->
  primary <> "NONE"%string ->
  In g (primary :: rest) ->
  g <> "DEFAULT_GID"%string ->
  str_in user (get_members_4group uc g) = false ->
  get_gid_4group uc g <> get_gid_4user uc user ->
  exists e, become_user user (primary :: rest) cfg st = (Raise e, st).
Proof.
  intros Hs Hst He Het Hf Hft Hc Hp Hin Hnd Hm Hne.
  read_config cfg.
  rewrite bind_lift_Ok, Hst. cbn [negb as_cache]. rewrite bind_lift_Ok.
  destruct (_ =? -1); [cbn; eauto|].
  destruct (_ =? 0); [cbn; eauto|].
  apply String.eqb_neq in Hp. rewrite Hp.
  destruct (get_primary_group _ _ _ _ _) as [new_gid|x]; cbn [bind_result];
    [|rewrite bind_lift_Raise; eauto].
  unfold get_supplementary_groups.
  rewrite (getitem_Some _ _ _ Hc), (getitem_Some _ _ _ Hf). cbn [bind_result].
  destruct (sup_loop_rejects_non_member cfg g user ve vf uc (primary :: rest)
              He Het Hft Hc Hin Hnd Hm Hne
              (dict_set new_gid true []) false) as [x ->].
  cbn [bind_result]. rewrite bind_lift_Raise. eauto.
Qed.

Lemma become_user_rejects_non_member_witness :
  exists e,
    become_user "alice" ["users"; "devs"]%string (Example.cfg 0 0 true true)
                (Example.proc 0 0)
    = (Raise e, Example.proc 0 0).
Proof.
  apply (become_user_rejects_non_member
           "alice" "users" "devs" ["devs"%string] (Example.cfg 0 0 true true)
           (Example.proc 0 0) (VBool true) (VBool true) (VBool true)
           Example.cache).
  - vm_compute. reflexivity.
  - reflexivity.
  - vm_compute. reflexivity.
  - reflexivity.
  - vm_compute. reflexivity.
  - reflexivity.
  - vm_compute. reflexivity.
  - discriminate.
  - simpl. right. left. reflexivity.
  - discriminate.
  - reflexivity.
  - vm_compute. discriminate.
Defined.

(** C7 as it is written fails in two ways.  With [NONE] as the primary
    selector the rest of the list is not looked at, and with [switch_uid]
    false in an unprivileged process [become_user] does nothing: in both
    cases it returns [True] although alice is not in [devs]. *)
Lemma become_user_accepts_non_member :
  let uc := Example.cache in
  (get_gid_4group uc "devs" <> get_gid_4user uc "alice" /\
   str_in "alice" (get_members_4group uc "devs") = false) /\
  (let cfg := Example.cfg 0 0 true true in
   cfg !! "tsi.enforce_os_gids" = Some (VBool true) /\
   cfg !! "tsi.fail_on_invalid_gids" = Some (VBool true) /\
   fst (become_user "alice" ["NONE"; "devs"]%string cfg (Example.proc 0 0))
   = Ok true) /\
  (let cfg := Example.cfg 1000 1000 false true in
   cfg !! "tsi.enforce_os_gids" = Some (VBool true) /\
   cfg !! "tsi.fail_on_invalid_gids" = Some (VBool true) /\
   fst (become_user "alice" ["users"; "devs"]%string cfg
                    (Example.proc 1000 1000))
   = Ok true).
Proof. vm_compute. repeat split; discriminate. Qed.

(** ** C9: [DEFAULT_GID] expands once *)

Lemma dict_set_keys k v (d : list (Z * bool)) x :
  In x (map fst (dict_set k v d)) <-> x = k \/ In x (map fst d).
Proof.
  induction d as [|[k' v'] d IH]; cbn.
  - intuition.
  - destruct (Z.eqb_spec k k') as [->|Hne]; cbn; [intuition|].
    rewrite IH. intuition.
Qed.

Lemma dict_set_all_true k (d : list (Z * bool)) :
  Forall (fun kv => snd kv = true) d ->
  Forall (fun kv => snd kv = true) (dict_set k true d).
Proof.
  induction 1 as [|[k' v'] d Hv Hd IH]; cbn.
  - repeat constructor.
  - destruct (k =? k'); constructor; auto.
Qed.

Lemma add_all_keys ks : forall (d : list (Z * bool)) x,
  In x (map fst (add_all ks d)) <-> In x ks \/ In x (map fst d).
Proof.
  unfold add_all.
  induction ks as [|k ks IH]; intros d x; cbn.
  - intuition.
  - rewrite IH, dict_set_keys. intuition.
Qed.

Lemma add_all_all_true ks : forall (d : list (Z * bool)),
  Forall (fun kv => snd kv = true) d ->
  Forall (fun kv => snd kv = true) (add_all ks d).
Proof.
  unfold add_all.
  induction ks as [|k ks IH]; intros d Hd; cbn; [assumption|].
  apply IH, dict_set_all_true, Hd.
Qed.

(** When every flag is [True], the final filter keeps every key. *)
Lemma filter_all_true (d : list (Z * bool)) :
  Forall (fun kv => snd kv = true) d ->
  List.filter (fun kv : Z * bool => snd kv) d = d.
Proof.
  induction 1 as [|[k v] d Hv Hd IH]; cbn in *; [reflexivity|].
  now rewrite Hv, IH.
Qed.

(** The loop, read as a whole: the exception is that of the first failing
    entry among those that are not [DEFAULT_GID]; otherwise the keys are
    those it started with, the gids these entries add, and the user's own
    gids if [DEFAULT_GID] occurs and had not been expanded before. *)
Lemma sup_loop_outcome uc vf user (cfg : gmap string value) gs :
  forall (d : list (Z * bool)) added,
    match resolve_entries uc vf user cfg (non_default gs),
          sup_loop (VCache uc) vf user cfg gs d added with
    | Raise e, Raise e' => e = e'
    | Ok zs, Ok d' =>
        (Forall (fun kv => snd kv = true) d ->
         Forall (fun kv => snd kv = true) d') /\
        forall x, In x (map fst d') <->
                  In x (map fst d) \/ In x zs \/
                  (added = false /\ count_default gs <> 0%nat /\
                   In x (get_gids_4user uc user))
    | _, _ => False
    end.
Proof.
  induction gs as [|g gs IH]; intros d added.
  - cbn. split; [auto|]. intros x. intuition.
  - cbn [sup_loop non_default List.filter].
    fold (non_default gs). unfold is_default at 1.
    unfold count_default. cbn [List.filter]. fold (count_default gs).
    unfold is_default at 1.
    destruct (String.eqb g "DEFAULT_GID") eqn:Eg; cbn [negb].
    + destruct added; cbn [negb as_cache bind_result].
      * specialize (IH d true).
        destruct (resolve_entries _ _ _ _ _), (sup_loop _ _ _ _ _ _ _); auto.
        destruct IH as [Ht Hk]. split; [exact Ht|].
        intros x. rewrite Hk. intuition discriminate.
      * specialize (IH (add_all (get_gids_4user uc user) d) true).
        destruct (resolve_entries _ _ _ _ _), (sup_loop _ _ _ _ _ _ _); auto.
        destruct IH as [Ht Hk]. split.
        { intros Hd. apply Ht, add_all_all_true, Hd. }
        intros x. rewrite Hk, add_all_keys. cbn [length].
        intuition discriminate.
    + cbn [resolve_entries as_cache bind_result]. unfold resolve_entry.
      destruct (get_gid_4group uc g =? -1).
      * destruct (truthy vf); cbn [bind_result]; [reflexivity|].
        specialize (IH d added).
        destruct (resolve_entries _ _ _ _ _), (sup_loop _ _ _ _ _ _ _); auto.
      * destruct (check_membership _ _ _ _) as [member|e]; cbn [bind_result];
          [|reflexivity].
        destruct member; cbn [negb andb].
        -- cbn [bind_result].
           specialize (IH (dict_set (get_gid_4group uc g) true d) added).
           destruct (resolve_entries _ _ _ _ _), (sup_loop _ _ _ _ _ _ _); auto.
           destruct IH as [Ht Hk]. split.
           { intros Hd. apply Ht, dict_set_all_true, Hd. }
           intros x. rewrite Hk, dict_set_keys. cbn [In]. intuition.
        -- destruct (truthy vf); cbn [bind_result]; [reflexivity|].
           specialize (IH (dict_set (get_gid_4group uc g) true d) added).
           destruct (resolve_entries _ _ _ _ _), (sup_loop _ _ _ _ _ _ _); auto.
           destruct IH as [Ht Hk]. split.
           { intros Hd. apply Ht, dict_set_all_true, Hd. }
           intros x. rewrite Hk, dict_set_keys. cbn [In]. intuition.
Qed.

(** A value that is no cache stops the loop at its first entry. *)
Lemma sup_loop_no_cache ucv vf user (cfg : gmap string value) gs d :
  (forall uc, ucv <> VCache uc) ->
  gs <> [] ->
  sup_loop ucv vf user cfg gs d false = Raise AttributeError.
Proof.
  intros Hno Hgs. destruct gs as [|g gs]; [congruence|].
  cbn [sup_loop negb].
  destruct ucv; try (now destruct (String.eqb g "DEFAULT_GID")).
  now destruct (Hno uc).
Qed.

Lemma count_default_nonempty l : count_default l <> 0%nat -> l <> [].
Proof. now destruct l. Qed.

(** C9.  Take a list of requested groups that holds [DEFAULT_GID] once or
    more, and a list that holds it exactly once and has the same other
    entries in the same order.  For the same primary gid, user and
    configuration, [get_supplementary_groups] gives the same set of gids
    for both (or raises the same exception for both). *)
Theorem default_gid_expansion_idempotent
    (requested once : list string) (primary : Z) (user : string)
    (cfg : gmap string value) :
  (1 <= count_default requested)%nat ->
  count_default once = 1%nat ->
  non_default once = non_default requested ->
  same_outcome (get_supplementary_groups requested primary user cfg)
               (get_supplementary_groups once primary user cfg).
Proof.
  intros H1 H2 Hsame.
  assert (Hc1 : count_default requested <> 0%nat) by lia.
  assert (Hc2 : count_default once <> 0%nat) by lia.
  unfold get_supplementary_groups, getitem.
  destruct (cfg !! "tsi.user_cache") as [ucv|]; cbn [bind_result];
    [|reflexivity].
  destruct (cfg !! "tsi.fail_on_invalid_gids") as [vf|]; cbn [bind_result];
    [|reflexivity].
  assert (Hcache : (exists uc, ucv = VCache uc) \/ forall uc, ucv <> VCache uc).
  { destruct ucv; try (right; discriminate). left. eauto. }
  destruct Hcache as [[uc ->]|Hno].
  - pose proof (sup_loop_outcome uc vf user cfg requested
                  (dict_set primary true []) false) as Ha.
    pose proof (sup_loop_outcome uc vf user cfg once
                  (dict_set primary true []) false) as Hb.
    rewrite Hsame in Hb.
    assert (Htrue : Forall (fun kv : Z * bool => snd kv = true)
                           (dict_set primary true []))
      by (repeat constructor).
    destruct (resolve_entries uc vf user cfg (non_default requested)) as [zs|e];
      destruct (sup_loop _ _ _ _ requested _ _) as [d1|e1]; try contradiction;
      destruct (sup_loop _ _ _ _ once _ _) as [d2|e2]; try contradiction;
      cbn [bind_result same_outcome]; [|congruence].
    destruct Ha as [Ht1 Hk1], Hb as [Ht2 Hk2].
    rewrite (filter_all_true d1 (Ht1 Htrue)), (filter_all_true d2 (Ht2 Htrue)).
    intros k. rewrite Hk1, Hk2. intuition.
  - rewrite (sup_loop_no_cache ucv vf user cfg requested _ Hno
               (count_default_nonempty _ Hc1)).
    rewrite (sup_loop_no_cache ucv vf user cfg once _ Hno
               (count_default_nonempty _ Hc2)).
    reflexivity.
Qed.

Lemma default_gid_expansion_idempotent_witness :
  same_outcome
    (get_supplementary_groups
       ["DEFAULT_GID"; "staff"; "DEFAULT_GID"; "devs"; "DEFAULT_GID"]%string
       100 "alice" (Example.cfg 0 0 true false))
    (get_supplementary_groups
       ["staff"; "devs"; "DEFAULT_GID"]%string
       100 "alice" (Example.cfg 0 0 true false)).
Proof.
  apply (default_gid_expansion_idempotent
           ["DEFAULT_GID"; "staff"; "DEFAULT_GID"; "devs"; "DEFAULT_GID"]%string
           ["staff"; "devs"; "DEFAULT_GID"]%string
           100 "alice" (Example.cfg 0 0 true false)).
  - vm_compute. lia.
  - reflexivity.
  - reflexivity.
Defined.

(** ** C3: the identity is restored after every request *)

Lemma setgid_granted g st :
  privileged st = true -> 0 <= g < no_id ->
  Os.setgid g st
  = (Ok tt, {| ruid := ruid st; euid := euid st; suid := suid st;
               rgid := g; egid := g; sgid := g;
               groups := groups st; environ := environ st;
               connector := connector st |}).
Proof.
  intros Hp Hg. unfold Os.setgid, bind, lift. rewrite (to_id_valid g Hg).
  destruct (Z.eqb_spec g no_id); [lia|]. now rewrite Hp.
Qed.

Lemma setegid_granted g st :
  privileged st = true -> 0 <= g < no_id ->
  Os.setegid g st
  = (Ok tt, {| ruid := ruid st; euid := euid st; suid := suid st;
               rgid := rgid st; egid := g; sgid := sgid st;
               groups := groups st; environ := environ st;
               connector := connector st |}).
Proof.
  intros Hp Hg. unfold Os.setegid, bind, lift. rewrite (to_id_valid g Hg).
  destruct (Z.eqb_spec g no_id); [lia|]. now rewrite Hp.
Qed.

Lemma setgroups_granted_one g st :
  privileged st = true -> 0 <= g < no_id ->
  Os.setgroups [g] st
  = (Ok tt, {| ruid := ruid st; euid := euid st; suid := suid st;
               rgid := rgid st; egid := egid st; sgid := sgid st;
               groups := [g]; environ := environ st;
               connector := connector st |}).
Proof.
  intros Hp Hg. unfold Os.setgroups, bind, lift.
  change (65536 <? Z.of_nat (length [g])) with false. cbv iota.
  cbn [to_ids]. rewrite (to_id_valid g Hg). cbn [bind_result].
  rewrite Hp. cbn [negb existsb].
  destruct (Z.eqb_spec no_id g); [lia|]. reflexivity.
Qed.

(** [restore_id] in a process that is root or has kept 0 as one of its
    uids, with 0 stored as the effective uid and a gid as the effective
    gid: the four system calls are granted and the three assignments to
    [os.environ] run. *)
Lemma restore_id_run (cfg : gmap string value) (st : process) vs g :
  cfg !! "tsi.switch_uid" = Some vs ->
  truthy vs = true ->
  cfg !! "tsi.effective_uid" = Some (VInt 0) ->
  cfg !! "tsi.effective_gid" = Some (VInt g) ->
  0 <= g < no_id ->
  has_root st = true ->
  restore_id cfg st = (Ok tt, restored 0 g st).
Proof.
  intros Hs Ht He Hg Hv Hroot. unfold restore_id.
  rewrite (getitem_Some _ _ _ He), bind_lift_Ok.
  rewrite (getitem_Some _ _ _ Hg), bind_lift_Ok.
  rewrite (getitem_Some _ _ _ Hs), bind_lift_Ok.
  rewrite Ht. cbn [as_int]. rewrite bind_lift_Ok.
  unfold bind at 1. rewrite (setresuid_root st Hroot).
  rewrite bind_lift_Ok.
  unfold bind at 1. rewrite setgid_granted by (auto; reflexivity).
  unfold bind at 1. rewrite setgroups_granted_one by (auto; reflexivity).
  unfold bind at 1. rewrite setegid_granted by (auto; reflexivity).
  reflexivity.
Qed.

(** With 0 stored as the effective uid, [become_user] leaves 0 among the
    uids of the process: as the saved uid when it switches, and as it
    was when it raises. *)
Lemma become_user_keeps_root user gs (cfg : gmap string value) :
  cfg !! "tsi.effective_uid" = Some (VInt 0) ->
  keeps_root (become_user user gs cfg).
Proof.
  intros He st Hroot.
  destruct (become_user_cases user gs cfg st)
    as [(x & -> & _)|[[-> _]|Hrun]]; [assumption|assumption|].
  destruct Hrun as (primary & rest & ev & vs & vf & uc & -> & He' & Hs & Ht
                    & Hc & Hf).
  rewrite He in He'. injection He' as <-.
  rewrite (become_user_run user primary rest cfg st _ vs vf uc He Hs Ht Hc Hf).
  cbv zeta.
  destruct (_ =? -1); [assumption|].
  destruct (_ =? 0); [assumption|].
  match goal with
  | |- has_root (snd (match ?y with _ => _ end)) = true =>
      destruct y as [ids|x]
  end; [|assumption].
  pose proof (switch_calls_spec user uc (VInt 0) (get_uid_4user uc user)
                (fst ids) (snd ids) st) as Hsp.
  destruct (switch_calls _ _ _ _ _ _ _) as [[b|x] st'].
  - destruct Hsp as (_ & _ & saved & [= <-] & ->).
    unfold has_root, switched. cbn. apply orb_true_r.
  - destruct Hsp as (_ & _ & _ & Hkeep). now apply Hkeep.
Qed.

Lemma send_keeps_root x : keeps_root (send x).
Proof. intros st H. exact H. Qed.

Lemma bind_keeps_root {A B} (m : M A) (k : A -> M B) :
  keeps_root m -> (forall a, keeps_root (k a)) -> keeps_root (bind m k).
Proof.
  intros Hm Hk st H. unfold bind. specialize (Hm st H).
  destruct (m st) as [[a|x] st1]; cbn [snd] in *; [|assumption].
  now apply Hk.
Qed.

Section Restore.

Context {BSS : Type}.
Variable search_identity : string -> option (string * string).
Variable PAM_new : M unit.
Variable open_session : string -> M unit.
Variable close_session : M unit.
Variable fork : M Z.
Variable waitpid : Z -> M unit.
Variable run_command : string -> bool -> value -> M (bool * string).
Variable external : handler BSS -> string -> config -> M unit.

Hypothesis PAM_new_keeps_root : keeps_root PAM_new.
Hypothesis open_session_keeps_root :
  forall user, keeps_root (open_session user).
Hypothesis run_command_keeps_root :
  forall message discard children,
    keeps_root (run_command message discard children).
Hypothesis external_keeps_root :
  forall function message cfg, keeps_root (external function message cfg).

Lemma invoke_keeps_root (function : handler BSS) message
    (cfg : gmap string value) :
  keeps_root (invoke run_command external function message cfg).
Proof.
  destruct function; cbn [invoke]; try apply external_keeps_root.
  - apply send_keeps_root.
  - apply bind_keeps_root; [apply send_keeps_root|].
    intros _. apply send_keeps_root.
  - apply bind_keeps_root; [apply run_command_keeps_root|].
    intros [ok out]. cbn [fst snd]. destruct ok; apply send_keeps_root.
Qed.

(** The body of the [try] leaves 0 among the uids, if PAM and the
    handlers do. *)
Lemma guarded_keeps_root (function : handler BSS) message
    (cfg : gmap string value) st :
  cfg !! "tsi.effective_uid" = Some (VInt 0) ->
  has_root st = true ->
  has_root (snd (guarded search_identity PAM_new open_session run_command
                         external function message cfg st)) = true.
Proof.
  intros He Hroot. unfold guarded.
  destruct (truthy (get_default cfg "tsi.switch_uid" (VBool true))).
  2:{ pose proof (invoke_keeps_root function message cfg st Hroot) as H.
      now destruct (invoke _ _ _ _ _ _) as [r st1]. }
  destruct (search_identity message) as [[user colon_list]|]; [|assumption].
  assert (Htail : forall st1,
             has_root st1 = true ->
             forall bound : bool,
               has_root
                 (snd (match become_user user (split_colon colon_list) cfg
                                         st1 with
                       | (Raise e, st2) => (Raise (A:=unit) e, bound, st2)
                       | (Ok user_switch_status, st2) =>
                           if negb user_switch_status
                           then (Raise SwitchStatus, bound, st2)
                           else
                             let (r, st3) :=
                               invoke run_command external function message
                                      cfg st2 in
                             (r, bound, st3)
                       end)) = true).
  { intros st1 H1 bound.
    pose proof (become_user_keeps_root user (split_colon colon_list) cfg He
                  st1 H1) as H2.
    destruct (become_user _ _ _ _) as [[b|x] st2]; cbn [snd] in *;
      [|assumption].
    destruct b; cbn [negb snd]; [|assumption].
    pose proof (invoke_keeps_root function message cfg st2 H2) as H3.
    now destruct (invoke _ _ _ _ _ _) as [r st3]. }
  destruct (truthy (get_default cfg "tsi.open_user_sessions" (VBool false))).
  - pose proof (PAM_new_keeps_root st Hroot) as H1.
    destruct (PAM_new st) as [[u|e] st']; cbn [snd] in H1; [|assumption].
    pose proof (open_session_keeps_root user st' H1) as H2.
    destruct (open_session user st') as [[u'|e] st'']; cbn [snd] in H2;
      [|assumption].
    now apply Htail.
  - now apply Htail.
Qed.


End Restore.


(** The same request, run: alice's identity is taken, the handler raises,
    the failure is sent, and the process is root again. *)
Lemma failing_request_run :
  let out := handle_function Example.identity_of (ret tt) (fun _ => ret tt)
               (ret tt) (ret 0) (fun _ => ret tt) Example.no_output
               Example.failing_handler IO_ls "TSI_LS" "#TSI_LS"
               (Example.cfg 0 0 true false) (Example.proc 0 0) in
  fst out = Ok Returned /\
  (ruid (snd out), euid (snd out), rgid (snd out), egid (snd out),
   groups (snd out)) = (0, 0, 0, 0, [0]) /\
  connector (snd out) = [Failed (External "handler failed")].
Proof. vm_compute. auto. Qed.


(** ** C4: which command a message selects *)

Lemma starts_with_app p post : starts_with p (p +:+ post) = true.
Proof.
  induction p as [|a p IH]; [reflexivity|].
  change (String a p +:+ post) with (String a (p +:+ post)).
  cbn [starts_with]. now rewrite Ascii.eqb_refl, IH.
Qed.

Lemma starts_with_inv p : forall s,
  starts_with p s = true -> exists post, s = p +:+ post.
Proof.
  induction p as [|a p IH]; intros s H; cbn [starts_with] in H.
  - now exists s.
  - destruct s as [|b s]; [discriminate|].
    apply andb_true_iff in H as [Hab Hps].
    apply Ascii.eqb_eq in Hab as ->.
    destruct (IH s Hps) as [post ->]. now exists post.
Qed.

Lemma occurs_cons lit c s : occurs lit s -> occurs lit (String c s).
Proof. intros (pre & post & ->). now exists (String c pre), post. Qed.

Lemma starts_with_occurs lit s : starts_with lit s = true -> occurs lit s.
Proof.
  intros H. destruct (starts_with_inv lit s H) as [post ->].
  now exists EmptyString, post.
Qed.

Lemma match_dotstar_occurs lit s : match_dotstar lit s = true -> occurs lit s.
Proof.
  induction s as [|c s IH]; cbn; intros H.
  - now apply starts_with_occurs.
  - apply orb_true_iff in H as [H|H].
    + destruct (Ascii.eqb c nl); [discriminate|]. auto using occurs_cons.
    + now apply starts_with_occurs.
Qed.

Lemma match_dotstar_starts lit s :
  starts_with lit s = true -> match_dotstar lit s = true.
Proof.
  destruct s as [|c s]; cbn; intros H; [assumption|].
  rewrite H. apply orb_true_r.
Qed.

(** The search of [.*lit] succeeds exactly when [lit] occurs in the
    text: the pattern may start where [lit] starts. *)
Lemma re_search_occurs lit s : re_search lit s = true <-> occurs lit s.
Proof.
  split.
  - induction s as [|c s IH]; cbn; intros H.
    + apply orb_true_iff in H as [H|H]; [|discriminate].
      now apply starts_with_occurs.
    + apply orb_true_iff in H as [H|H].
      * now apply (match_dotstar_occurs lit (String c s)).
      * auto using occurs_cons.
  - intros (pre & post & ->).
    induction pre as [|c pre IH].
    + change (EmptyString +:+ lit +:+ post) with (lit +:+ post).
      assert (H : match_dotstar lit (lit +:+ post) = true)
        by apply match_dotstar_starts, starts_with_app.
      destruct (lit +:+ post); cbn [re_search]; now rewrite H.
    + change (String c pre +:+ lit +:+ post)
        with (String c (pre +:+ lit +:+ post)).
      cbn [re_search]. rewrite IH. apply orb_true_r.
Qed.

(** Every command of the table is such a name, so [have_cmd] is the
    search the loop makes. *)
Lemma init_functions_plain_names :
  forallb plain_name (map fst (init_functions tt)) = true.
Proof. vm_compute. reflexivity. Qed.

Lemma have_cmd_occurs cmd message :
  have_cmd cmd message = true <-> occurs (tag cmd) message.
Proof. apply re_search_occurs. Qed.

(** The scan stops at the first entry of the table whose tag the message
    holds. *)
Lemma scan_first {H} (functions : list (string * H)) message cmd :
  forall todo,
    fst (scan functions todo message) = Some cmd <->
    exists before f after,
      todo = before ++ (cmd, f) :: after /\
      have_cmd cmd message = true /\
      forall c, In c (map fst before) -> have_cmd c message = false.
Proof.
  induction todo as [|[c f] todo IH]; cbn [scan].
  - split; [discriminate|]. intros (before & f & after & E & _).
    now destruct before.
  - destruct (have_cmd c message) eqn:Hc; cbn [fst].
    + split.
      * intros [= ->]. exists [], f, todo. repeat split; auto.
        intros ? [].
      * intros (before & f' & after & E & Hcmd & Hbefore).
        destruct before as [|[c' f''] before]; cbn in E.
        -- now injection E as -> _ _.
        -- injection E as Ec _ _.
           rewrite (Hbefore c) in Hc by (cbn; auto). discriminate.
    + rewrite IH. split.
      * intros (before & f' & after & -> & Hcmd & Hbefore).
        exists ((c, f) :: before), f', after. repeat split; auto.
        intros c' [<-|Hin]; auto.
      * intros (before & f' & after & E & Hcmd & Hbefore).
        destruct before as [|[c' f''] before]; cbn in E.
        -- injection E as Ec _ _. congruence.
        -- injection E as Ec Ef Et.
           exists before, f', after. repeat split; auto.
           intros c0 Hin. apply Hbefore. cbn. auto.
Qed.

(** C4, as the code has it.  The dispatcher selects [cmd] exactly when
    [cmd] is the first entry, in the order of the table of commands, whose
    tag [#cmd\n] occurs somewhere in the message: the table's order
    decides, not the order of the lines of the message. *)
Theorem select_command_first_in_table {H}
    (functions : list (string * H)) (message cmd : string) :
  fst (select_command functions message) = Some cmd <->
  exists before f after,
    functions = before ++ (cmd, f) :: after /\
    occurs (tag cmd) message /\
    forall c, In c (map fst before) -> ~ occurs (tag c) message.
Proof.
  unfold select_command. rewrite scan_first.
  split; intros (before & f & after & E & Hcmd & Hbefore);
    exists before, f, after; repeat split; auto.
  - now apply have_cmd_occurs.
  - intros c Hin Hocc. apply have_cmd_occurs in Hocc.
    rewrite (Hbefore c Hin) in Hocc. discriminate.
  - now apply have_cmd_occurs.
  - intros c Hin. destruct (have_cmd c message) eqn:Hc; [|reflexivity].
    apply have_cmd_occurs in Hc. now destruct (Hbefore c Hin).
Qed.

(** C4 as it is written fails: in [#TSI_DF\n#TSI_LS\n] both lines hold a
    recognized tag, the first line's is [TSI_DF], and the dispatcher
    selects [TSI_LS], which comes before [TSI_DF] in the table. *)
Lemma first_tag_line_is_not_selected :
  let names := map fst (init_functions tt) in
  let message := Example.df_then_ls in
  (1 < length (spec_tag_lines names message))%nat /\
  spec_first_tag names (spec_lines message) = Some "TSI_DF"%string /\
  select_command (init_functions tt) message = (Some "TSI_LS"%string, Some IO_ls).
Proof. vm_compute. repeat split. lia. Qed.


(** * Further properties of the code *)

(** ** The groups [become_user] asks for *)

(** Whatever the loop does, it only ever sets keys of the dict to
    [True]; a property of the dict that [d[k] = True] keeps is kept. *)
Lemma sup_loop_keeps (P : list (Z * bool) -> Prop) ucv vf user
    (cfg : gmap string value) :
  (forall k d, P d -> P (dict_set k true d)) ->
  forall gs d added d',
    P d -> sup_loop ucv vf user cfg gs d added = Ok d' -> P d'.
Proof.
  intros Hset.
  assert (Hadd : forall ks d, P d -> P (add_all ks d)).
  { unfold add_all. induction ks as [|k ks IH]; intros d Hd; cbn; auto. }
  induction gs as [|g gs IH]; intros d added d' Hd; cbn [sup_loop].
  - now intros [= <-].
  - destruct (String.eqb g "DEFAULT_GID").
    + destruct (negb added); [|now apply IH].
      destruct ucv; cbn; try discriminate. apply IH; auto.
    + destruct ucv; cbn; try discriminate.
      destruct (_ =? -1).
      * destruct (truthy vf); [discriminate|now apply IH].
      * destruct (check_membership _ _ _ _) as [[]|e]; cbn; try discriminate.
        -- apply IH; auto.
        -- destruct (truthy vf); cbn; [discriminate|apply IH; auto].
Qed.

Lemma dict_set_head k v p b (d : list (Z * bool)) :
  exists b' t, dict_set k v ((p, b) :: d) = (p, b') :: t.
Proof. cbn. destruct (k =? p); eauto. Qed.

Lemma dict_set_NoDup k v (d : list (Z * bool)) :
  List.NoDup (map fst d) -> List.NoDup (map fst (dict_set k v d)).
Proof.
  induction d as [|[k' v'] d IH]; cbn; intros Hd.
  - repeat constructor. intros [].
  - inversion Hd as [|? ? Hk' Hd']; subst.
    destruct (Z.eqb_spec k k') as [->|Hne]; cbn.
    + now constructor.
    + constructor; [|auto].
      rewrite dict_set_keys. intros [->|Hin]; auto.
Qed.

(** X1.  The list [get_supplementary_groups] returns starts with the
    primary gid it was given and holds no gid twice. *)
Theorem supplementary_groups_primary_first_no_duplicates
    (requested_groups : list string) (primary : Z) (user : string)
    (cfg : gmap string value) (gids : list Z) :
  get_supplementary_groups requested_groups primary user cfg = Ok gids ->
  (exists others, gids = primary :: others) /\ List.NoDup gids.
Proof.
  unfold get_supplementary_groups, getitem.
  destruct (cfg !! "tsi.user_cache") as [ucv|]; cbn; [|discriminate].
  destruct (cfg !! "tsi.fail_on_invalid_gids") as [vf|]; cbn; [|discriminate].
  destruct (sup_loop _ _ _ _ _ _ _) as [d|e] eqn:E; cbn; [|discriminate].
  intros [= <-].
  assert (H : (exists b t, d = (primary, b) :: t) /\
              List.NoDup (map fst d) /\
              Forall (fun kv : Z * bool => snd kv = true) d).
  { revert E.
    apply (sup_loop_keeps
             (fun d => (exists b t, d = (primary, b) :: t) /\
                       List.NoDup (map fst d) /\
                       Forall (fun kv : Z * bool => snd kv = true) d)).
    - intros k d0 ((b & t & ->) & Hnd & Ht). repeat split.
      + apply dict_set_head.
      + now apply dict_set_NoDup.
      + now apply dict_set_all_true.
    - repeat split; eauto; repeat constructor. intros []. }
  destruct H as ((b & t & ->) & Hnd & Ht).
  rewrite (filter_all_true _ Ht). split; [cbn; eauto|exact Hnd].
Qed.

Lemma supplementary_groups_primary_first_no_duplicates_witness :
  (exists others, [100; 500; 200] = 100 :: others) /\ List.NoDup [100; 500; 200].
Proof.
  apply (supplementary_groups_primary_first_no_duplicates
           ["devs"; "DEFAULT_GID"; "users"; "staff"; "devs"]%string 100 "alice"
           (Example.cfg 0 0 true false) [100; 500; 200]).
  vm_compute. reflexivity.
Defined.

(** The membership test returns once the two keys it reads are there and
    the cache is one. *)
Lemma check_membership_total (cfg : gmap string value) g gid user ve uc :
  cfg !! "tsi.enforce_os_gids" = Some ve ->
  cfg !! "tsi.user_cache" = Some (VCache uc) ->
  check_membership g gid user cfg
  = Ok (negb (truthy ve) || (gid =? get_gid_4user uc user)
        || str_in user (get_members_4group uc g)).
Proof.
  intros He Hc. unfold check_membership.
  rewrite (getitem_Some _ _ _ He), (getitem_Some _ _ _ Hc). cbn.
  destruct (truthy ve); cbn; [|reflexivity].
  destruct (gid =? _); cbn; [reflexivity|].
  now destruct (str_in _ _).
Qed.

Lemma count_default_In l :
  count_default l <> 0%nat <-> In "DEFAULT_GID"%string l.
Proof.
  unfold count_default. induction l as [|g l IH]; cbn; [intuition|].
  unfold is_default at 1. destruct (String.eqb_spec g "DEFAULT_GID") as [->|Hne]; cbn.
  - split; [intros _; now left|intros _; discriminate].
  - rewrite IH. intuition congruence.
Qed.

Lemma non_default_In l g :
  In g (non_default l) <-> In g l /\ g <> "DEFAULT_GID"%string.
Proof.
  unfold non_default. rewrite filter_In. unfold is_default.
  destruct (String.eqb_spec g "DEFAULT_GID"); cbn; intuition congruence.
Qed.

(** The gids a list of entries adds are the gids of its known groups. *)
Lemma resolve_entries_gids uc vf user (cfg : gmap string value) gs : forall zs,
  resolve_entries uc vf user cfg gs = Ok zs ->
  forall z, In z zs <->
            exists g, In g gs /\ z = get_gid_4group uc g /\ z <> -1.
Proof.
  induction gs as [|g gs IH]; cbn [resolve_entries]; intros zs.
  - intros [= <-] z. cbn. split; [intros []|intros (g & [] & _)].
  - unfold resolve_entry.
    destruct (Z.eqb_spec (get_gid_4group uc g) (-1)) as [Hg|Hg].
    + destruct (truthy vf); cbn [bind_result]; [discriminate|].
      destruct (resolve_entries _ _ _ _ gs) as [l|e]; cbn [bind_result];
        [|discriminate].
      intros [= <-] z. rewrite (IH l eq_refl z). split.
      * intros (g' & Hin & Hz). exists g'. cbn. auto.
      * intros (g' & [<-|Hin] & Hz & Hne); [congruence|eauto].
    + destruct (check_membership _ _ _ _) as [member|e]; cbn [bind_result];
        [|discriminate].
      destruct (negb member && truthy vf); cbn [bind_result]; [discriminate|].
      destruct (resolve_entries _ _ _ _ gs) as [l|e]; cbn [bind_result];
        [|discriminate].
      intros [= <-] z. cbn [In]. rewrite (IH l eq_refl z). split.
      * intros [<-|(g' & Hin & Hz)]; [exists g; cbn; auto|].
        exists g'. cbn. auto.
      * intros (g' & [<-|Hin] & Hz & Hne); [left; congruence|eauto].
Qed.

(** X2.  The gids [get_supplementary_groups] returns, when it returns:
    the primary gid, the gid of every requested group the cache knows
    (whether or not the user is a member of it), and, if [DEFAULT_GID]
    is among the requested groups, the user's own gids; nothing else. *)
Theorem supplementary_groups_are
    (requested_groups : list string) (primary : Z) (user : string)
    (cfg : gmap string value) (uc : UserCache) (gids : list Z) :
  cfg !! "tsi.user_cache" = Some (VCache uc) ->
  get_supplementary_groups requested_groups primary user cfg = Ok gids ->
  forall z,
    In z gids <->
    z = primary \/
    (exists g, In g requested_groups /\ g <> "DEFAULT_GID"%string /\
               z = get_gid_4group uc g /\ z <> -1) \/
    (In "DEFAULT_GID"%string requested_groups /\ In z (get_gids_4user uc user)).
Proof.
  intros Hc. unfold get_supplementary_groups.
  rewrite (getitem_Some _ _ _ Hc). cbn [bind_result]. unfold getitem.
  destruct (cfg !! "tsi.fail_on_invalid_gids") as [vf|]; cbn [bind_result];
    [|discriminate].
  pose proof (sup_loop_outcome uc vf user cfg requested_groups
                (dict_set primary true []) false) as H.
  destruct (resolve_entries uc vf user cfg (non_default requested_groups))
    as [zs|e] eqn:Ez;
    destruct (sup_loop _ _ _ _ _ _ _) as [d|e']; try contradiction;
    cbn [bind_result]; [|discriminate].
  destruct H as [Ht Hk]. intros [= <-] z.
  rewrite (filter_all_true d) by (apply Ht; repeat constructor).
  rewrite Hk, (resolve_entries_gids _ _ _ _ _ _ Ez z), count_default_In.
  cbn [dict_set map fst In].
  split.
  - intros [[<-|[]]|[(g & Hin & Hz)|(_ & Hd & Hin)]]; auto.
    apply non_default_In in Hin as [Hin Hne].
    right. left. exists g. tauto.
  - intros [->|[(g & Hin & Hne & Hz)|[Hd Hin]]]; auto.
    right. left. exists g. rewrite non_default_In. tauto.
Qed.

Lemma supplementary_groups_are_witness :
  In 500 [100; 500; 200] <->
  500 = 100 \/
  (exists g, In g ["devs"; "DEFAULT_GID"; "nosuchgroup"]%string /\
             g <> "DEFAULT_GID"%string /\
             500 = get_gid_4group Example.cache g /\ 500 <> -1) \/
  (In "DEFAULT_GID"%string ["devs"; "DEFAULT_GID"; "nosuchgroup"]%string /\
   In 500 (get_gids_4user Example.cache "alice")).
Proof.
  apply (supplementary_groups_are
           ["devs"; "DEFAULT_GID"; "nosuchgroup"]%string 100 "alice"
           (Example.cfg 0 0 true false) Example.cache [100; 500; 200]).
  - vm_compute. reflexivity.
  - vm_compute. reflexivity.
Defined.

(** Whether the entries of a list all pass: none raises. *)
Lemma resolve_entries_Ok uc vf user (cfg : gmap string value) ve gs :
  cfg !! "tsi.enforce_os_gids" = Some ve ->
  cfg !! "tsi.user_cache" = Some (VCache uc) ->
  (exists zs, resolve_entries uc vf user cfg gs = Ok zs) <->
  (truthy vf = true ->
   forall g, In g gs ->
     get_gid_4group uc g <> -1 /\
     (truthy ve = true ->
      get_gid_4group uc g = get_gid_4user uc user \/
      str_in user (get_members_4group uc g) = true)).
Proof.
  intros He Hc.
  induction gs as [|g gs IH]; cbn [resolve_entries].
  - split; [intros _ _ g []|eauto].
  - unfold resolve_entry.
    rewrite (check_membership_total cfg g _ user ve uc He Hc).
    cbn [bind_result].
    destruct (truthy vf) eqn:Hf.
    + rewrite andb_true_r.
      destruct (Z.eqb_spec (get_gid_4group uc g) (-1)) as [Hg|Hg].
      { cbn [bind_result]. split; [intros [zs [=]]|].
        intros H. destruct (H eq_refl g) as [Hne _]; [cbn; auto|congruence]. }
      destruct (truthy ve) eqn:Hve; cbn [negb orb].
      * destruct (Z.eqb_spec (get_gid_4group uc g) (get_gid_4user uc user))
          as [Hown|Hown]; cbn [orb negb].
        -- cbn [bind_result].
           destruct (resolve_entries _ _ _ _ gs) as [l|e]; cbn [bind_result].
           ++ split; [|eauto]. intros _ _ g' [<-|Hin]; [auto|].
              destruct IH as [IH _]. apply (IH (ex_intro _ l eq_refl) eq_refl g' Hin).
           ++ split; [intros [zs [=]]|]. intros H.
              destruct IH as [_ IH]. destruct IH as [zs [=]].
              intros _ g' Hin. apply (H eq_refl). cbn. auto.
        -- destruct (str_in user (get_members_4group uc g)) eqn:Hm; cbn [negb].
           ++ cbn [bind_result].
              destruct (resolve_entries _ _ _ _ gs) as [l|e]; cbn [bind_result].
              ** split; [|eauto]. intros _ _ g' [<-|Hin]; [auto|].
                 destruct IH as [IH _].
                 apply (IH (ex_intro _ l eq_refl) eq_refl g' Hin).
              ** split; [intros [zs [=]]|]. intros H.
                 destruct IH as [_ IH]. destruct IH as [zs [=]].
                 intros _ g' Hin. apply (H eq_refl). cbn. auto.
           ++ cbn [bind_result]. split; [intros [zs [=]]|]. intros H.
              destruct (H eq_refl g) as [_ [?|?]]; [cbn; auto|auto|congruence|congruence].
      * cbn [bind_result].
        destruct (resolve_entries _ _ _ _ gs) as [l|e]; cbn [bind_result].
        -- split; [|eauto]. intros _ _ g' [<-|Hin]; [split; [auto|discriminate]|].
           destruct IH as [IH _].
           apply (IH (ex_intro _ l eq_refl) eq_refl g' Hin).
        -- split; [intros [zs [=]]|]. intros H.
           destruct IH as [_ IH]. destruct IH as [zs [=]].
           intros _ g' Hin. apply (H eq_refl). cbn. auto.
    + rewrite andb_false_r.
      destruct IH as [_ IH]. destruct IH as [l Hl]; [discriminate|].
      rewrite Hl.
      destruct (_ =? -1); cbn [bind_result]; (split; [discriminate|eauto]).
Qed.

(** X3.  [get_supplementary_groups] returns a list exactly when
    [fail_on_invalid_gids] is off, or every requested group (other than
    [DEFAULT_GID]) is known to the cache and, under [enforce_os_gids], is
    the user's primary group or has the user among its members. *)
Theorem supplementary_groups_succeeds_iff
    (requested_groups : list string) (primary : Z) (user : string)
    (cfg : gmap string value) (uc : UserCache) (ve vf : value) :
  cfg !! "tsi.user_cache" = Some (VCache uc) ->
  cfg !! "tsi.enforce_os_gids" = Some ve ->
  cfg !! "tsi.fail_on_invalid_gids" = Some vf ->
  (exists gids,
     get_supplementary_groups requested_groups primary user cfg = Ok gids) <->
  (truthy vf = true ->
   forall g, In g requested_groups -> g <> "DEFAULT_GID"%string ->
     get_gid_4group uc g <> -1 /\
     (truthy ve = true ->
      get_gid_4group uc g = get_gid_4user uc user \/
      str_in user (get_members_4group uc g) = true)).
Proof.
  intros Hc He Hf. unfold get_supplementary_groups.
  rewrite (getitem_Some _ _ _ Hc), (getitem_Some _ _ _ Hf). cbn [bind_result].
  pose proof (sup_loop_outcome uc vf user cfg requested_groups
                (dict_set primary true []) false) as H.
  pose proof (resolve_entries_Ok uc vf user cfg ve
                (non_default requested_groups) He Hc) as Hok.
  assert (Hiff : (exists gids,
             (let! sup_gids := sup_loop (VCache uc) vf user cfg requested_groups
                                 (dict_set primary true []) false in
              Ok (map fst (List.filter (fun kv : Z * bool => snd kv) sup_gids)))
             = Ok gids) <->
          exists zs, resolve_entries uc vf user cfg
                       (non_default requested_groups) = Ok zs).
  { destruct (resolve_entries _ _ _ _ _) as [zs|e];
      destruct (sup_loop _ _ _ _ _ _ _) as [d|e']; try contradiction;
      cbn [bind_result]; split; eauto; intros [? [=]]. }
  rewrite Hiff, Hok. split.
  - intros H' Hvf g Hin Hne. apply (H' Hvf). now apply non_default_In.
  - intros H' Hvf g Hin. apply non_default_In in Hin as [Hin Hne]. auto.
Qed.

Lemma supplementary_groups_succeeds_iff_witness :
  (exists gids,
     get_supplementary_groups ["users"; "devs"]%string 100 "alice"
                              (Example.cfg 0 0 true true) = Ok gids) <->
  (truthy (VBool true) = true ->
   forall g, In g ["users"; "devs"]%string -> g <> "DEFAULT_GID"%string ->
     get_gid_4group Example.cache g <> -1 /\
     (truthy (VBool true) = true ->
      get_gid_4group Example.cache g = get_gid_4user Example.cache "alice" \/
      str_in "alice" (get_members_4group Example.cache g) = true)).
Proof.
  apply (supplementary_groups_succeeds_iff
           ["users"; "devs"]%string 100 "alice" (Example.cfg 0 0 true true)
           Example.cache (VBool true) (VBool true)).
  - vm_compute. reflexivity.
  - vm_compute. reflexivity.
  - vm_compute. reflexivity.
Defined.

(** X4.  What [get_primary_group] answers, with the cache of the
    configuration.  The gid it returns is the user's own primary gid, or
    that of the requested group, and then the group is known and, under
    [enforce_os_gids], has the user among its members.  It raises only
    with [fail_on_invalid_gids] on, and the exception names the cause: the
    group is unknown, or the user is not in it. *)
Theorem primary_group_policy
    (primary user : string) (uc : UserCache) (cfg : gmap string value)
    (ve vf : value) :
  cfg !! "tsi.enforce_os_gids" = Some ve ->
  cfg !! "tsi.user_cache" = Some (VCache uc) ->
  match get_primary_group primary user uc vf cfg with
  | Ok g =>
      g = get_gid_4user uc user \/
      (primary <> "DEFAULT_GID"%string /\
       g = get_gid_4group uc primary /\ g <> -1 /\
       (truthy ve = true ->
        str_in user (get_members_4group uc primary) = true))
  | Raise e =>
      truthy vf = true /\ primary <> "DEFAULT_GID"%string /\
      ((e = UnknownPrimaryGroup primary /\ get_gid_4group uc primary = -1) \/
       (e = NotAMember user primary /\ truthy ve = true /\
        get_gid_4group uc primary <> -1 /\
        get_gid_4group uc primary <> get_gid_4user uc user /\
        str_in user (get_members_4group uc primary) = false))
  end.
Proof.
  intros He Hc. unfold get_primary_group.
  destruct (String.eqb_spec primary "DEFAULT_GID") as [->|Hp]; [now left|].
  destruct (Z.eqb_spec (get_gid_4group uc primary) (-1)) as [Hg|Hg].
  - destruct (truthy vf) eqn:Hf; cbn [bind_result]; [tauto|].
    rewrite (check_membership_own_gid cfg primary user ve uc He Hc).
    cbn. now left.
  - cbn [bind_result].
    rewrite (check_membership_total cfg primary _ user ve uc He Hc).
    cbn [bind_result].
    destruct (truthy ve) eqn:Hve; cbn [negb orb].
    + destruct (Z.eqb_spec (get_gid_4group uc primary) (get_gid_4user uc user))
        as [Hown|Hown]; cbn [orb negb]; [now left|].
      destruct (str_in user (get_members_4group uc primary)) eqn:Hm; cbn [negb].
      * right. auto.
      * destruct (truthy vf) eqn:Hf; [|now left].
        repeat split; auto. right. repeat split; auto.
    + right. repeat split; auto. discriminate.
Qed.

Lemma primary_group_policy_witness :
  match get_primary_group "devs" "alice" Example.cache (VBool true)
                          (Example.cfg 0 0 true true) with
  | Ok g =>
      g = get_gid_4user Example.cache "alice" \/
      ("devs"%string <> "DEFAULT_GID"%string /\
       g = get_gid_4group Example.cache "devs" /\ g <> -1 /\
       (truthy (VBool true) = true ->
        str_in "alice" (get_members_4group Example.cache "devs") = true))
  | Raise e =>
      truthy (VBool true) = true /\ "devs"%string <> "DEFAULT_GID"%string /\
      ((e = UnknownPrimaryGroup "devs" /\
        get_gid_4group Example.cache "devs" = -1) \/
       (e = NotAMember "alice" "devs" /\ truthy (VBool true) = true /\
        get_gid_4group Example.cache "devs" <> -1 /\
        get_gid_4group Example.cache "devs"
        <> get_gid_4user Example.cache "alice" /\
        str_in "alice" (get_members_4group Example.cache "devs") = false))
  end.
Proof.
  apply (primary_group_policy "devs" "alice" Example.cache
           (Example.cfg 0 0 true true) (VBool true) (VBool true)).
  - vm_compute. reflexivity.
  - vm_compute. reflexivity.
Defined.

(** ** The identity switch, as a whole *)

(** What a [become_user] that switches and returns has done. *)
Lemma become_user_Ok_inv
    (user : string) (gs : list string) (cfg : gmap string value)
    (st st' : process) (b : bool) (vs : value) (uc : UserCache) :
  cfg !! "tsi.switch_uid" = Some vs ->
  truthy vs = true ->
  cfg !! "tsi.user_cache" = Some (VCache uc) ->
  become_user user gs cfg st = (Ok b, st') ->
  privileged st = true /\
  b = true /\
  get_uid_4user uc user <> 0 /\ get_uid_4user uc user <> -1 /\
  exists primary rest ev saved vf gid gids,
    gs = primary :: rest /\
    cfg !! "tsi.effective_uid" = Some ev /\ as_int ev = Ok saved /\
    cfg !! "tsi.fail_on_invalid_gids" = Some vf /\
    (if String.eqb primary "NONE" then
       gid = get_gid_4user uc user /\ gids = get_gids_4user uc user
     else
       get_primary_group primary user uc vf cfg = Ok gid /\
       get_supplementary_groups gs gid user cfg = Ok gids) /\
    st' = switched (get_uid_4user uc user) saved gid gids
                   (get_home_4user uc user) user st.
Proof.
  intros Hs Ht Hc H.
  destruct (become_user_cases user gs cfg st)
    as [(x & Hx & _)|[[_ (v & Hv & Hf)]|Hrun]].
  - rewrite Hx in H. discriminate.
  - rewrite Hs in Hv. injection Hv as <-. congruence.
  - destruct Hrun as (primary & rest & ev & vs' & vf & uc' & -> & He & Hs'
                      & _ & Hc' & Hf).
    rewrite Hc in Hc'. injection Hc' as <-. clear Hs'.
    rewrite (become_user_run user primary rest cfg st ev vs vf uc He Hs Ht
               Hc Hf) in H.
    cbv zeta in H.
    destruct (Z.eqb_spec (get_uid_4user uc user) (-1)) as [|Hu1];
      [discriminate|].
    destruct (Z.eqb_spec (get_uid_4user uc user) 0) as [|Hu0];
      [discriminate|].
    destruct (String.eqb primary "NONE") eqn:Ep.
    + cbn [fst snd] in H.
      pose proof (switch_calls_spec user uc ev (get_uid_4user uc user)
                    (get_gid_4user uc user) (get_gids_4user uc user) st)
        as Hsp.
      rewrite H in Hsp. destruct Hsp as (-> & Hp & saved & Ei & ->).
      repeat split; auto.
      exists primary, rest, ev, saved, vf.
      exists (get_gid_4user uc user), (get_gids_4user uc user).
      rewrite Ep. repeat split; auto.
    + destruct (get_primary_group _ _ _ _ _) as [gid|x] eqn:Eg;
        cbn [bind_result] in H; [|discriminate].
      destruct (get_supplementary_groups _ _ _ _) as [gids|x] eqn:Egs;
        cbn [bind_result] in H; [|discriminate].
      cbn [fst snd] in H.
      pose proof (switch_calls_spec user uc ev (get_uid_4user uc user)
                    gid gids st) as Hsp.
      rewrite H in Hsp. destruct Hsp as (-> & Hp & saved & Ei & ->).
      repeat split; auto.
      exists primary, rest, ev, saved, vf, gid, gids.
      rewrite Ep. repeat split; auto.
Qed.

(** X5.  A [become_user] that switches and returns has returned [True],
    for a user whose uid is neither 0 nor unknown, and has left the
    process with that uid as real and effective uid and the stored
    effective uid as saved uid; with the gid and the gids of the user
    if the first requested group is [NONE], and otherwise those
    [get_primary_group] and [get_supplementary_groups] give; with [HOME],
    [USER] and [LOGNAME] set for the user; nothing was sent. *)
Theorem become_user_success
    (user : string) (gs : list string) (cfg : gmap string value)
    (st st' : process) (b : bool) (vs : value) (uc : UserCache) :
  cfg !! "tsi.switch_uid" = Some vs ->
  truthy vs = true ->
  cfg !! "tsi.user_cache" = Some (VCache uc) ->
  become_user user gs cfg st = (Ok b, st') ->
  b = true /\
  get_uid_4user uc user <> 0 /\ get_uid_4user uc user <> -1 /\
  exists primary rest ev saved vf gid gids,
    gs = primary :: rest /\
    cfg !! "tsi.effective_uid" = Some ev /\ as_int ev = Ok saved /\
    cfg !! "tsi.fail_on_invalid_gids" = Some vf /\
    (if String.eqb primary "NONE" then
       gid = get_gid_4user uc user /\ gids = get_gids_4user uc user
     else
       get_primary_group primary user uc vf cfg = Ok gid /\
       get_supplementary_groups gs gid user cfg = Ok gids) /\
    st' = switched (get_uid_4user uc user) saved gid gids
                   (get_home_4user uc user) user st.
Proof.
  intros Hs Ht Hc H.
  exact (proj2 (become_user_Ok_inv user gs cfg st st' b vs uc Hs Ht Hc H)).
Qed.

Lemma become_user_success_witness :
  true = true /\
  get_uid_4user Example.cache "alice" <> 0 /\
  get_uid_4user Example.cache "alice" <> -1 /\
  exists primary rest ev saved vf gid gids,
    ["staff"; "users"]%string = primary :: rest /\
    Example.cfg 0 0 true true !! "tsi.effective_uid" = Some ev /\
    as_int ev = Ok saved /\
    Example.cfg 0 0 true true !! "tsi.fail_on_invalid_gids" = Some vf /\
    (if String.eqb primary "NONE" then
       gid = get_gid_4user Example.cache "alice" /\
       gids = get_gids_4user Example.cache "alice"
     else
       get_primary_group primary "alice" Example.cache vf
                         (Example.cfg 0 0 true true) = Ok gid /\
       get_supplementary_groups ["staff"; "users"]%string gid "alice"
                                (Example.cfg 0 0 true true) = Ok gids) /\
    switched 1001 0 200 [200; 100] "/home/alice" "alice" (Example.proc 0 0)
    = switched (get_uid_4user Example.cache "alice") saved gid gids
               (get_home_4user Example.cache "alice") "alice"
               (Example.proc 0 0).
Proof.
  apply (become_user_success "alice" ["staff"; "users"]%string
           (Example.cfg 0 0 true true) (Example.proc 0 0)
           (switched 1001 0 200 [200; 100] "/home/alice" "alice"
                     (Example.proc 0 0))
           true (VBool true) Example.cache).
  - vm_compute. reflexivity.
  - reflexivity.
  - vm_compute. reflexivity.
  - vm_compute. reflexivity.
Defined.

(** Where [become_user] can raise, and what it has done by then. *)
Lemma become_user_raise_inv
    (user : string) (gs : list string) (cfg : gmap string value)
    (st st' : process) (e : exn) :
  become_user user gs cfg st = (Raise e, st') ->
  (st' = st \/ switch_error e) /\
  environ st' = environ st /\ connector st' = connector st.
Proof.
  intros H.
  destruct (become_user_cases user gs cfg st)
    as [(x & Hx & _)|[[Hok _]|Hrun]].
  - rewrite Hx in H. injection H as _ <-. auto.
  - rewrite Hok in H. discriminate.
  - destruct Hrun as (primary & rest & ev & vs & vf & uc & -> & He & Hs & Ht
                      & Hc & Hf).
    rewrite (become_user_run user primary rest cfg st ev vs vf uc He Hs Ht
               Hc Hf) in H.
    cbv zeta in H.
    destruct (_ =? -1); [injection H as _ <-; auto|].
    destruct (_ =? 0); [injection H as _ <-; auto|].
    match type of H with
    | match ?y with _ => _ end = _ => destruct y as [ids|x]
    end; [|injection H as _ <-; auto].
    pose proof (switch_calls_spec user uc ev (get_uid_4user uc user)
                  (fst ids) (snd ids) st) as Hsp.
    rewrite H in Hsp. destruct Hsp as (Hx & Henv & Hcon & _). auto.
Qed.

(** X6.  An exception that [become_user] raises while it reads the
    configuration, looks up the user or resolves and checks the groups
    leaves the process as it was: all of that comes before the first
    system call.  Only the exceptions of the system calls and of the
    checks that follow them ([TypeError], [OverflowError], [ValueError],
    [PermissionError], the [OSError] of an invalid id, and the three
    "could not set" errors) can come with ids already changed.  In every
    case the environment and the connector are as they were. *)
Theorem become_user_fails_before_switching
    (user : string) (gs : list string) (cfg : gmap string value)
    (st st' : process) (e : exn) :
  become_user user gs cfg st = (Raise e, st') ->
  (st' = st \/ switch_error e) /\
  environ st' = environ st /\ connector st' = connector st.
Proof. apply become_user_raise_inv. Qed.

Lemma become_user_fails_before_switching_witness :
  (Example.proc 0 0 = Example.proc 0 0 \/
   switch_error (NotAMember "alice" "devs")) /\
  environ (Example.proc 0 0) = environ (Example.proc 0 0) /\
  connector (Example.proc 0 0) = connector (Example.proc 0 0).
Proof.
  apply (become_user_fails_before_switching "alice" ["devs"%string]
           (Example.cfg 0 0 true true) (Example.proc 0 0) (Example.proc 0 0)
           (NotAMember "alice" "devs")).
  vm_compute. reflexivity.
Defined.

(** ** Switching and switching back *)

(** The restored process takes nothing from the process it comes from
    but the rest of the environment and the connector. *)
Lemma restored_frame e g st st' :
  environ st' = environ st -> connector st' = connector st ->
  restored e g st' = restored e g st.
Proof. intros He Hc. unfold restored. now rewrite He, Hc. Qed.

Lemma restored_switched e g uid saved gid gids home user st :
  restored e g (switched uid saved gid gids home user st) = restored e g st.
Proof.
  unfold restored, switched. cbn [environ connector]. f_equal.
  apply map_eq. intros k.
  destruct (decide (k = "LOGNAME"%string)) as [->|H1].
  { now rewrite !lookup_insert_eq. }
  rewrite (lookup_insert_ne _ "LOGNAME" k) by congruence.
  rewrite (lookup_insert_ne _ "LOGNAME" k) by congruence.
  destruct (decide (k = "USER"%string)) as [->|H2].
  { now rewrite !lookup_insert_eq. }
  rewrite (lookup_insert_ne _ "USER" k) by congruence.
  rewrite (lookup_insert_ne _ "USER" k) by congruence.
  destruct (decide (k = "HOME"%string)) as [->|H3].
  { now rewrite !lookup_insert_eq. }
  rewrite (lookup_insert_ne _ "HOME" k) by congruence.
  rewrite (lookup_insert_ne _ "HOME" k) by congruence.
  rewrite (lookup_insert_ne _ "LOGNAME" k) by congruence.
  rewrite (lookup_insert_ne _ "USER" k) by congruence.
  rewrite (lookup_insert_ne _ "HOME" k) by congruence.
  reflexivity.
Qed.

Lemma restored_idem e g st : restored e g (restored e g st) = restored e g st.
Proof.
  unfold restored. cbn [environ connector]. f_equal.
  apply map_eq. intros k.
  destruct (decide (k = "LOGNAME"%string)) as [->|H1].
  { now rewrite !lookup_insert_eq. }
  rewrite (lookup_insert_ne _ "LOGNAME" k) by congruence.
  rewrite (lookup_insert_ne _ "LOGNAME" k) by congruence.
  destruct (decide (k = "USER"%string)) as [->|H2].
  { now rewrite !lookup_insert_eq. }
  rewrite (lookup_insert_ne _ "USER" k) by congruence.
  rewrite (lookup_insert_ne _ "USER" k) by congruence.
  destruct (decide (k = "HOME"%string)) as [->|H3].
  { now rewrite !lookup_insert_eq. }
  rewrite (lookup_insert_ne _ "HOME" k) by congruence.
  rewrite (lookup_insert_ne _ "HOME" k) by congruence.
  rewrite (lookup_insert_ne _ "LOGNAME" k) by congruence.
  rewrite (lookup_insert_ne _ "USER" k) by congruence.
  rewrite (lookup_insert_ne _ "HOME" k) by congruence.
  reflexivity.
Qed.

Lemma privileged_has_root st : privileged st = true -> has_root st = true.
Proof.
  unfold privileged, has_root. intros ->. now destruct (ruid st =? 0).
Qed.

(** X7.  [restore_id] undoes [become_user].  The stored effective uid
    and gid are those of the process that calls [become_user] (as
    [initialize] stores them and [restore_id] sets them), the gid being a
    gid.  After a [become_user] that returned, [restore_id] leaves the
    process as it would have left the process [become_user] started
    from: no uid, gid, group or environment variable of the user
    remains.  If the process was a restored one before the switch, it is
    the same process again. *)
Theorem restore_id_undoes_become_user
    (user : string) (gs : list string) (cfg : gmap string value)
    (st st1 : process) (b : bool) (vs : value) (e g : Z) :
  cfg !! "tsi.switch_uid" = Some vs ->
  truthy vs = true ->
  cfg !! "tsi.effective_uid" = Some (VInt e) ->
  cfg !! "tsi.effective_gid" = Some (VInt g) ->
  euid st = e ->
  0 <= g < no_id ->
  become_user user gs cfg st = (Ok b, st1) ->
  restore_id cfg st1 = restore_id cfg st /\
  restore_id cfg st1 = (Ok tt, restored e g st) /\
  (forall st0, st = restored e g st0 -> restore_id cfg st1 = (Ok tt, st)).
Proof.
  intros Hs Ht He Hg Heuid Hv H.
  destruct (become_user_cases user gs cfg st)
    as [(x & Hx & _)|[[_ (v & Hv' & Hf)]|Hrun]].
  { rewrite Hx in H. discriminate. }
  { rewrite Hs in Hv'. injection Hv' as <-. congruence. }
  destruct Hrun as (primary & rest & ev & vs' & vf & uc & -> & He' & _ & _
                    & Hc & Hf).
  destruct (become_user_Ok_inv user (primary :: rest) cfg st st1 b vs uc
              Hs Ht Hc H)
    as (Hp & _ & _ & _ & p' & r' & ev' & saved & vf' & gid & gids & _ & Hev
        & Hsaved & _ & _ & ->).
  rewrite He in Hev. injection Hev as <-. cbn in Hsaved.
  injection Hsaved as <-.
  pose proof (privileged_has_root st Hp) as Hroot.
  unfold privileged in Hp. apply Z.eqb_eq in Hp.
  assert (e = 0) as -> by congruence.
  assert (Hroot1 : has_root (switched (get_uid_4user uc user) 0 gid gids
                               (get_home_4user uc user) user st) = true).
  { unfold has_root, switched. cbn. apply orb_true_r. }
  rewrite (restore_id_run cfg _ vs g Hs Ht He Hg Hv Hroot1).
  rewrite (restore_id_run cfg st vs g Hs Ht He Hg Hv Hroot).
  rewrite restored_switched.
  repeat split. intros st0 ->. now rewrite restored_idem.
Qed.

Lemma restore_id_undoes_become_user_witness :
  let cfg := Example.cfg 0 0 true true in
  let st := restored 0 0 (Example.proc 0 0) in
  let st1 := switched 1001 0 200 [200; 100] "/home/alice" "alice" st in
  restore_id cfg st1 = restore_id cfg st /\
  restore_id cfg st1 = (Ok tt, restored 0 0 st) /\
  (forall st0, st = restored 0 0 st0 -> restore_id cfg st1 = (Ok tt, st)).
Proof.
  apply (restore_id_undoes_become_user "alice" ["staff"; "users"]%string
           (Example.cfg 0 0 true true) (restored 0 0 (Example.proc 0 0))
           (switched 1001 0 200 [200; 100] "/home/alice" "alice"
                     (restored 0 0 (Example.proc 0 0)))
           true (VBool true) 0 0).
  - vm_compute. reflexivity.
  - reflexivity.
  - vm_compute. reflexivity.
  - vm_compute. reflexivity.
  - reflexivity.
  - vm_compute. split; [discriminate|reflexivity].
  - vm_compute. reflexivity.
Defined.

(** The stored uid must be the one of the process.  With 5 stored as
    effective uid, root switches to the user, and [restore_id] is then
    refused: it takes uid 5 from the saved uid, and with it the process
    may no longer set its groups. *)
Lemma restore_id_with_another_stored_uid :
  let cfg := Example.cfg 5 0 true true in
  exists st1,
    become_user "alice" ["staff"; "users"]%string cfg (Example.proc 0 0)
    = (Ok true, st1) /\
    suid st1 = 5 /\
    fst (restore_id cfg st1) = Raise PermissionError /\
    euid (snd (restore_id cfg st1)) = 5.
Proof. eexists. vm_compute. repeat split. Qed.

(** ** One request *)

Section Requests.

Context {BSS : Type}.
Variable search_identity : string -> option (string * string).
Variable PAM_new : M unit.
Variable open_session : string -> M unit.
Variable close_session : M unit.
Variable fork : M Z.
Variable waitpid : Z -> M unit.
Variable run_command : string -> bool -> value -> M (bool * string).
Variable external : handler BSS -> string -> config -> M unit.

(** PAM and the handlers leave 0 among the uids of a process that has
    it: they do not give up the way back to root. *)
Hypothesis PAM_new_keeps_root : keeps_root PAM_new.
Hypothesis open_session_keeps_root :
  forall user, keeps_root (open_session user).
Hypothesis run_command_keeps_root :
  forall message discard children,
    keeps_root (run_command message discard children).
Hypothesis external_keeps_root :
  forall function message cfg, keeps_root (external function message cfg).

Lemma do_fork_no_sessions command (cfg : gmap string value) :
  truthy (get_default cfg "tsi.open_user_sessions" (VBool false)) = false ->
  do_fork command cfg = false.
Proof. intros H. unfold do_fork. now rewrite H. Qed.

(** [handle_function] for a request that does not fork, in terms of the
    body of its [try]. *)
Lemma handle_function_no_fork (function : handler BSS) command message
    (cfg : gmap string value) st :
  do_fork command cfg = false ->
  handle_function search_identity PAM_new open_session close_session
                  fork waitpid run_command external
                  function command message cfg st
  = match guarded search_identity PAM_new open_session run_command external
                  function message cfg st with
    | (Ok _, bound, st1) => reset_user_id close_session false bound cfg st1
    | (Raise x, bound, st1) =>
        reset_user_id close_session false bound cfg (snd (send (Failed x) st1))
    end.
Proof.
  intros Hfork. unfold handle_function. rewrite Hfork.
  unfold bind at 1, ret at 1. unfold try_except.
  now destruct (guarded _ _ _ _ _ _ _ _ _) as [[[u|x] bound] st1].
Qed.

(** What follows the [try] when no PAM session is to be closed: nothing
    without [switch_uid], and with it the way back to root. *)
Lemma reset_user_id_no_sessions (cfg : gmap string value) bound st vs g :
  cfg !! "tsi.switch_uid" = Some vs ->
  (truthy vs = true ->
   cfg !! "tsi.effective_uid" = Some (VInt 0) /\
   cfg !! "tsi.effective_gid" = Some (VInt g) /\
   0 <= g < no_id /\
   has_root st = true) ->
  truthy (get_default cfg "tsi.open_user_sessions" (VBool false)) = false ->
  reset_user_id close_session false bound cfg st
  = (Ok Returned, if truthy vs then restored 0 g st else st).
Proof.
  intros Hs Hids Ho. unfold reset_user_id.
  rewrite (get_default_Some cfg "tsi.switch_uid" vs _ Hs), Ho.
  destruct (truthy vs) eqn:Ht; [|reflexivity].
  destruct (Hids eq_refl) as (He & Hg & Hv & Hroot).
  unfold bind. now rewrite (restore_id_run cfg st vs g Hs Ht He Hg Hv Hroot).
Qed.




End Requests.




(** ** One turn of the loop *)

Lemma scan_none {H} (functions : list (string * H)) message : forall todo,
  (forall c, In c (map fst todo) -> have_cmd c message = false) ->
  scan functions todo message = (None, None).
Proof.
  induction todo as [|[c f] todo IH]; cbn [scan]; intros Hno; [reflexivity|].
  rewrite (Hno c) by (cbn; auto). apply IH. intros c' Hin. apply Hno. cbn. auto.
Qed.

Lemma functions_get_In {H} (functions : list (string * H)) cmd :
  In cmd (map fst functions) ->
  exists f, functions_get functions cmd = Some f /\ In (cmd, f) functions.
Proof.
  induction functions as [|[c f] functions IH]; cbn; [intros []|].
  intros Hin. destruct (String.eqb_spec c cmd) as [->|Hne]; [eauto|].
  destruct Hin as [|Hin]; [congruence|].
  destruct (IH Hin) as (f' & -> & Hin'). eauto.
Qed.

Lemma scan_cases {H} (functions : list (string * H)) message : forall todo,
  (forall c, In c (map fst todo) -> In c (map fst functions)) ->
  match scan functions todo message with
  | (Some cmd, Some f) => In (cmd, f) functions /\ have_cmd cmd message = true
  | (None, None) =>
      forall c, In c (map fst todo) -> have_cmd c message = false
  | _ => False
  end.
Proof.
  induction todo as [|[c f] todo IH]; cbn [scan]; intros Hsub.
  - intros c [].
  - destruct (have_cmd c message) eqn:Hc.
    + destruct (functions_get_In functions c) as (f' & -> & Hin);
        [apply Hsub; cbn; auto|auto].
    + assert (Hsub' : forall c', In c' (map fst todo) ->
                                 In c' (map fst functions))
        by (intros c' Hin; apply Hsub; cbn; auto).
      specialize (IH Hsub').
      destruct (scan functions todo message) as [[cmd|] [f'|]]; auto.
      intros c' [<-|Hin]; auto.
Qed.

(** X11.  The scan of [process] finds a command together with its
    function, an entry of the table whose tag is in the message, or it
    finds neither, and then no tag of the table is in the message: the
    reply [Unknown command] is only ever sent for the command [None]. *)
Theorem selected_command_has_its_function {H}
    (functions : list (string * H)) (message : string) :
  match select_command functions message with
  | (Some cmd, Some f) => In (cmd, f) functions /\ occurs (tag cmd) message
  | (None, None) =>
      forall c, In c (map fst functions) -> ~ occurs (tag c) message
  | _ => False
  end.
Proof.
  unfold select_command.
  pose proof (scan_cases functions message functions (fun c Hin => Hin)) as Hs.
  destruct (scan functions functions message) as [[cmd|] [f|]]; auto.
  - destruct Hs as [Hin Hc]. split; [assumption|now apply have_cmd_occurs].
  - intros c Hin Hocc. apply have_cmd_occurs in Hocc.
    rewrite (Hs c Hin) in Hocc. discriminate.
Qed.

Section Turn.

Context {BSS : Type}.
Variable search_identity : string -> option (string * string).
Variable PAM_new : M unit.
Variable open_session : string -> M unit.
Variable close_session : M unit.
Variable fork : M Z.
Variable waitpid : Z -> M unit.
Variable run_command : string -> bool -> value -> M (bool * string).
Variable external : handler BSS -> string -> config -> M unit.

(** X12.  A message that holds no tag of the table is answered with
    [Unknown command None] and the end marker; no handler runs and
    nothing else in the process changes. *)
Theorem unknown_command_reply
    (bss : BSS) (message : string) (cfg : gmap string value) (st : process) :
  (forall c, In c (map fst (init_functions bss)) ->
             ~ occurs (tag c) message) ->
  process_message search_identity PAM_new open_session close_session
                  fork waitpid run_command external bss message cfg st
  = (Ok Returned,
     snd (send (Message "ENDOFMESSAGE")
            (snd (send (FailedUnknown None) st)))).
Proof.
  intros Hno. unfold process_message, select_command.
  rewrite scan_none; [reflexivity|].
  intros c Hin. destruct (have_cmd c message) eqn:Hc; [|reflexivity].
  apply have_cmd_occurs in Hc. now destruct (Hno c Hin).
Qed.

(** X13.  A message that holds the line [#TSI_PING] is answered with the
    version and the end marker, whatever else it holds and whatever the
    configuration: no identity is looked for, no handler is called, and
    the process is otherwise unchanged. *)
Theorem ping_is_answered_first
    (bss : BSS) (message : string) (cfg : gmap string value) (st : process) :
  occurs (tag "TSI_PING") message ->
  process_message search_identity PAM_new open_session close_session
                  fork waitpid run_command external bss message cfg st
  = (Ok Returned,
     snd (send (Message "ENDOFMESSAGE") (snd (send (Message MY_VERSION) st)))).
Proof.
  intros Hocc. apply have_cmd_occurs in Hocc.
  unfold process_message, select_command, init_functions.
  cbn [scan]. rewrite Hocc. reflexivity.
Qed.

(** X14.  When a turn of the loop returns, the last thing it has sent is
    the end marker [ENDOFMESSAGE]. *)
Theorem transaction_ends_with_marker
    (bss : BSS) (message : string) (cfg : gmap string value)
    (st st' : process) :
  process_message search_identity PAM_new open_session close_session
                  fork waitpid run_command external bss message cfg st
  = (Ok Returned, st') ->
  exists before, connector st' = before ++ [Message "ENDOFMESSAGE"].
Proof.
  unfold process_message.
  destruct (select_command (init_functions bss) message) as [[command|] [f|]].
  - destruct (String.eqb "TSI_PING" command).
    + intros [= <-]. cbn. eauto.
    + unfold bind at 1.
      destruct (handle_function _ _ _ _ _ _ _ _ _ _ _ _ _) as [[[|c]|x] st1];
        try discriminate.
      intros [= <-]. cbn. eauto.
  - intros [= <-]. cbn. eauto.
  - intros [= <-]. cbn. eauto.
  - intros [= <-]. cbn. eauto.
Qed.

End Turn.

Lemma unknown_command_reply_witness :
  process_message Example.identity_of (ret tt) (fun _ => ret tt) (ret tt)
                  (ret 0) (fun _ => ret tt) Example.no_output
                  Example.failing_handler tt "#TSI_NOSUCHCOMMAND"
                  (Example.cfg 0 0 true false) (Example.proc 0 0)
  = (Ok Returned,
     snd (send (Message "ENDOFMESSAGE")
            (snd (send (FailedUnknown None) (Example.proc 0 0))))).
Proof.
  apply (unknown_command_reply
           Example.identity_of (ret tt) (fun _ => ret tt) (ret tt)
           (ret 0) (fun _ => ret tt) Example.no_output
           Example.failing_handler tt "#TSI_NOSUCHCOMMAND"
           (Example.cfg 0 0 true false) (Example.proc 0 0)).
  intros c Hin Hocc. apply have_cmd_occurs in Hocc.
  simpl in Hin.
  repeat (destruct Hin as [<-|Hin]; [vm_compute in Hocc; discriminate|]).
  destruct Hin.
Defined.

Lemma ping_is_answered_first_witness :
  process_message Example.identity_of (ret tt) (fun _ => ret tt) (ret tt)
                  (ret 0) (fun _ => ret tt) Example.no_output
                  Example.failing_handler tt
                  ("#TSI_LS" +:+ String nl ("#TSI_PING" +:+ String nl EmptyString))
                  (Example.cfg 0 0 true false) (Example.proc 0 0)
  = (Ok Returned,
     snd (send (Message "ENDOFMESSAGE")
            (snd (send (Message MY_VERSION) (Example.proc 0 0))))).
Proof.
  apply (ping_is_answered_first
           Example.identity_of (ret tt) (fun _ => ret tt) (ret tt)
           (ret 0) (fun _ => ret tt) Example.no_output
           Example.failing_handler tt
           ("#TSI_LS" +:+ String nl ("#TSI_PING" +:+ String nl EmptyString))
           (Example.cfg 0 0 true false) (Example.proc 0 0)).
  exists ("#TSI_LS" +:+ String nl EmptyString), EmptyString.
  vm_compute. reflexivity.
Defined.

Lemma transaction_ends_with_marker_witness :
  exists before,
    [Failed (External "handler failed"); Message "ENDOFMESSAGE"]
    = before ++ [Message "ENDOFMESSAGE"].
Proof.
  apply (transaction_ends_with_marker
           Example.identity_of (ret tt) (fun _ => ret tt) (ret tt)
           (ret 0) (fun _ => ret tt) Example.no_output
           Example.failing_handler tt
           ("#TSI_LS" +:+ String nl EmptyString)
           (Example.cfg 0 0 true false) (Example.proc 0 0)
           (snd (send (Message "ENDOFMESSAGE")
                   (snd (send (Failed (External "handler failed"))
                           (restored 0 0 (Example.proc 0 0))))))).
  vm_compute. reflexivity.
Defined.

(** ** The configuration [initialize] leaves *)

(** The keys [initialize] leaves alone, and the cache it builds. *)
Lemma initialize_keeps
    (UserCache_new : value -> value -> UserCache)
    (cfg cfg' : gmap string value) (st : process) :
  initialize UserCache_new cfg st = Ok cfg' ->
  (forall k : string,
     k <> "tsi.effective_uid"%string -> k <> "tsi.effective_gid"%string ->
     k <> "tsi.switch_uid"%string -> k <> "tsi.user_cache"%string ->
     cfg' !! k = cfg !! k) /\
  exists use_id,
    cfg !! "tsi.use_id_to_resolve_gids" = Some use_id /\
    cfg' !! "tsi.user_cache"
    = Some (VCache (UserCache_new
                      (get_default cfg "tsi.userCacheTtl" (VInt 600)) use_id)).
Proof.
  unfold initialize, getitem.
  set (c1 := <["tsi.effective_gid" := VInt (egid st)]>
               (<["tsi.effective_uid" := VInt (euid st)]> cfg)).
  set (c2 := if truthy (get_default c1 "tsi.switch_uid" (VBool true))
                || (euid st =? 0)
             then <["tsi.switch_uid" := VBool true]> c1
             else <["tsi.switch_uid" := VBool false]> c1).
  assert (Hc2 : forall k : string,
             k <> "tsi.effective_uid"%string ->
             k <> "tsi.effective_gid"%string ->
             k <> "tsi.switch_uid"%string -> c2 !! k = cfg !! k).
  { intros k H1 H2 H3. subst c2 c1.
    destruct (_ || _); now rewrite !lookup_insert_ne by congruence. }
  rewrite (Hc2 "tsi.enforce_os_gids") by discriminate.
  destruct (cfg !! "tsi.enforce_os_gids"); cbn [bind_result]; [|discriminate].
  rewrite (Hc2 "tsi.use_id_to_resolve_gids") by discriminate.
  destruct (cfg !! "tsi.use_id_to_resolve_gids") as [use_id|];
    cbn [bind_result]; [|discriminate].
  intros [= <-]. split.
  - intros k H1 H2 H3 H4. rewrite lookup_insert_ne by congruence. auto.
  - exists use_id. split; [reflexivity|]. rewrite lookup_insert_eq.
    unfold get_default. now rewrite (Hc2 "tsi.userCacheTtl") by discriminate.
Qed.


(** X15.  [initialize] writes four keys and no other: the stored
    effective uid and gid, [switch_uid], and the user cache, which it
    builds from [userCacheTtl] (600 if the key is missing) and
    [use_id_to_resolve_gids].  Every other key keeps its value. *)
Theorem initialize_frame
    (UserCache_new : value -> value -> UserCache)
    (cfg cfg' : gmap string value) (st : process) :
  initialize UserCache_new cfg st = Ok cfg' ->
  (forall k : string,
     k <> "tsi.effective_uid"%string -> k <> "tsi.effective_gid"%string ->
     k <> "tsi.switch_uid"%string -> k <> "tsi.user_cache"%string ->
     cfg' !! k = cfg !! k) /\
  exists use_id,
    cfg !! "tsi.use_id_to_resolve_gids" = Some use_id /\
    cfg' !! "tsi.user_cache"
    = Some (VCache (UserCache_new
                      (get_default cfg "tsi.userCacheTtl" (VInt 600)) use_id)).
Proof. apply initialize_keeps. Qed.

Lemma initialize_frame_witness :
  (forall k : string,
     k <> "tsi.effective_uid"%string -> k <> "tsi.effective_gid"%string ->
     k <> "tsi.switch_uid"%string -> k <> "tsi.user_cache"%string ->
     Example.cfg 0 0 true false !! k = Example.cfg_file false !! k) /\
  exists use_id,
    Example.cfg_file false !! "tsi.use_id_to_resolve_gids" = Some use_id /\
    Example.cfg 0 0 true false !! "tsi.user_cache"
    = Some (VCache ((fun _ _ => Example.cache)
                      (get_default (Example.cfg_file false)
                                   "tsi.userCacheTtl" (VInt 600)) use_id)).
Proof.
  apply (initialize_frame (fun _ _ => Example.cache) (Example.cfg_file false)
           (Example.cfg 0 0 true false) (Example.proc 0 0)).
  vm_compute. reflexivity.
Defined.

(** A TSI that switches but was not started as root cannot restore:
    once its uids are the stored one, [os.setgroups] is refused (or a
    call before it is). *)
Lemma restore_id_refused (cfg : gmap string value) st vs e g :
  cfg !! "tsi.switch_uid" = Some vs ->
  truthy vs = true ->
  cfg !! "tsi.effective_uid" = Some (VInt e) ->
  cfg !! "tsi.effective_gid" = Some (VInt g) ->
  0 < e < no_id ->
  0 <= g < no_id ->
  exists st',
    restore_id cfg st = (Raise PermissionError, st') /\
    environ st' = environ st /\ connector st' = connector st.
Proof.
  intros Hs Ht He Hg Hve Hvg. unfold restore_id.
  rewrite (getitem_Some _ _ _ He), bind_lift_Ok.
  rewrite (getitem_Some _ _ _ Hg), bind_lift_Ok.
  rewrite (getitem_Some _ _ _ Hs), bind_lift_Ok.
  rewrite Ht. cbn [as_int]. rewrite bind_lift_Ok.
  assert (He0 : (e =? 0) = false) by (apply Z.eqb_neq; lia).
  assert (Hen : (e =? no_id) = false) by (apply Z.eqb_neq; lia).
  assert (Hgn : (g =? no_id) = false) by (apply Z.eqb_neq; lia).
  unfold bind at 1. unfold Os.setresuid.
  rewrite (to_id_valid e) by lia. rewrite !bind_lift_Ok.
  rewrite Hen.
  match goal with |- context [if ?c then _ else _] => destruct c end.
  2:{ exists st. auto. }
  rewrite bind_lift_Ok.
  unfold bind at 1. unfold Os.setgid.
  rewrite (to_id_valid g) by lia. rewrite bind_lift_Ok, Hgn.
  unfold privileged at 1. cbn [euid]. rewrite He0.
  match goal with |- context [if ?c then _ else _] => destruct c end.
  2:{ eexists. split; [reflexivity|]. split; reflexivity. }
  unfold bind at 1. unfold Os.setgroups.
  change (65536 <? Z.of_nat (length [g])) with false. cbv iota.
  cbn [to_ids]. rewrite (to_id_valid g) by lia. cbn [bind_result].
  rewrite bind_lift_Ok. unfold privileged. cbn [euid]. rewrite He0.
  cbn [negb]. eexists. split; [reflexivity|]. split; reflexivity.
Qed.

(** X16.  [restore_id] with the configuration [initialize] has left.  If
    switching is off it does nothing.  If the TSI was started as root
    (then switching is on) it gives back uid 0 and the gid the process
    had when [initialize] ran, on any process that still has 0 among its
    uids.  If switching is on and the TSI was started as another user,
    [restore_id] raises [PermissionError], on any process. *)
Theorem restore_id_after_initialize
    (UserCache_new : value -> value -> UserCache)
    (cfg cfg' : gmap string value) (st0 st : process) :
  initialize UserCache_new cfg st0 = Ok cfg' ->
  (stored_switch_uid cfg st0 = false -> restore_id cfg' st = (Ok tt, st)) /\
  (euid st0 = 0 -> 0 <= egid st0 < no_id -> has_root st = true ->
   restore_id cfg' st = (Ok tt, restored 0 (egid st0) st)) /\
  (stored_switch_uid cfg st0 = true ->
   0 < euid st0 < no_id -> 0 <= egid st0 < no_id ->
   exists st',
     restore_id cfg' st = (Raise PermissionError, st') /\
     environ st' = environ st /\ connector st' = connector st).
Proof.
  intros Hinit.
  destruct (initialize_Ok _ _ _ _ Hinit) as (Hs & He & Hg).
  split; [|split].
  - intros Hsw. rewrite Hsw in Hs. unfold restore_id.
    rewrite (getitem_Some _ _ _ He), bind_lift_Ok.
    rewrite (getitem_Some _ _ _ Hg), bind_lift_Ok.
    rewrite (getitem_Some _ _ _ Hs), bind_lift_Ok.
    reflexivity.
  - intros H0 Hv Hroot.
    assert (Hsw : stored_switch_uid cfg st0 = true).
    { unfold stored_switch_uid. rewrite H0. apply orb_true_r. }
    rewrite Hsw in Hs. rewrite H0 in He.
    now apply (restore_id_run cfg' st (VBool true)).
  - intros Hsw Hve Hvg. rewrite Hsw in Hs.
    now apply (restore_id_refused cfg' st (VBool true) (euid st0) (egid st0)).
Qed.

Lemma restore_id_after_initialize_witness :
  let cfg := Example.cfg_file false in
  let cfg' := Example.cfg 0 0 true false in
  let st0 := Example.proc 0 0 in
  let st := switched 1001 0 200 [200; 100] "/home/alice" "alice"
                     (Example.proc 0 0) in
  (stored_switch_uid cfg st0 = false -> restore_id cfg' st = (Ok tt, st)) /\
  (euid st0 = 0 -> 0 <= egid st0 < no_id -> has_root st = true ->
   restore_id cfg' st = (Ok tt, restored 0 (egid st0) st)) /\
  (stored_switch_uid cfg st0 = true ->
   0 < euid st0 < no_id -> 0 <= egid st0 < no_id ->
   exists st',
     restore_id cfg' st = (Raise PermissionError, st') /\
     environ st' = environ st /\ connector st' = connector st).
Proof.
  apply (restore_id_after_initialize (fun _ _ => Example.cache)
           (Example.cfg_file false) (Example.cfg 0 0 true false)
           (Example.proc 0 0)).
  vm_compute. reflexivity.
Defined.

(** ** The lines of the configuration file *)

Lemma app_cons a p q : String a p +:+ q = String a (p +:+ q).
Proof. reflexivity. Qed.

Lemma app_nil_r s : s +:+ EmptyString = s.
Proof. induction s as [|a s IH]; [reflexivity|]. now rewrite app_cons, IH. Qed.

Lemma app_assoc' a b c : (a +:+ b) +:+ c = a +:+ (b +:+ c).
Proof. induction a as [|x a IH]; [reflexivity|]. now rewrite !app_cons, IH. Qed.

Lemma all_chars_app cls a b :
  all_chars cls (a +:+ b) = all_chars cls a && all_chars cls b.
Proof.
  induction a as [|x a IH]; [reflexivity|].
  rewrite app_cons. cbn [all_chars]. now rewrite IH, andb_assoc.
Qed.

Lemma space_not_key c : is_space c = true -> is_key_char c = false.
Proof.
  destruct c as [[] [] [] [] [] [] [] []]; vm_compute; congruence.
Qed.

Lemma space_not_eq c : is_space c = true -> Ascii.eqb c "="%char = false.
Proof.
  destruct c as [[] [] [] [] [] [] [] []]; vm_compute; congruence.
Qed.

Lemma key_not_eq c : is_key_char c = true -> Ascii.eqb c "="%char = false.
Proof.
  destruct c as [[] [] [] [] [] [] [] []]; vm_compute; congruence.
Qed.

(** A star that succeeds has taken a run of the class, and the rest of
    the pattern has succeeded on what follows. *)
Lemma re_star_Some {A} cls (k : string -> option A) r : forall s,
  re_star cls s k = Some r ->
  exists ws s', s = ws +:+ s' /\ all_chars cls ws = true /\ k s' = Some r.
Proof.
  induction s as [|c s IH]; cbn [re_star]; intros H.
  - exists EmptyString, EmptyString. auto.
  - destruct (cls c) eqn:Hc.
    + destruct (re_star cls s k) as [r'|] eqn:E.
      * injection H as ->. destruct (IH eq_refl) as (ws & s' & -> & Hws & Hk).
        exists (String c ws), s'. cbn [all_chars]. rewrite Hc, Hws. auto.
      * exists EmptyString, (String c s). auto.
    + exists EmptyString, (String c s). auto.
Qed.

(** The star takes the whole run when the rest of the pattern accepts
    what follows it. *)
Lemma re_star_greedy {A} cls (k : string -> option A) r s' : forall ws,
  all_chars cls ws = true ->
  match s' with EmptyString => True | String c _ => cls c = false end ->
  k s' = Some r ->
  re_star cls (ws +:+ s') k = Some r.
Proof.
  induction ws as [|w ws IH]; intros Hws Hstop Hk.
  - change (EmptyString +:+ s') with s'.
    destruct s' as [|c s']; cbn [re_star]; [assumption|].
    now rewrite Hstop.
  - rewrite app_cons. cbn [re_star]. cbn [all_chars] in Hws.
    apply andb_true_iff in Hws as [Hw Hws]. rewrite Hw.
    now rewrite (IH Hws Hstop Hk).
Qed.

Lemma re_group_plus_Some {A} cls r : forall s (k : string -> string -> option A),
  re_group_plus cls s k = Some r ->
  exists g s', s = g +:+ s' /\ g <> EmptyString /\
               all_chars cls g = true /\ k g s' = Some r.
Proof.
  induction s as [|c s IH]; cbn [re_group_plus]; intros k H; [discriminate|].
  destruct (cls c) eqn:Hc; [|discriminate].
  destruct (re_group_plus cls s _) as [r'|] eqn:E.
  - injection H as ->.
    destruct (IH _ E) as (g & s' & -> & Hg & Hall & Hk).
    exists (String c g), s'. cbn [all_chars]. rewrite Hc, Hall.
    repeat split; auto; discriminate.
  - exists (String c EmptyString), s. cbn [all_chars]. rewrite Hc.
    repeat split; auto; discriminate.
Qed.

Lemma re_group_plus_greedy {A} cls r s' :
  forall g (k : string -> string -> option A),
  g <> EmptyString ->
  all_chars cls g = true ->
  match s' with EmptyString => True | String c _ => cls c = false end ->
  k g s' = Some r ->
  re_group_plus cls (g +:+ s') k = Some r.
Proof.
  induction g as [|c g IH]; intros k Hne Hall Hstop Hk; [congruence|].
  rewrite app_cons. cbn [re_group_plus]. cbn [all_chars] in Hall.
  apply andb_true_iff in Hall as [Hc Hall]. rewrite Hc.
  destruct g as [|c' g].
  - change (EmptyString +:+ s') with s'.
    destruct s' as [|x s']; cbn [re_group_plus]; [assumption|].
    now rewrite Hstop.
  - rewrite (IH (fun g0 rest => k (String c g0) rest)); auto; discriminate.
Qed.

Lemma re_group_plus_stop {A} cls s (k : string -> string -> option A) :
  match s with EmptyString => True | String c _ => cls c = false end ->
  re_group_plus cls s k = None.
Proof. destruct s as [|c s]; cbn; [reflexivity|]. now intros ->. Qed.

Lemma at_end_inv fin :
  at_end fin = true -> fin = EmptyString \/ fin = String nl EmptyString.
Proof.
  destruct fin as [|c [|c' fin]]; cbn; try discriminate; auto.
  intros H. apply Ascii.eqb_eq in H. subst. auto.
Qed.

Lemma at_end_stop fin :
  at_end fin = true ->
  match fin with EmptyString => True | String c _ => is_dot c = false end.
Proof.
  intros H. destruct (at_end_inv fin H) as [->| ->]; [exact I|reflexivity].
Qed.

Lemma config_line_inv (line key group2 : string) :
  config_line line = Some (key, group2) ->
  exists ws1 ws2 ws3 fin,
    line = ws1 +:+ key +:+ ws2 +:+ "=" +:+ ws3 +:+ group2 +:+ fin /\
    all_chars is_space ws1 = true /\
    (key <> EmptyString /\ all_chars is_key_char key = true) /\
    all_chars is_space ws2 = true /\
    all_chars is_space ws3 = true /\
    (group2 <> EmptyString /\ all_chars is_dot group2 = true) /\
    (fin = EmptyString \/ fin = String nl EmptyString).
Proof.
  unfold config_line. intros H.
  apply re_star_Some in H as (ws1 & s1 & -> & Hws1 & H).
  apply re_group_plus_Some in H as (key' & s2 & -> & Hk & Hkey & H).
  apply re_star_Some in H as (ws2 & s3 & -> & Hws2 & H).
  destruct s3 as [|c s4]; [discriminate|].
  destruct (Ascii.eqb_spec c "="%char) as [->|]; [|discriminate].
  apply re_star_Some in H as (ws3 & s5 & -> & Hws3 & H).
  apply re_group_plus_Some in H as (g & s6 & -> & Hg & Hdot & H).
  destruct (at_end s6) eqn:Hfin; [|discriminate].
  injection H as -> ->.
  exists ws1, ws2, ws3, s6. repeat split; auto using at_end_inv.
Qed.


(** X17.  A line the pattern accepts has the shape the pattern
    describes: blanks, a key of one or more of the characters
    [a-zA-Z0-9.-_/], blanks, [=], blanks, a text of one or more characters
    without a newline, and the end of the line, with or without its
    newline.  The two groups are that key and that text. *)
Theorem config_line_shape (line key group2 : string) :
  config_line line = Some (key, group2) ->
  exists ws1 ws2 ws3 fin,
    line = ws1 +:+ key +:+ ws2 +:+ "=" +:+ ws3 +:+ group2 +:+ fin /\
    all_chars is_space ws1 = true /\
    (key <> EmptyString /\ all_chars is_key_char key = true) /\
    all_chars is_space ws2 = true /\
    all_chars is_space ws3 = true /\
    (group2 <> EmptyString /\ all_chars is_dot group2 = true) /\
    (fin = EmptyString \/ fin = String nl EmptyString).
Proof. apply config_line_inv. Qed.

Lemma config_line_shape_witness :
  exists ws1 ws2 ws3 fin,
    (" tsi.acl./a = NFS " +:+ String nl EmptyString)
    = ws1 +:+ "tsi.acl./a" +:+ ws2 +:+ "=" +:+ ws3 +:+ "NFS " +:+ fin /\
    all_chars is_space ws1 = true /\
    ("tsi.acl./a"%string <> EmptyString /\
     all_chars is_key_char "tsi.acl./a" = true) /\
    all_chars is_space ws2 = true /\
    all_chars is_space ws3 = true /\
    ("NFS "%string <> EmptyString /\ all_chars is_dot "NFS " = true) /\
    (fin = EmptyString \/ fin = String nl EmptyString).
Proof.
  apply (config_line_shape (" tsi.acl./a = NFS " +:+ String nl EmptyString)
           "tsi.acl./a" "NFS ").
  vm_compute. reflexivity.
Defined.

Lemma lstrip_space c s : is_space c = true -> lstrip (String c s) = lstrip s.
Proof. intros H. cbn [lstrip]. now rewrite H. Qed.

Lemma strip_space c s : is_space c = true -> strip (String c s) = strip s.
Proof. intros H. unfold strip. now rewrite lstrip_space. Qed.

(** The value: what follows the [=], less the blanks around it. *)
Lemma value_group (key fin : string) :
  at_end fin = true ->
  forall rest,
    rest <> EmptyString ->
    all_chars is_dot rest = true ->
    exists group2,
      re_star is_space (rest +:+ fin)
        (fun s5 =>
           re_group_plus is_dot s5
             (fun group2 s6 =>
                if at_end s6 then Some (key, group2) else None))
      = Some (key, group2) /\
      strip group2 = strip rest.
Proof.
  intros Hfin.
  set (k := fun s5 : string =>
              re_group_plus is_dot s5
                (fun group2 s6 =>
                   if at_end s6 then Some (key, group2) else None)).
  assert (Hwhole : forall rest, rest <> EmptyString ->
            all_chars is_dot rest = true -> k (rest +:+ fin) = Some (key, rest)).
  { intros rest Hne Hdot. unfold k.
    apply re_group_plus_greedy;
      [assumption|assumption|now apply at_end_stop|cbv beta; now rewrite Hfin]. }
  assert (Hnone : re_star is_space fin k = None).
  { destruct (at_end_inv fin Hfin) as [->| ->]; reflexivity. }
  induction rest as [|c rest IH]; intros Hne Hdot; [congruence|].
  rewrite app_cons. cbn [re_star].
  destruct (is_space c) eqn:Hc.
  - destruct rest as [|c' rest'].
    + change (EmptyString +:+ fin) with fin. rewrite Hnone.
      exists (String c EmptyString). split; [|reflexivity].
      apply (Hwhole (String c EmptyString)); auto.
    + cbn [all_chars] in Hdot. apply andb_true_iff in Hdot as [_ Hdot].
      destruct IH as (g & -> & Hg); [discriminate|assumption|].
      exists g. split; [reflexivity|]. now rewrite strip_space.
  - exists (String c rest). split; [|reflexivity].
    rewrite <- app_cons. now apply Hwhole.
Qed.

(** X18.  A line made of a key, [=] and a text, with blanks before the
    key and around the [=], is read as that key with that text less the
    blanks at its two ends (which may leave the empty string), whether or
    not the line ends in a newline. *)
Theorem key_value_reads_assignment (ws1 key ws2 rest fin : string) :
  all_chars is_space ws1 = true ->
  key <> EmptyString ->
  all_chars is_key_char key = true ->
  all_chars is_space ws2 = true ->
  rest <> EmptyString ->
  all_chars is_dot rest = true ->
  fin = EmptyString \/ fin = String nl EmptyString ->
  key_value (ws1 +:+ key +:+ ws2 +:+ "=" +:+ rest +:+ fin)
  = Some (key, strip rest).
Proof.
  intros Hws1 Hk Hkey Hws2 Hr Hdot Hfin.
  assert (Hend : at_end fin = true) by (destruct Hfin as [->| ->]; reflexivity).
  destruct (value_group key fin Hend rest Hr Hdot) as (g & Hg & Hstrip).
  unfold key_value, config_line.
  destruct key as [|k0 key]; [congruence|].
  pose proof Hkey as Hkey'. cbn [all_chars] in Hkey'.
  apply andb_true_iff in Hkey' as [Hk0 _].
  rewrite (re_star_greedy is_space _ (String k0 key, g)).
  - now rewrite Hstrip.
  - assumption.
  - rewrite app_cons.
    destruct (is_space k0) eqn:Hs; [|reflexivity].
    apply space_not_key in Hs. congruence.
  - apply re_group_plus_greedy; auto.
    + destruct ws2 as [|w ws2].
      * change (EmptyString +:+ "=" +:+ rest +:+ fin)
          with (String "="%char (rest +:+ fin)).
        reflexivity.
      * rewrite app_cons. cbn [all_chars] in Hws2.
        apply andb_true_iff in Hws2 as [Hw _]. now apply space_not_key.
    + apply re_star_greedy; auto.
      change ("=" +:+ rest +:+ fin) with (String "="%char (rest +:+ fin)).
      reflexivity.
Qed.

Lemma key_value_reads_assignment_witness :
  key_value ("  " +:+ "tsi.switch_uid" +:+ " " +:+ "=" +:+ "  false  "
             +:+ String nl EmptyString)
  = Some ("tsi.switch_uid"%string, strip "  false  ").
Proof.
  apply (key_value_reads_assignment "  " "tsi.switch_uid" " " "  false  "
           (String nl EmptyString)).
  - reflexivity.
  - discriminate.
  - reflexivity.
  - reflexivity.
  - discriminate.
  - reflexivity.
  - right. reflexivity.
Defined.

Lemma config_line_no_key line :
  match lstrip line with
  | EmptyString => True
  | String c _ => is_key_char c = false
  end ->
  config_line line = None.
Proof.
  unfold config_line.
  induction line as [|c line IH]; cbn [lstrip re_star]; [reflexivity|].
  destruct (is_space c) eqn:Hc.
  - intros H. rewrite (IH H). cbn [re_group_plus].
    now rewrite (space_not_key c Hc).
  - intros H. cbn [re_group_plus]. now rewrite H.
Qed.

(** X19.  Lines the loader passes over: a line whose first character
    that is not a blank cannot start a key (a comment line, which starts
    with [#], is one), a line of blanks, the empty line, and a line that
    holds no [=]. *)
Theorem key_value_ignores (line : string) :
  match lstrip line with
  | EmptyString => True
  | String c _ => is_key_char c = false
  end \/
  all_chars (fun c => negb (Ascii.eqb c "="%char)) line = true ->
  key_value line = None.
Proof.
  intros [H|H]; unfold key_value.
  - now rewrite (config_line_no_key line H).
  - destruct (config_line line) as [[key g]|] eqn:E; [|reflexivity].
    apply config_line_inv in E
      as (ws1 & ws2 & ws3 & fin & -> & _).
    rewrite !all_chars_app in H. cbn in H.
    rewrite !andb_false_r in H. discriminate.
Qed.

Lemma key_value_ignores_witness :
  key_value ("  # tsi.switch_uid = false" +:+ String nl EmptyString) = None.
Proof.
  apply (key_value_ignores
           ("  # tsi.switch_uid = false" +:+ String nl EmptyString)).
  left. vm_compute. reflexivity.
Defined.

(** ** Loading the configuration *)

Lemma plain_part_Plain {DN} (config : gmap string (entry DN)) k v :
  config !! k = Some (Plain v) -> plain_part config !! k = Some v.
Proof. intros H. unfold plain_part. now rewrite lookup_omap, H. Qed.

Lemma plain_part_None {DN} (config : gmap string (entry DN)) k :
  config !! k = None -> plain_part config !! k = None.
Proof. intros H. unfold plain_part. now rewrite lookup_omap, H. Qed.

(** [initialize] returns when the two keys it reads with [config[...]]
    are there. *)
Lemma initialize_succeeds mk (cfg : gmap string value) st ve vu :
  cfg !! "tsi.enforce_os_gids" = Some ve ->
  cfg !! "tsi.use_id_to_resolve_gids" = Some vu ->
  exists cfg', initialize mk cfg st = Ok cfg'.
Proof.
  intros He Hu. unfold initialize, getitem.
  destruct (truthy _ || _);
    rewrite !lookup_insert_ne by discriminate;
    rewrite He, Hu; cbn; eauto.
Qed.

Section LoaderProperties.

Context {DN : Type}.
Variable convert_dn : string -> result DN.
Variable gethostbyname : string -> option string.

(** What one assignment does to a key that is no ACL key and no
    allowed name. *)
Lemma process_config_value_lookup key value (c c' : gmap string (entry DN)) k :
  starts_with "tsi.acl" k = false ->
  starts_with "tsi.allowed_dn." k = false ->
  k <> "tsi.allowed_dns"%string ->
  process_config_value convert_dn key value c = Ok c' ->
  c' !! k =
  if String.eqb key k then
    Some (Plain (if str_in k boolean_keys
                 then VBool (str_in (lower value) ["1"; "true"]%string)
                 else VStr value))
  else c !! k.
Proof.
  intros Hacl Hdn Hdns. unfold process_config_value.
  destruct (str_in key boolean_keys) eqn:Hb.
  { intros [= <-]. destruct (String.eqb_spec key k) as [->|Hne].
    - now rewrite lookup_insert_eq, Hb.
    - now rewrite lookup_insert_ne. }
  destruct (starts_with "tsi.acl" key) eqn:Ha.
  { assert (Hk : key <> k) by (intros ->; congruence).
    apply String.eqb_neq in Hk. rewrite Hk.
    destruct (_ || _); [|discriminate].
    destruct (c !! "tsi.acl") as [[| |]|]; cbn [bind_result];
      try discriminate; intros [= <-];
      (rewrite lookup_insert_ne; [reflexivity|intros <-; discriminate]). }
  destruct (starts_with "tsi.allowed_dn." key) eqn:Hd.
  { assert (Hk : key <> k) by (intros ->; congruence).
    apply String.eqb_neq in Hk. rewrite Hk.
    destruct (convert_dn value); cbn [bind_result]; [|discriminate].
    destruct (c !! "tsi.allowed_dns") as [[| |]|]; try discriminate;
      intros [= <-]; now rewrite lookup_insert_ne. }
  intros [= <-]. destruct (String.eqb_spec key k) as [->|Hne].
  - now rewrite lookup_insert_eq, Hb.
  - now rewrite lookup_insert_ne.
Qed.

(** What the lines of the file do to such a key: nothing if no line
    names it, and otherwise it holds a flag or a string read from a
    line. *)
Lemma read_lines_lookup k :
  starts_with "tsi.acl" k = false ->
  starts_with "tsi.allowed_dn." k = false ->
  k <> "tsi.allowed_dns"%string ->
  forall lines (c c' : gmap string (entry DN)),
    read_lines convert_dn lines c = Ok c' ->
    (names k lines = false /\ c' !! k = c !! k) \/
    (names k lines = true /\
     exists v, c' !! k =
               Some (Plain (if str_in k boolean_keys
                            then VBool (str_in (lower v) ["1"; "true"]%string)
                            else VStr v))).
Proof.
  intros Hacl Hdn Hdns.
  induction lines as [|line lines IH]; intros c c'; cbn [read_lines].
  - intros [= <-]. now left.
  - unfold names. cbn [existsb]. fold (names k lines).
    destruct (key_value line) as [[key value]|].
    + destruct (process_config_value convert_dn key value c) as [c1|e] eqn:E;
        cbn [bind_result]; [|discriminate].
      intros H. destruct (IH c1 c' H) as [[Hn Hl]|[Hn Hl]].
      * rewrite Hn, orb_false_r, Hl.
        rewrite (process_config_value_lookup key value c c1 k Hacl Hdn Hdns E).
        destruct (String.eqb key k); [right; eauto|now left].
      * right. rewrite Hn, orb_true_r. auto.
    + cbn [orb]. apply IH.
Qed.

Lemma read_lines_app before after : forall (c c' : gmap string (entry DN)),
  read_lines convert_dn (before ++ after) c = Ok c' ->
  exists c1, read_lines convert_dn before c = Ok c1 /\
             read_lines convert_dn after c1 = Ok c'.
Proof.
  induction before as [|line before IH]; intros c c'; cbn [app read_lines].
  - eauto.
  - destruct (key_value line) as [[key value]|]; [|apply IH].
    destruct (process_config_value convert_dn key value c) as [c1|e];
      cbn [bind_result]; [apply IH|discriminate].
Qed.

Lemma setup_acl_lookup (c : gmap string (entry DN)) k :
  k <> "tsi.posixacl_enabled"%string ->
  k <> "tsi.nfsacl_enabled"%string ->
  setup_acl c !! k = c !! k.
Proof.
  intros H1 H2. unfold setup_acl.
  destruct (_ && _); destruct (_ && _);
    now rewrite !lookup_insert_ne by congruence.
Qed.

Lemma is_not_None_insert (c : gmap string (entry DN)) k k' e :
  k <> k' -> is_not_None (<[k' := e]> c) k = is_not_None c k.
Proof. intros H. unfold is_not_None. now rewrite lookup_insert_ne. Qed.

(** The defaults *)
Lemma setup_defaults_lookup k :
  (setup_defaults ∅ : gmap string (entry DN)) !! k =
  if String.eqb k "tsi.safe_dir" then Some (Plain (VStr "/tmp"))
  else if String.eqb k "tsi.njs_machine" then Some (Plain (VStr "localhost"))
  else if String.eqb k "tsi.worker.id" then Some (Plain (VInt 1))
  else if String.eqb k "tsi.use_syslog" then Some (Plain (VBool false))
  else if String.eqb k "tsi.debug" then Some (Plain (VInt 0))
  else if String.eqb k "tsi.open_user_sessions" then Some (Plain (VBool false))
  else if String.eqb k "tsi.use_id_to_resolve_gids" then Some (Plain (VBool false))
  else if String.eqb k "tsi.fail_on_invalid_gids" then Some (Plain (VBool false))
  else if String.eqb k "tsi.enforce_os_gids" then Some (Plain (VBool true))
  else if String.eqb k "tsi.userCacheTtl" then Some (Plain (VInt 600))
  else if String.eqb k "tsi.nodes_filter" then Some (Plain (VStr EmptyString))
  else if String.eqb k "tsi.default_job_name" then Some (Plain (VStr "UnicoreJob"))
  else None.
Proof.
  unfold setup_defaults. cbv zeta.
  repeat match goal with
         | |- <[?s := _]> _ !! k = _ =>
             destruct (String.eqb_spec k s) as [->|?];
             [vm_compute; reflexivity|rewrite lookup_insert_ne by congruence]
         end.
  apply lookup_empty.
Qed.

(** [read_config_file], step by step. *)
Lemma read_config_file_Ok text (config : gmap string (entry DN)) :
  read_config_file convert_dn gethostbyname text = Ok config ->
  exists c1 machines,
    read_lines convert_dn (readlines text) (setup_defaults ∅) = Ok c1 /\
    c1 !! "tsi.njs_machine" = Some (Plain (VStr machines)) /\
    config = <["tsi.allowed_ips" :=
                 Items (map Str (resolve_machines gethostbyname
                                   (split_char ","%char machines)))]>
               (setup_acl c1).
Proof.
  unfold read_config_file.
  destruct (read_lines convert_dn (readlines text) (setup_defaults ∅))
    as [c1|e] eqn:E; cbn [bind_result]; [|discriminate].
  destruct (read_lines_lookup "tsi.njs_machine" eq_refl eq_refl
              ltac:(discriminate) _ _ _ E) as [[_ Hl]|[_ [v Hl]]].
  - rewrite setup_defaults_lookup in Hl. cbn in Hl.
    unfold setup_allowed_ips.
    rewrite setup_acl_lookup, Hl by discriminate. cbn [bind_result].
    intros [= <-]. eauto.
  - cbn in Hl. unfold setup_allowed_ips.
    rewrite setup_acl_lookup, Hl by discriminate. cbn [bind_result].
    intros [= <-]. eauto.
Qed.

Lemma read_config_file_lookup text (config : gmap string (entry DN)) :
  read_config_file convert_dn gethostbyname text = Ok config ->
  exists c1,
    read_lines convert_dn (readlines text) (setup_defaults ∅) = Ok c1 /\
    (forall k : string,
       k <> "tsi.posixacl_enabled"%string ->
       k <> "tsi.nfsacl_enabled"%string ->
       k <> "tsi.allowed_ips"%string ->
       config !! k = c1 !! k) /\
    config !! "tsi.posixacl_enabled"
    = Some (Plain (VBool (is_not_None c1 "tsi.getfacl_cmd"
                          && is_not_None c1 "tsi.setfacl_cmd"))) /\
    config !! "tsi.nfsacl_enabled"
    = Some (Plain (VBool (is_not_None c1 "tsi.nfs_getfacl_cmd"
                          && is_not_None c1 "tsi.nfs_setfacl_cmd"))).
Proof.
  intros H. destruct (read_config_file_Ok text config H)
    as (c1 & machines & Hr & _ & ->).
  exists c1. split; [assumption|]. split; [|split].
  - intros k H1 H2 H3.
    now rewrite lookup_insert_ne, setup_acl_lookup by congruence.
  - rewrite lookup_insert_ne by discriminate. unfold setup_acl.
    destruct (is_not_None c1 "tsi.getfacl_cmd"
              && is_not_None c1 "tsi.setfacl_cmd");
      destruct (_ && _);
      rewrite lookup_insert_ne by discriminate; now rewrite lookup_insert_eq.
  - rewrite lookup_insert_ne by discriminate. unfold setup_acl.
    destruct (is_not_None c1 "tsi.getfacl_cmd"
              && is_not_None c1 "tsi.setfacl_cmd");
      rewrite !is_not_None_insert by discriminate;
      destruct (_ && _); now rewrite lookup_insert_eq.
Qed.

(** X20.  A key that no line of the file names (and that is not one of
    the keys the loader computes) has its default after loading, or none
    if it has no default. *)
Theorem unnamed_keys_keep_their_default
    (text k : string) (config : gmap string (entry DN)) :
  read_config_file convert_dn gethostbyname text = Ok config ->
  names k (readlines text) = false ->
  k <> "tsi.acl"%string -> k <> "tsi.allowed_dns"%string ->
  k <> "tsi.posixacl_enabled"%string -> k <> "tsi.nfsacl_enabled"%string ->
  k <> "tsi.allowed_ips"%string ->
  config !! k = (setup_defaults ∅ : gmap string (entry DN)) !! k.
Proof.
  intros H Hn Ha Hd H1 H2 H3.
  destruct (read_config_file_lookup text config H) as (c1 & Hr & Hk & _).
  rewrite (Hk k H1 H2 H3). clear Hk H.
  revert Hr Hn. generalize (setup_defaults ∅ : gmap string (entry DN)).
  induction (readlines text) as [|line lines IH]; intros c; cbn [read_lines].
  - now intros [= <-].
  - unfold names. cbn [existsb]. fold (names k lines).
    destruct (key_value line) as [[key value]|];
      [|intros Hr Hn; now apply IH].
    destruct (process_config_value convert_dn key value c) as [c2|e] eqn:E;
      cbn [bind_result]; [|discriminate].
    intros Hr Hn. apply orb_false_iff in Hn as [Hkey Hn].
    rewrite (IH c2 Hr Hn). clear IH Hr.
    apply String.eqb_neq in Hkey.
    revert E. unfold process_config_value.
    destruct (str_in key boolean_keys).
    { intros [= <-]. now rewrite lookup_insert_ne. }
    destruct (starts_with "tsi.acl" key).
    { destruct (_ || _); [|discriminate].
      destruct (c !! "tsi.acl") as [[| |]|]; cbn [bind_result];
        try discriminate; intros [= <-]; now rewrite lookup_insert_ne. }
    destruct (starts_with "tsi.allowed_dn." key).
    { destruct (convert_dn value); cbn [bind_result]; [|discriminate].
      destruct (c !! "tsi.allowed_dns") as [[| |]|]; try discriminate;
        intros [= <-]; now rewrite lookup_insert_ne. }
    intros [= <-]. now rewrite lookup_insert_ne.
Qed.

(** X21.  The last line that names a key decides.  For a key that is no
    ACL key, no allowed name and none of the keys the loader computes:
    after loading it holds the value of the last line that names it, as
    a string, or, for one of the six flags, as the flag that is true
    exactly when the value, in lower case, is [1] or [true]. *)
Theorem last_assignment_wins
    (text k v line : string) (before after : list string)
    (config : gmap string (entry DN)) :
  read_config_file convert_dn gethostbyname text = Ok config ->
  readlines text = before ++ line :: after ->
  key_value line = Some (k, v) ->
  names k after = false ->
  starts_with "tsi.acl" k = false ->
  starts_with "tsi.allowed_dn." k = false ->
  k <> "tsi.allowed_dns"%string ->
  k <> "tsi.posixacl_enabled"%string -> k <> "tsi.nfsacl_enabled"%string ->
  k <> "tsi.allowed_ips"%string ->
  config !! k =
  Some (Plain (if str_in k boolean_keys
               then VBool (str_in (lower v) ["1"; "true"]%string)
               else VStr v)).
Proof.
  intros H Hlines Hline Hafter Hacl Hdn Hdns H1 H2 H3.
  destruct (read_config_file_lookup text config H) as (c1 & Hr & Hk & _).
  rewrite (Hk k H1 H2 H3). rewrite Hlines in Hr.
  apply read_lines_app in Hr as (c0 & _ & Hr).
  cbn [read_lines] in Hr. rewrite Hline in Hr.
  destruct (process_config_value convert_dn k v c0) as [c2|e] eqn:E;
    cbn [bind_result] in Hr; [|discriminate].
  destruct (read_lines_lookup k Hacl Hdn Hdns _ _ _ Hr) as [[_ ->]|[Hn _]];
    [|congruence].
  rewrite (process_config_value_lookup k v c0 c2 k Hacl Hdn Hdns E).
  now rewrite String.eqb_refl.
Qed.

(** X22.  What the file can do to [switch_uid].  The loader keeps the
    value of [tsi.switch_uid] as text, and [initialize] takes any text
    but the empty one for true: after [read_config_file] and
    [initialize], [switch_uid] is true unless the process is not root and
    the file gives [tsi.switch_uid] a value of blanks only.  Values such
    as [false], [0] or [no] leave switching on. *)
Theorem switch_uid_is_read_as_text
    (text : string) (config : gmap string (entry DN))
    (UserCache_new : value -> value -> UserCache) (st : process)
    (cfg' : gmap string value) :
  read_config_file convert_dn gethostbyname text = Ok config ->
  initialize UserCache_new (plain_part config) st = Ok cfg' ->
  cfg' !! "tsi.switch_uid" = Some (VBool true) \/
  (cfg' !! "tsi.switch_uid" = Some (VBool false) /\
   euid st <> 0 /\
   names "tsi.switch_uid" (readlines text) = true /\
   config !! "tsi.switch_uid" = Some (Plain (VStr EmptyString))).
Proof.
  intros H Hinit.
  destruct (initialize_Ok _ _ _ _ Hinit) as (Hs & _ & _).
  rewrite Hs. unfold stored_switch_uid, get_default.
  destruct (read_config_file_lookup text config H) as (c1 & Hr & Hk & _).
  destruct (read_lines_lookup "tsi.switch_uid" eq_refl eq_refl
              ltac:(discriminate) _ _ _ Hr) as [[_ Hl]|[Hn [v Hl]]].
  - rewrite setup_defaults_lookup in Hl. cbn in Hl.
    rewrite <- Hk in Hl by discriminate.
    rewrite (plain_part_None config _ Hl). now left.
  - cbn in Hl. rewrite <- Hk in Hl by discriminate.
    rewrite (plain_part_Plain config _ _ Hl). cbn [truthy].
    destruct (String.eqb_spec v EmptyString) as [->|Hv]; [|now left].
    cbn [negb orb]. destruct (Z.eqb_spec (euid st) 0); [now left|].
    right. auto.
Qed.

(** X23.  A configuration [read_config_file] has returned can be given
    to [initialize], which then returns: every key [initialize],
    [become_user], [restore_id] and [handle_function] read is there, the
    flags as flags, the stored ids as integers, the cache as a cache. *)
Theorem loaded_configuration_initializes
    (text : string) (config : gmap string (entry DN))
    (UserCache_new : value -> value -> UserCache) (st : process) :
  read_config_file convert_dn gethostbyname text = Ok config ->
  exists cfg' bs be bf bo uc,
    initialize UserCache_new (plain_part config) st = Ok cfg' /\
    cfg' !! "tsi.effective_uid" = Some (VInt (euid st)) /\
    cfg' !! "tsi.effective_gid" = Some (VInt (egid st)) /\
    cfg' !! "tsi.switch_uid" = Some (VBool bs) /\
    cfg' !! "tsi.enforce_os_gids" = Some (VBool be) /\
    cfg' !! "tsi.fail_on_invalid_gids" = Some (VBool bf) /\
    cfg' !! "tsi.open_user_sessions" = Some (VBool bo) /\
    cfg' !! "tsi.user_cache" = Some (VCache uc).
Proof.
  intros H.
  destruct (read_config_file_lookup text config H) as (c1 & Hr & Hk & _).
  assert (Hflag : forall k : string,
             str_in k boolean_keys = true ->
             k <> "tsi.debug"%string ->
             exists b, plain_part config !! k = Some (VBool b)).
  { intros k Hb Hdebug.
    assert (Hcases : k = "tsi.open_user_sessions"%string \/
                     k = "tsi.enforce_os_gids"%string \/
                     k = "tsi.fail_on_invalid_gids"%string \/
                     k = "tsi.use_id_to_resolve_gids"%string \/
                     k = "tsi.use_syslog"%string).
    { unfold str_in, boolean_keys in Hb. cbn [existsb] in Hb.
      rewrite !orb_true_iff, !String.eqb_eq in Hb.
      intuition congruence. }
    assert (Hord : starts_with "tsi.acl" k = false /\
                   starts_with "tsi.allowed_dn." k = false /\
                   k <> "tsi.allowed_dns"%string /\
                   k <> "tsi.posixacl_enabled"%string /\
                   k <> "tsi.nfsacl_enabled"%string /\
                   k <> "tsi.allowed_ips"%string /\
                   exists b, (setup_defaults ∅ : gmap string (entry DN)) !! k
                             = Some (Plain (VBool b))).
    { destruct Hcases as [->|[->|[->|[->| ->]]]];
        repeat split; try discriminate;
        rewrite setup_defaults_lookup; cbn; eauto. }
    destruct Hord as (Ha & Hd & Hdns & H1 & H2 & H3 & [b Hdef]).
    destruct (read_lines_lookup k Ha Hd Hdns _ _ _ Hr) as [[_ Hl]|[_ [v Hl]]].
    - rewrite Hdef, <- Hk in Hl by assumption.
      exists b. now apply plain_part_Plain.
    - rewrite Hb, <- Hk in Hl by assumption.
      eexists. apply plain_part_Plain. exact Hl. }
  destruct (Hflag "tsi.enforce_os_gids" eq_refl ltac:(discriminate)) as [be He].
  destruct (Hflag "tsi.fail_on_invalid_gids" eq_refl ltac:(discriminate))
    as [bf Hf].
  destruct (Hflag "tsi.use_id_to_resolve_gids" eq_refl ltac:(discriminate))
    as [bu Hu].
  destruct (Hflag "tsi.open_user_sessions" eq_refl ltac:(discriminate))
    as [bo Ho].
  destruct (initialize_succeeds UserCache_new (plain_part config) st _ _ He Hu)
    as [cfg' Hinit].
  destruct (initialize_Ok _ _ _ _ Hinit) as (Hs & Huid & Hgid).
  destruct (initialize_keeps _ _ _ _ Hinit) as (Hkeep & use_id & _ & Hc).
  exists cfg', (stored_switch_uid (plain_part config) st), be, bf, bo.
  eexists. repeat split; try eassumption.
  - now rewrite Hkeep by discriminate.
  - now rewrite Hkeep by discriminate.
  - now rewrite Hkeep by discriminate.
Qed.

(** X24.  POSIX ACL support is on after loading exactly when the file
    names both [tsi.getfacl_cmd] and [tsi.setfacl_cmd], and NFS ACL
    support exactly when it names both [tsi.nfs_getfacl_cmd] and
    [tsi.nfs_setfacl_cmd]; what the file itself says about
    [tsi.posixacl_enabled] or [tsi.nfsacl_enabled] is overwritten. *)
Theorem acl_support_needs_both_commands
    (text : string) (config : gmap string (entry DN)) :
  read_config_file convert_dn gethostbyname text = Ok config ->
  config !! "tsi.posixacl_enabled"
  = Some (Plain (VBool (names "tsi.getfacl_cmd" (readlines text)
                        && names "tsi.setfacl_cmd" (readlines text)))) /\
  config !! "tsi.nfsacl_enabled"
  = Some (Plain (VBool (names "tsi.nfs_getfacl_cmd" (readlines text)
                        && names "tsi.nfs_setfacl_cmd" (readlines text)))).
Proof.
  intros H.
  destruct (read_config_file_lookup text config H) as (c1 & Hr & _ & Hp & Hn).
  assert (Hcmd : forall k : string,
             starts_with "tsi.acl" k = false ->
             starts_with "tsi.allowed_dn." k = false ->
             k <> "tsi.allowed_dns"%string ->
             str_in k boolean_keys = false ->
             (setup_defaults ∅ : gmap string (entry DN)) !! k = None ->
             is_not_None c1 k = names k (readlines text)).
  { intros k Ha Hd Hdns Hb Hdef. unfold is_not_None.
    destruct (read_lines_lookup k Ha Hd Hdns _ _ _ Hr)
      as [[-> Hl]|[-> [v Hl]]].
    - now rewrite Hl, Hdef.
    - now rewrite Hl, Hb. }
  rewrite Hp, Hn.
  rewrite !Hcmd; try reflexivity; try discriminate;
    try (rewrite setup_defaults_lookup; reflexivity).
  split; reflexivity.
Qed.

(** What can make one assignment fail, when [tsi.acl] holds a dict or
    nothing. *)
Lemma process_config_value_Raise key value (c : gmap string (entry DN)) e :
  (c !! "tsi.acl" = None \/ exists d, c !! "tsi.acl" = Some (Dict d)) ->
  process_config_value convert_dn key value c = Raise e ->
  (starts_with "tsi.acl" key = true /\
   value <> "NONE"%string /\ value <> "POSIX"%string /\
   value <> "NFS"%string /\
   e = KeyError (invalid_acl value key)) \/
  (starts_with "tsi.allowed_dn." key = true /\
   (convert_dn value = Raise e \/
    (e = AttributeError /\ exists d, convert_dn value = Ok d))).
Proof.
  intros Hacl. unfold process_config_value.
  destruct (str_in key boolean_keys); [discriminate|].
  destruct (starts_with "tsi.acl" key).
  { destruct (String.eqb_spec "NONE" value) as [|H1]; cbn [orb].
    { destruct Hacl as [->|[d ->]]; discriminate. }
    destruct (String.eqb_spec "POSIX" value) as [|H2]; cbn [orb].
    { destruct Hacl as [->|[d ->]]; discriminate. }
    destruct (String.eqb_spec "NFS" value) as [|H3]; cbn [orb].
    { destruct Hacl as [->|[d ->]]; discriminate. }
    intros [= <-]. left. repeat split; congruence. }
  destruct (starts_with "tsi.allowed_dn." key); [|discriminate].
  destruct (convert_dn value) as [d|x]; cbn [bind_result].
  - intros H. right. split; [reflexivity|]. right. split; [|eauto].
    destruct (c !! "tsi.allowed_dns") as [[| |]|]; congruence.
  - intros [= <-]. right. auto.
Qed.

Lemma process_config_value_acl key value (c c' : gmap string (entry DN)) :
  (c !! "tsi.acl" = None \/ exists d, c !! "tsi.acl" = Some (Dict d)) ->
  process_config_value convert_dn key value c = Ok c' ->
  c' !! "tsi.acl" = None \/ exists d, c' !! "tsi.acl" = Some (Dict d).
Proof.
  intros Hacl. unfold process_config_value.
  destruct (str_in key boolean_keys) eqn:Hb.
  { intros [= <-]. rewrite lookup_insert_ne; [assumption|].
    intros ->. discriminate. }
  destruct (starts_with "tsi.acl" key) eqn:Ha.
  { destruct (_ || _); [|discriminate].
    destruct (c !! "tsi.acl") as [[| |]|]; cbn [bind_result];
      try discriminate; intros [= <-]; right;
      rewrite lookup_insert_eq; eauto. }
  destruct (starts_with "tsi.allowed_dn." key).
  { destruct (convert_dn value); cbn [bind_result]; [|discriminate].
    destruct (c !! "tsi.allowed_dns") as [[| |]|]; try discriminate;
      intros [= <-]; now rewrite lookup_insert_ne. }
  intros [= <-]. rewrite lookup_insert_ne; [assumption|].
  intros ->. discriminate.
Qed.

(** X25.  What can keep the configuration from loading: a line that
    gives a key starting with [tsi.acl] a value other than [NONE],
    [POSIX] or [NFS] (the exception is the [KeyError] that names value
    and key), or a line for a key starting with [tsi.allowed_dn.] whose
    value [SSL.convert_dn] rejects or which finds [tsi.allowed_dns] set
    to something that is no list.  Nothing else does: no other key, no
    other value, no machine that cannot be resolved. *)
Theorem read_config_file_failure (text : string) (e : exn) :
  read_config_file convert_dn gethostbyname text = Raise e ->
  exists line key value,
    In line (readlines text) /\
    key_value line = Some (key, value) /\
    ((starts_with "tsi.acl" key = true /\
      value <> "NONE"%string /\ value <> "POSIX"%string /\
      value <> "NFS"%string /\
      e = KeyError (invalid_acl value key)) \/
     (starts_with "tsi.allowed_dn." key = true /\
      (convert_dn value = Raise e \/
       (e = AttributeError /\ exists d, convert_dn value = Ok d)))).
Proof.
  unfold read_config_file.
  destruct (read_lines convert_dn (readlines text) (setup_defaults ∅))
    as [c1|x] eqn:E; cbn [bind_result].
  - destruct (read_lines_lookup "tsi.njs_machine" eq_refl eq_refl
                ltac:(discriminate) _ _ _ E) as [[_ Hl]|[_ [v Hl]]];
      [rewrite setup_defaults_lookup in Hl|]; cbn in Hl;
      unfold setup_allowed_ips;
      rewrite setup_acl_lookup, Hl by discriminate; discriminate.
  - intros [= ->].
    assert (Hacl : (setup_defaults ∅ : gmap string (entry DN)) !! "tsi.acl"
                   = None \/
                   exists d, (setup_defaults ∅ : gmap string (entry DN))
                             !! "tsi.acl" = Some (Dict d)).
    { left. now rewrite setup_defaults_lookup. }
    revert E Hacl. generalize (setup_defaults ∅ : gmap string (entry DN)).
    induction (readlines text) as [|line lines IH]; intros c;
      cbn [read_lines]; [discriminate|].
    destruct (key_value line) as [[key value]|] eqn:Hkv.
    + destruct (process_config_value convert_dn key value c) as [c2|x] eqn:Ep;
        cbn [bind_result].
      * intros Hr Hacl.
        destruct (IH c2 Hr (process_config_value_acl _ _ _ _ Hacl Ep))
          as (l & k & v & Hin & Hl & Hc).
        exists l, k, v. cbn [In]. auto.
      * intros [= ->] Hacl. exists line, key, value. cbn [In].
        split; [now left|]. split; [assumption|].
        exact (process_config_value_Raise key value c e Hacl Ep).
    + intros Hr Hacl. destruct (IH c Hr Hacl) as (l & k & v & Hin & Hl & Hc).
      exists l, k, v. cbn [In]. auto.
Qed.

(** A property of the configuration that every assignment keeps holds
    when the lines have been read. *)
Lemma read_lines_keeps (P : gmap string (entry DN) -> Prop) :
  (forall key value c c',
     P c -> process_config_value convert_dn key value c = Ok c' -> P c') ->
  forall lines c c',
    P c -> read_lines convert_dn lines c = Ok c' -> P c'.
Proof.
  intros Hstep. induction lines as [|line lines IH]; intros c c' Hc;
    cbn [read_lines].
  - now intros [= <-].
  - destruct (key_value line) as [[key value]|]; [|now apply IH].
    destruct (process_config_value convert_dn key value c) as [c1|e] eqn:E;
      cbn [bind_result]; [|discriminate].
    apply IH. exact (Hstep key value c c1 Hc E).
Qed.

(** X26.  After loading, [tsi.acl] is missing or a dict, and every kind
    the dict gives to a path is [NONE], [POSIX] or [NFS]. *)
Theorem acl_table_holds_valid_kinds
    (text : string) (config : gmap string (entry DN)) :
  read_config_file convert_dn gethostbyname text = Ok config ->
  config !! "tsi.acl" = None \/
  exists d,
    config !! "tsi.acl" = Some (Dict d) /\
    forall path kind,
      d !! path = Some kind ->
      kind = "NONE"%string \/ kind = "POSIX"%string \/ kind = "NFS"%string.
Proof.
  intros H.
  destruct (read_config_file_lookup text config H) as (c1 & Hr & Hk & _).
  rewrite (Hk "tsi.acl") by discriminate. clear Hk H. revert Hr.
  apply (read_lines_keeps
           (fun c => c !! "tsi.acl" = None \/
                     exists d,
                       c !! "tsi.acl" = Some (Dict d) /\
                       forall path kind,
                         d !! path = Some kind ->
                         kind = "NONE"%string \/ kind = "POSIX"%string \/
                         kind = "NFS"%string)).
  - intros key value c c' Hc. unfold process_config_value.
    destruct (str_in key boolean_keys) eqn:Hb.
    { intros [= <-]. rewrite lookup_insert_ne; [assumption|].
      intros ->. discriminate. }
    destruct (starts_with "tsi.acl" key) eqn:Ha.
    { destruct (_ || _) eqn:Hv; [|discriminate].
      assert (Hvalue : value = "NONE"%string \/ value = "POSIX"%string \/
                       value = "NFS"%string).
      { rewrite !orb_true_iff, !String.eqb_eq in Hv. intuition. }
      assert (Hins : forall d : gmap string string,
                 (forall path kind, d !! path = Some kind ->
                    kind = "NONE"%string \/ kind = "POSIX"%string \/
                    kind = "NFS"%string) ->
                 forall path kind,
                   <[str_from 8 key := value]> d !! path = Some kind ->
                   kind = "NONE"%string \/ kind = "POSIX"%string \/
                   kind = "NFS"%string).
      { intros d Hd path kind.
        destruct (decide (str_from 8 key = path)) as [->|Hne].
        - rewrite lookup_insert_eq. now intros [= <-].
        - rewrite lookup_insert_ne by assumption. apply Hd. }
      destruct Hc as [Hc|(d & Hc & Hd)]; rewrite Hc; cbn [bind_result];
        intros [= <-]; right; rewrite lookup_insert_eq; eexists;
        (split; [reflexivity|]); apply Hins; [|assumption].
      intros path kind. rewrite lookup_empty. discriminate. }
    destruct (starts_with "tsi.allowed_dn." key).
    { destruct (convert_dn value); cbn [bind_result]; [|discriminate].
      destruct (c !! "tsi.allowed_dns") as [[| |]|]; try discriminate;
        intros [= <-]; now rewrite lookup_insert_ne. }
    intros [= <-]. rewrite lookup_insert_ne; [assumption|].
    intros ->. discriminate.
  - left. now rewrite setup_defaults_lookup.
Qed.

Lemma resolve_machines_In machines ip :
  In ip (resolve_machines gethostbyname machines) <->
  exists machine, In machine machines /\ gethostbyname machine = Some ip.
Proof.
  induction machines as [|m machines IH]; cbn [resolve_machines].
  - split; [intros []|intros (? & [] & _)].
  - destruct (gethostbyname m) as [ip'|] eqn:E; cbn [In]; rewrite IH.
    + split.
      * intros [<-|(m' & Hin & Hm')]; [exists m; auto|exists m'; auto].
      * intros (m' & [<-|Hin] & Hm'); [left; congruence|right; eauto].
    + split.
      * intros (m' & Hin & Hm'). exists m'. auto.
      * intros (m' & [<-|Hin] & Hm'); [congruence|eauto].
Qed.

(** X27.  The addresses allowed to connect.  After loading,
    [tsi.njs_machine] holds a string (the default [localhost] if no line
    names it), and [tsi.allowed_ips] the list of the addresses of those
    of its comma-separated names that can be resolved: a name that cannot
    be resolved is left out and does not keep the file from loading, and
    what the file says about [tsi.allowed_ips] itself is overwritten. *)
Theorem allowed_ips_are_the_resolved_machines
    (text : string) (config : gmap string (entry DN)) :
  read_config_file convert_dn gethostbyname text = Ok config ->
  exists machines ips,
    config !! "tsi.njs_machine" = Some (Plain (VStr machines)) /\
    (names "tsi.njs_machine" (readlines text) = false ->
     machines = "localhost"%string) /\
    config !! "tsi.allowed_ips" = Some (Items (map Str ips)) /\
    forall ip,
      In ip ips <->
      exists machine,
        In machine (split_char ","%char machines) /\
        gethostbyname machine = Some ip.
Proof.
  intros H.
  destruct (read_config_file_Ok text config H)
    as (c1 & machines & Hr & Hm & ->).
  exists machines, (resolve_machines gethostbyname
                      (split_char ","%char machines)).
  split; [|split; [|split]].
  - now rewrite lookup_insert_ne, setup_acl_lookup by discriminate.
  - intros Hn.
    destruct (read_lines_lookup "tsi.njs_machine" eq_refl eq_refl
                ltac:(discriminate) _ _ _ Hr) as [[_ Hl]|[Hn' _]];
      [|congruence].
    rewrite setup_defaults_lookup in Hl. cbn in Hl. congruence.
  - now rewrite lookup_insert_eq.
  - apply resolve_machines_In.
Qed.

End LoaderProperties.

(** The example file loads, and what it gives can be initialized. *)
Lemma example_file_loads :
  read_config_file ExampleFile.convert_dn ExampleFile.gethostbyname
                   ExampleFile.text
  = Ok ExampleFile.loaded.
Proof. vm_compute. reflexivity. Qed.

Lemma unnamed_keys_keep_their_default_witness :
  ExampleFile.loaded !! "tsi.userCacheTtl"
  = (setup_defaults ∅ : gmap string (entry string)) !! "tsi.userCacheTtl".
Proof.
  apply (unnamed_keys_keep_their_default ExampleFile.convert_dn
           ExampleFile.gethostbyname ExampleFile.text "tsi.userCacheTtl"
           ExampleFile.loaded).
  - exact example_file_loads.
  - vm_compute. reflexivity.
  - discriminate.
  - discriminate.
  - discriminate.
  - discriminate.
  - discriminate.
Defined.

Lemma last_assignment_wins_witness :
  ExampleFile.loaded !! "tsi.fail_on_invalid_gids"
  = Some (Plain (if str_in "tsi.fail_on_invalid_gids" boolean_keys
                 then VBool (str_in (lower "TRUE") ["1"; "true"]%string)
                 else VStr "TRUE")).
Proof.
  apply (last_assignment_wins ExampleFile.convert_dn
           ExampleFile.gethostbyname ExampleFile.text
           "tsi.fail_on_invalid_gids" "TRUE"
           ("tsi.fail_on_invalid_gids=TRUE" +:+ String nl EmptyString)
           (firstn 2 (readlines ExampleFile.text))
           (skipn 3 (readlines ExampleFile.text))
           ExampleFile.loaded).
  - exact example_file_loads.
  - vm_compute. reflexivity.
  - vm_compute. reflexivity.
  - vm_compute. reflexivity.
  - reflexivity.
  - reflexivity.
  - discriminate.
  - discriminate.
  - discriminate.
  - discriminate.
Defined.

Lemma example_file_initializes :
  initialize (fun _ _ => Example.cache) (plain_part ExampleFile.loaded)
             (Example.proc 1000 1000)
  = Ok (match initialize (fun _ _ => Example.cache)
                         (plain_part ExampleFile.loaded)
                         (Example.proc 1000 1000) with
        | Ok c => c
        | Raise _ => ∅
        end).
Proof. vm_compute. reflexivity. Qed.

Lemma switch_uid_is_read_as_text_witness :
  let cfg' := match initialize (fun _ _ => Example.cache)
                               (plain_part ExampleFile.loaded)
                               (Example.proc 1000 1000) with
              | Ok c => c
              | Raise _ => ∅
              end in
  cfg' !! "tsi.switch_uid" = Some (VBool true) \/
  (cfg' !! "tsi.switch_uid" = Some (VBool false) /\
   euid (Example.proc 1000 1000) <> 0 /\
   names "tsi.switch_uid" (readlines ExampleFile.text) = true /\
   ExampleFile.loaded !! "tsi.switch_uid" = Some (Plain (VStr EmptyString))).
Proof.
  apply (switch_uid_is_read_as_text ExampleFile.convert_dn
           ExampleFile.gethostbyname ExampleFile.text ExampleFile.loaded
           (fun _ _ => Example.cache) (Example.proc 1000 1000)).
  - exact example_file_loads.
  - exact example_file_initializes.
Defined.

Lemma loaded_configuration_initializes_witness :
  exists cfg' bs be bf bo uc,
    initialize (fun _ _ => Example.cache) (plain_part ExampleFile.loaded)
               (Example.proc 0 0) = Ok cfg' /\
    cfg' !! "tsi.effective_uid" = Some (VInt (euid (Example.proc 0 0))) /\
    cfg' !! "tsi.effective_gid" = Some (VInt (egid (Example.proc 0 0))) /\
    cfg' !! "tsi.switch_uid" = Some (VBool bs) /\
    cfg' !! "tsi.enforce_os_gids" = Some (VBool be) /\
    cfg' !! "tsi.fail_on_invalid_gids" = Some (VBool bf) /\
    cfg' !! "tsi.open_user_sessions" = Some (VBool bo) /\
    cfg' !! "tsi.user_cache" = Some (VCache uc).
Proof.
  apply (loaded_configuration_initializes ExampleFile.convert_dn
           ExampleFile.gethostbyname ExampleFile.text ExampleFile.loaded
           (fun _ _ => Example.cache) (Example.proc 0 0)).
  exact example_file_loads.
Defined.

Lemma acl_support_needs_both_commands_witness :
  ExampleFile.loaded !! "tsi.posixacl_enabled"
  = Some (Plain (VBool (names "tsi.getfacl_cmd" (readlines ExampleFile.text)
                        && names "tsi.setfacl_cmd"
                                 (readlines ExampleFile.text)))) /\
  ExampleFile.loaded !! "tsi.nfsacl_enabled"
  = Some (Plain (VBool (names "tsi.nfs_getfacl_cmd"
                              (readlines ExampleFile.text)
                        && names "tsi.nfs_setfacl_cmd"
                                 (readlines ExampleFile.text)))).
Proof.
  apply (acl_support_needs_both_commands ExampleFile.convert_dn
           ExampleFile.gethostbyname ExampleFile.text ExampleFile.loaded).
  exact example_file_loads.
Defined.

Lemma read_config_file_failure_witness :
  exists line key value,
    In line (readlines ExampleFile.bad_text) /\
    key_value line = Some (key, value) /\
    ((starts_with "tsi.acl" key = true /\
      value <> "NONE"%string /\ value <> "POSIX"%string /\
      value <> "NFS"%string /\
      KeyError (invalid_acl "posix" "tsi.acl./scratch")
      = KeyError (invalid_acl value key)) \/
     (starts_with "tsi.allowed_dn." key = true /\
      (ExampleFile.convert_dn value
       = Raise (KeyError (invalid_acl "posix" "tsi.acl./scratch")) \/
       (KeyError (invalid_acl "posix" "tsi.acl./scratch") = AttributeError /\
        exists d, ExampleFile.convert_dn value = Ok d)))).
Proof.
  apply (read_config_file_failure ExampleFile.convert_dn
           ExampleFile.gethostbyname ExampleFile.bad_text
           (KeyError (invalid_acl "posix" "tsi.acl./scratch"))).
  vm_compute. reflexivity.
Defined.

Lemma acl_table_holds_valid_kinds_witness :
  ExampleFile.loaded !! "tsi.acl" = None \/
  exists d,
    ExampleFile.loaded !! "tsi.acl" = Some (Dict d) /\
    forall path kind,
      d !! path = Some kind ->
      kind = "NONE"%string \/ kind = "POSIX"%string \/ kind = "NFS"%string.
Proof.
  apply (acl_table_holds_valid_kinds ExampleFile.convert_dn
           ExampleFile.gethostbyname ExampleFile.text ExampleFile.loaded).
  exact example_file_loads.
Defined.

Lemma allowed_ips_are_the_resolved_machines_witness :
  exists machines ips,
    ExampleFile.loaded !! "tsi.njs_machine" = Some (Plain (VStr machines)) /\
    (names "tsi.njs_machine" (readlines ExampleFile.text) = false ->
     machines = "localhost"%string) /\
    ExampleFile.loaded !! "tsi.allowed_ips" = Some (Items (map Str ips)) /\
    forall ip,
      In ip ips <->
      exists machine,
        In machine (split_char ","%char machines) /\
        ExampleFile.gethostbyname machine = Some ip.
Proof.
  apply (allowed_ips_are_the_resolved_machines ExampleFile.convert_dn
           ExampleFile.gethostbyname ExampleFile.text ExampleFile.loaded).
  exact example_file_loads.
Defined.

(** ** The groups of the identity line *)

Lemma split_colon_nonempty s : split_colon s <> [].
Proof.
  destruct s as [|c s]; cbn; [discriminate|].
  destruct (Ascii.eqb c ":"%char); [discriminate|].
  destruct (split_colon s); discriminate.
Qed.

Lemma check_membership_not_IndexError group gid user
    (cfg : gmap string value) :
  check_membership group gid user cfg <> Raise IndexError.
Proof.
  unfold check_membership, getitem, as_cache.
  repeat match goal with
         | |- context [match ?x with _ => _ end] => destruct x; cbn
         end; discriminate.
Qed.

Lemma get_primary_group_not_IndexError primary user uc vf
    (cfg : gmap string value) :
  get_primary_group primary user uc vf cfg <> Raise IndexError.
Proof.
  unfold get_primary_group.
  destruct (String.eqb primary "DEFAULT_GID"); [discriminate|].
  destruct (_ =? -1); [destruct (truthy vf)|]; cbn; try discriminate;
    (destruct (check_membership _ _ _ _) as [[]|e] eqn:E; cbn;
     [ discriminate
     | destruct (truthy vf); discriminate
     | intros [= ->]; now apply check_membership_not_IndexError in E ]).
Qed.

Lemma sup_loop_not_IndexError ucv vf user (cfg : gmap string value) gs :
  forall d added, sup_loop ucv vf user cfg gs d added <> Raise IndexError.
Proof.
  induction gs as [|g gs IH]; intros d added; cbn [sup_loop]; [discriminate|].
  destruct (String.eqb g "DEFAULT_GID").
  - destruct (negb added); [|apply IH].
    destruct ucv; cbn; try discriminate. apply IH.
  - destruct ucv; cbn; try discriminate.
    destruct (_ =? -1).
    + destruct (truthy vf); [discriminate|apply IH].
    + destruct (check_membership _ _ _ _) as [[]|e] eqn:E; cbn.
      * apply IH.
      * destruct (truthy vf); cbn; [discriminate|apply IH].
      * intros [= ->]. now apply check_membership_not_IndexError in E.
Qed.

Lemma get_supplementary_groups_not_IndexError gs primary user
    (cfg : gmap string value) :
  get_supplementary_groups gs primary user cfg <> Raise IndexError.
Proof.
  unfold get_supplementary_groups, getitem.
  destruct (cfg !! "tsi.user_cache"); cbn; [|discriminate].
  destruct (cfg !! "tsi.fail_on_invalid_gids"); cbn; [|discriminate].
  destruct (sup_loop _ _ _ _ _ _ _) eqn:E; cbn; [discriminate|].
  intros [= ->]. now apply sup_loop_not_IndexError in E.
Qed.

(** X28.  [become_user] reads [requested_groups[0]] without a test.  The
    list [handle_function] gives it, the second field of the identity
    line split at its colons, is never empty, and [become_user] raises
    [IndexError] for an empty list only: a request never fails with it. *)
Theorem identity_groups_are_never_empty
    (user colon_list : string) (gs : list string)
    (cfg : gmap string value) (st st' : process) :
  split_colon colon_list <> [] /\
  (become_user user gs cfg st = (Raise IndexError, st') -> gs = []) /\
  become_user user (split_colon colon_list) cfg st <> (Raise IndexError, st').
Proof.
  assert (Hcalls : forall uc ev uid gid gids,
             switch_calls user uc ev uid gid gids st
             = (Raise IndexError, st') -> False).
  { intros uc ev uid gid gids H.
    pose proof (switch_calls_spec user uc ev uid gid gids st) as Hspec.
    rewrite H in Hspec. exact (proj1 Hspec). }
  assert (Hinv : forall gs', become_user user gs' cfg st
                             = (Raise IndexError, st') -> gs' = []).
  { intros gs'. unfold become_user, bind, lift, raise, ret, getitem.
    destruct (cfg !! "tsi.effective_uid") as [e|]; [|discriminate].
    destruct (cfg !! "tsi.switch_uid") as [v|]; [|discriminate].
    destruct (cfg !! "tsi.user_cache") as [c|]; [|discriminate].
    destruct (cfg !! "tsi.fail_on_invalid_gids") as [f|]; [|discriminate].
    destruct gs' as [|primary rest]; [reflexivity|].
    destruct (truthy v); cbn [negb].
    2:{ destruct (eq_int e 0); discriminate. }
    destruct c; cbn [as_cache]; try discriminate.
    destruct (_ =? -1); [discriminate|].
    destruct (_ =? 0); [discriminate|].
    destruct (String.eqb primary "NONE").
    - cbn [bind_result fst snd]. intros H. destruct (Hcalls _ _ _ _ _ H).
    - destruct (get_primary_group _ _ _ _ _) as [new_gid|x] eqn:E1; cbn.
      2:{ intros [= -> _]. now apply get_primary_group_not_IndexError in E1. }
      destruct (get_supplementary_groups _ _ _ _) as [new_gids|x] eqn:E2; cbn.
      2:{ intros [= -> _].
          now apply get_supplementary_groups_not_IndexError in E2. }
      cbn [fst snd]. intros H. destruct (Hcalls _ _ _ _ _ H). }
  split; [apply split_colon_nonempty|]. split; [apply Hinv|].
  intros H. apply Hinv in H. now apply split_colon_nonempty in H.
Qed.
